(** * sqlite-rest: the schema-driven query engine of [cmd/sqlite-rest/main.go]

    A shallow embedding of the handlers of [main.go] ([loadTableInfo],
    [handleAPIInfo], [handleTableQuery], [handleRecordQuery]) together with
    the parts of the Go libraries they call ([strconv], [net/url],
    [database/sql]) and a small executable model of the SQLite statements the
    program issues. *)

From Stdlib Require Import ZArith Strings.Byte Ascii String List Sorted Permutation Lia.
From Stdlib Require Import DecimalString DecimalZ.
From stdpp Require Import gmap strings list fin_maps.

Local Open Scope string_scope.
Local Open Scope list_scope.

(** ** Go values *)

(** A Go [error], identified with the text [err.Error()] returns. *)
Definition error := string.

(** A Go call returning [(A, error)]. *)
Inductive result (A : Type) : Type :=
  | Ok (a : A)
  | Err (e : error).
Arguments Ok {A} a.
Arguments Err {A} e.

(** [x, err := m; if err != nil { return err }; k]. *)
Definition try {A B} (m : result A) (k : A -> result B) : result B :=
  match m with
  | Ok a => k a
  | Err e => Err e
  end.

Notation "'let?' x ':=' m 'in' k" := (try m (fun x => k))
  (at level 10, x pattern, m at level 100, k at level 200).

(** A Go slice. [None] is the nil slice (what [var xs []T] declares, rendered
    as JSON [null]); [Some l] is an allocated slice ([make([]T, 0)],
    [[]T{}], or the result of appending to nil). *)
Definition slice (A : Type) := option (list A).

Definition elems {A} (s : slice A) : list A := default [] s.

(** [append(s, xs...)]. Appending no element returns [s] itself. *)
Definition append {A} (s : slice A) (xs : list A) : slice A :=
  match xs with
  | [] => s
  | _ => Some (elems s ++ xs)
  end.

(** ** strconv *)

Module strconv.

Definition is_digit (c : ascii) : bool :=
  (48 <=? nat_of_ascii c)%nat && (nat_of_ascii c <=? 57)%nat.

Definition digit_value (c : ascii) : Z := Z.of_nat (nat_of_ascii c) - 48.

(** The digit loop of [ParseUint] in base 10: [n = n*10 + digit]. *)
Fixpoint parse_digits (s : string) (n : Z) : option Z :=
  match s with
  | EmptyString => Some n
  | String ch s' =>
      if is_digit ch then parse_digits s' (n * 10 + digit_value ch)%Z else None
  end.

(** [strconv.Atoi] on a 64-bit platform: an optional sign, one or more
    decimal digits and nothing else; [None] stands for a syntax error or a
    value outside [int]. *)
Definition Atoi (s : string) : option Z :=
  let unsigned (neg : bool) (digits : string) :=
    match digits with
    | EmptyString => None
    | _ =>
        match parse_digits digits 0 with
        | Some n =>
            let v := if neg then (- n)%Z else n in
            if ((- 2 ^ 63 <=? v) && (v <=? 2 ^ 63 - 1))%Z then Some v else None
        | None => None
        end
    end in
  match s with
  | EmptyString => None
  | String "-" s' => unsigned true s'
  | String "+" s' => unsigned false s'
  | _ => unsigned false s
  end.

(** The [%d] verb of [fmt.Sprintf] ([strconv.Itoa]). *)
Definition Itoa (n : Z) : string := NilEmpty.string_of_int (Z.to_int n).

End strconv.

(** ** net/url and the gin request context *)

Module url.

(** [url.Values] is [map[string][]string]. *)
Abbreviation Values := (gmap string (list string)).

(** [url.ParseQuery] on the decoded [key=value] pairs of the query string,
    in URL order: [m[key] = append(m[key], value)]. *)
Definition ParseQuery (pairs : list (string * string)) : Values :=
  fold_left (fun m kv => <[kv.1 := default [] (m !! kv.1) ++ [kv.2]]> m) pairs ∅.

End url.

Module gin.

(** The part of [gin.Context] the handlers read. [RawQuery] is the query
    string of the request URL as its decoded [key=value] pairs;
    [RangeQuery] is the sequence of entries a
    [for key, values := range c.Request.URL.Query()] loop visits (Go leaves
    the order unspecified); [ParamID] is [c.Param("id")]. *)
Record Context := {
  RawQuery : list (string * string);
  RangeQuery : list (string * list string);
  ParamID : string;
}.

(** [c.Request.URL.Query()]. *)
Definition URLQuery (c : Context) : url.Values := url.ParseQuery (RawQuery c).

(** Go's [range] over a map visits every entry exactly once. *)
Definition range_ok (c : Context) : Prop :=
  RangeQuery c ≡ₚ map_to_list (URLQuery c).

(** A request as it arrives: the map is ranged over in the order
    [map_to_list] gives. *)
Definition request (pairs : list (string * string)) (id : string) : Context :=
  {| RawQuery := pairs;
     RangeQuery := map_to_list (url.ParseQuery pairs);
     ParamID := id |}.

(** [c.Query(key)]: the first value of [key], or the empty string when the
    key is absent. *)
Definition Query (c : Context) (key : string) : string :=
  match URLQuery c !! key with
  | Some (v :: _) => v
  | _ => ""
  end.

End gin.

(** ** database/sql *)

Module sql.

(** A [float64] is carried by its shortest round-tripping decimal text
    ([strconv.FormatFloat(f, 'g', -1, 64)]), which determines it; no
    arithmetic on floats is ever needed. *)
Inductive float64 := Float64 (text : string).

(** [!math.IsInf(f, 0) && !math.IsNaN(f)]: the three values that are not
    finite are formatted as [+Inf], [-Inf] and [NaN]. *)
Definition finite (f : float64) : bool :=
  match f with
  | Float64 text =>
      negb ((text =? "+Inf")%string || (text =? "-Inf")%string || (text =? "NaN")%string)
  end.

(** A [time.Time] of a year from 0 to 9999, carried by its RFC 3339 text. *)
Inductive Time := MkTime (rfc3339 : string).

(** [driver.Value]: what a driver hands to [Scan]. *)
Inductive Value :=
  | VNil
  | VInt (n : Z)
  | VFloat (f : float64)
  | VBool (b : bool)
  | VBytes (b : list byte)
  | VString (s : string)
  | VTime (t : Time).

(** [*sql.Rows] as the program observes it: the answer of [Columns()], the
    rows [Next()] delivers before it returns false, and [Err()], the error
    (if any) that ended the iteration. *)
Record Rows := {
  Columns : result (list string);
  Next : list (list Value);
  RowsErr : option error;
}.

(** [db.Query(query, args...)] of a database in query-only mode: a function
    of the statement text and the bound arguments. *)
Definition DB := string -> list string -> result Rows.

Definition ErrNoRows : error := "sql: no rows in result set".

Definition dq : string := String (ascii_of_nat 34) EmptyString.

(** [asString(src)] of [convertAssign]. *)
Definition asString (src : Value) : string :=
  match src with
  | VNil => "<nil>"
  | VInt n => strconv.Itoa n
  | VFloat (Float64 text) => text
  | VBool b => if b then "true" else "false"
  | VBytes b => string_of_list_byte b
  | VString s => s
  | VTime (MkTime t) => t
  end.

(** The [%T] of a driver value. *)
Definition typeName (src : Value) : string :=
  match src with
  | VNil => "<nil>"
  | VInt _ => "int64"
  | VFloat _ => "float64"
  | VBool _ => "bool"
  | VBytes _ => "[]uint8"
  | VString _ => "string"
  | VTime _ => "time.Time"
  end.

(** [convertAssign(dest, src)] with [dest] a [*string]. *)
Definition assignString (src : Value) : result string :=
  match src with
  | VNil => Err "converting NULL to string is unsupported"
  | _ => Ok (asString src)
  end.

(** [convertAssign(dest, src)] with [dest] an [*int]: the text of the
    value goes through [strconv.ParseInt]. *)
Definition assignInt (src : Value) : result Z :=
  match src with
  | VNil => Err "converting NULL to int is unsupported"
  | _ =>
      match src, strconv.Atoi (asString src) with
      | VTime _, _ | _, None =>
          Err ("converting driver.Value type " +:+ typeName src +:+ " (" +:+ dq
               +:+ asString src +:+ dq +:+ ") to a int: invalid syntax")
      | _, Some n => Ok n
      end
  end.

(** [convertAssign(dest, src)] with [dest] an [*interface{}]: the value is
    stored as it is. *)
Definition assignAny (src : Value) : Value := src.

(** The error [Scan] reports when the conversion of column [i] fails. *)
Definition scanError {A} (columns : list string) (i : nat) (m : result A)
    : result A :=
  match m with
  | Ok a => Ok a
  | Err e =>
      Err ("sql: Scan error on column index " +:+ strconv.Itoa (Z.of_nat i)
           +:+ ", name " +:+ dq +:+ default "" (columns !! i) +:+ dq
           +:+ ": " +:+ e)
  end.

(** The error [Scan] reports when it is given [n] destinations for a row
    of [m] values. *)
Definition arityError (m n : nat) : error :=
  "sql: expected " +:+ strconv.Itoa (Z.of_nat m)
  +:+ " destination arguments in Scan, not " +:+ strconv.Itoa (Z.of_nat n).

(** [rows.Scan(valuePtrs...)] with [n] destinations of type
    [*interface{}], as both handlers call it. *)
Definition ScanAny (row : list Value) (n : nat) : result (list Value) :=
  if (n =? length row)%nat
  then Ok (map assignAny row)
  else Err (arityError (length row) n).

(** [rows.Scan(&n)] with [n] an [int]. *)
Definition ScanInt (columns : list string) (row : list Value) : result Z :=
  match row with
  | [v] => scanError columns 0 (assignInt v)
  | _ => Err (arityError (length row) 1)
  end.

(** [rows.Scan(&s)] with [s] a [string]. *)
Definition ScanString (columns : list string) (row : list Value)
    : result string :=
  match row with
  | [v] => scanError columns 0 (assignString v)
  | _ => Err (arityError (length row) 1)
  end.

(** [db.QueryRow(query).Scan(&n)] with [n] an [int]: the first row, or the
    iteration's error, or [ErrNoRows]. *)
Definition QueryRowScanInt (db : DB) (query : string) : result Z :=
  let? rows := db query [] in
  match Next rows with
  | [] => Err (default ErrNoRows (RowsErr rows))
  | row :: _ =>
      ScanInt (match Columns rows with Ok cs => cs | Err _ => [] end) row
  end.

End sql.

(** ** The program: [main.go] *)

Module ColumnInfo.
Record t := {
  Name : string;
  Type_ : string;
  NotNull : bool;
  PrimaryKey : bool;
}.
End ColumnInfo.

Module TableInfo.
Record t := {
  Name : string;
  Columns : slice ColumnInfo.t;
}.
End TableInfo.

(** [APIServer]: the connection and the tables found at startup. The
    [router], [config] and [server] fields belong to the HTTP plumbing. *)
Record APIServer := {
  db : sql.DB;
  tables : slice TableInfo.t;
}.

(** A row of a response, [map[string]interface{}]. *)
Abbreviation Record_ := (gmap string sql.Value).

(** The bodies the handlers pass to [c.JSON]. *)
Inductive Body :=
  | ErrorBody (err : string)
      (* gin.H{"error": err} *)
  | PageBody (total offset limit : Z) (data : slice Record_)
      (* gin.H{"total": total, "offset": offset, "limit": limit, "data": data} *)
  | RecordBody (result : Record_)
  | InfoBody (tables : slice TableInfo.t) (endpoints : slice string)
      (* gin.H{"tables": tables, "endpoints": endpoints} *).

Definition StatusOK : Z := 200.
Definition StatusNotFound : Z := 404.
Definition StatusInternalServerError : Z := 500.

(** What a handler leaves behind: the response written with [c.JSON], or a
    run-time panic. *)
Inductive Outcome :=
  | Reply (status : Z) (body : Body)
  | Panic (msg : string).

(** A statement sent to the database with its bound arguments. *)
Definition Call := (string * list string)%type.

(** A handler runs against the log of the statements sent so far; it either
    goes on with a value or has finished with an outcome. *)
Definition Handler (A : Type) : Type := list Call -> list Call * (A + Outcome).

Definition ret {A} (a : A) : Handler A := fun log => (log, inl a).

Definition bind {A B} (m : Handler A) (k : A -> Handler B) : Handler B :=
  fun log =>
    match m log with
    | (log', inl a) => k a log'
    | (log', inr o) => (log', inr o)
    end.

Notation "'let*' x ':=' m 'in' k" := (bind m (fun x => k))
  (at level 10, x pattern, m at level 100, k at level 200).

(** [c.JSON(status, body); return]. *)
Definition JSON {A} (status : Z) (body : Body) : Handler A :=
  fun log => (log, inr (Reply status body)).

Definition panic {A} (msg : string) : Handler A :=
  fun log => (log, inr (Panic msg)).

(** [if err != nil { c.JSON(http.StatusInternalServerError,
    gin.H{"error": err.Error()}); return }]. *)
Definition orInternalServerError {A} (m : result A) : Handler A :=
  match m with
  | Ok a => ret a
  | Err e => JSON StatusInternalServerError (ErrorBody e)
  end.

(** [s.db.Query(query, args...)], logged. *)
Definition dbQuery (s : APIServer) (query : string) (args : list string)
    : Handler (result sql.Rows) :=
  fun log => (log ++ [(query, args)], inl (db s query args)).

(** [s.db.QueryRow(query).Scan(&n)], logged. *)
Definition dbQueryRowScanInt (s : APIServer) (query : string)
    : Handler (result Z) :=
  fun log => (log ++ [(query, [])], inl (sql.QueryRowScanInt (db s) query)).

(** The outcome of a handler and the statements it sent. *)
Definition run (h : Handler Outcome) : Outcome * list Call :=
  match h [] with
  | (log, inl o) | (log, inr o) => (o, log)
  end.

(** *** Row decoding (the loop shared by both query handlers) *)

(** [if b, ok := val.([]byte); ok { row[col] = string(b) } else
    { row[col] = val }]. *)
Definition decodeValue (val : sql.Value) : sql.Value :=
  match val with
  | sql.VBytes b => sql.VString (string_of_list_byte b)
  | _ => val
  end.

(** [for i, col := range columns { val := values[i]; ... }]; [values] has
    the length of [columns]. *)
Definition decodeRow (columns : list string) (values : list sql.Value) : Record_ :=
  fold_left (fun row cv => <[cv.1 := decodeValue cv.2]> row) (zip columns values) ∅.

(** [for rows.Next() { ... rows.Scan(valuePtrs...) ...
    results = append(results, row) }]; a row that fails to scan ends the
    handler. [rows.Err()] is not consulted. *)
Fixpoint scanRows (columns : list string) (next : list (list sql.Value))
    (results : slice Record_) : result (slice Record_) :=
  match next with
  | [] => Ok results
  | r :: next' =>
      let? values := sql.ScanAny r (length columns) in
      scanRows columns next' (append results [decodeRow columns values])
  end.

(** *** [handleAPIInfo] *)

Definition handleAPIInfo (s : APIServer) (c : gin.Context) : Handler Outcome :=
  let endpoints :=
    fold_left
      (fun endpoints table =>
         append endpoints
           ["GET /" +:+ TableInfo.Name table;
            "GET /" +:+ TableInfo.Name table +:+ "/:id"])
      (elems (tables s)) (Some []) in
  JSON StatusOK (InfoBody (tables s) endpoints).

(** *** [handleTableQuery] *)

(** The effective [limit]: 100 unless [limit] is a positive [int]. *)
Definition limit (c : gin.Context) : Z :=
  let limitStr := gin.Query c "limit" in
  if negb (limitStr =? "")%string then
    match strconv.Atoi limitStr with
    | Some l => if (l >? 0)%Z then l else 100%Z
    | None => 100%Z
    end
  else 100%Z.

(** The effective [offset]: 0 unless [offset] is a non-negative [int]. *)
Definition offset (c : gin.Context) : Z :=
  let offsetStr := gin.Query c "offset" in
  if negb (offsetStr =? "")%string then
    match strconv.Atoi offsetStr with
    | Some o => if (o >=? 0)%Z then o else 0%Z
    | None => 0%Z
    end
  else 0%Z.

Definition reserved (key : string) : bool :=
  (key =? "limit")%string || (key =? "offset")%string || (key =? "order")%string.

(** The filter loop over [c.Request.URL.Query()]: one condition and one
    bound argument per key that is not reserved. [values[0]] panics on an
    empty slice ([None]). *)
Fixpoint filters (entries : list (string * list string))
    (whereConditions params : list string) : option (list string * list string) :=
  match entries with
  | [] => Some (whereConditions, params)
  | (key, values) :: entries' =>
      if negb (reserved key) then
        match values with
        | v :: _ =>
            filters entries' (whereConditions ++ [key +:+ " = ?"]) (params ++ [v])
        | [] => None
        end
      else filters entries' whereConditions params
  end.

Definition orPanic {A} (m : option A) : Handler A :=
  match m with
  | Some a => ret a
  | None => panic "runtime error: index out of range [0] with length 0"
  end.

(** The statement text of the list query. *)
Definition listQuery (tableName : string) (whereConditions : list string)
    (order : string) (limit offset : Z) : string :=
  let query := "SELECT * FROM " +:+ tableName in
  let query :=
    if (0 <? length whereConditions)%nat
    then query +:+ " WHERE " +:+ String.concat " AND " whereConditions
    else query in
  let query :=
    if negb (order =? "")%string then query +:+ " ORDER BY " +:+ order else query in
  query +:+ " LIMIT " +:+ strconv.Itoa limit +:+ " OFFSET " +:+ strconv.Itoa offset.

Definition countQuery (tableName : string) : string :=
  "SELECT COUNT(*) FROM " +:+ tableName.

Definition handleTableQuery (s : APIServer) (tableName : string) (c : gin.Context)
    : Handler Outcome :=
  let limit := limit c in
  let offset := offset c in
  let* r := dbQueryRowScanInt s (countQuery tableName) in
  let* total := orInternalServerError r in
  let* (whereConditions, params) := orPanic (filters (gin.RangeQuery c) [] []) in
  let query := listQuery tableName whereConditions (gin.Query c "order") limit offset in
  let* r := dbQuery s query params in
  let* rows := orInternalServerError r in
  let* columns := orInternalServerError (sql.Columns rows) in
  let* results := orInternalServerError (scanRows columns (sql.Next rows) None) in
  JSON StatusOK (PageBody total offset limit results).

(** *** [handleRecordQuery] *)

Definition recordQuery (tableName : string) : string :=
  "SELECT * FROM " +:+ tableName +:+ " WHERE id = ?".

Definition handleRecordQuery (s : APIServer) (tableName : string) (c : gin.Context)
    : Handler Outcome :=
  let id := gin.ParamID c in
  let* r := dbQuery s (recordQuery tableName) [id] in
  let* rows := orInternalServerError r in
  let* columns := orInternalServerError (sql.Columns rows) in
  match sql.Next rows with
  | [] => JSON StatusNotFound (ErrorBody "Record not found")
  | r :: _ =>
      let* values := orInternalServerError (sql.ScanAny r (length columns)) in
      JSON StatusOK (RecordBody (decodeRow columns values))
  end.

(** *** [loadTableInfo], [NewAPIServer] and the routes *)

Definition nl : string := String (ascii_of_nat 10) EmptyString.
Definition tab : string := String (ascii_of_nat 9) EmptyString.

(** The raw string literal [loadTableInfo] sends. *)
Definition masterQuery : string :=
  nl +:+ tab +:+ tab +:+ "SELECT name FROM sqlite_master"
  +:+ nl +:+ tab +:+ tab +:+ "WHERE type='table' AND name NOT LIKE 'sqlite_%'"
  +:+ nl +:+ tab.

Definition pragmaQuery (tableName : string) : string :=
  "PRAGMA table_info(" +:+ tableName +:+ ")".

(** [pragmaRows.Scan(&cid, &name, &type_, &notNull, &dfltValue, &pk)]
    followed by the [ColumnInfo] literal. *)
Definition scanColumnInfo (columns : list string) (row : list sql.Value)
    : result ColumnInfo.t :=
  match row with
  | [v0; v1; v2; v3; v4; v5] =>
      let? cid := sql.scanError columns 0 (sql.assignInt v0) in
      let? name := sql.scanError columns 1 (sql.assignString v1) in
      let? type_ := sql.scanError columns 2 (sql.assignString v2) in
      let? notNull := sql.scanError columns 3 (sql.assignInt v3) in
      let dfltValue := sql.assignAny v4 in
      let? pk := sql.scanError columns 5 (sql.assignInt v5) in
      Ok {| ColumnInfo.Name := name;
            ColumnInfo.Type_ := type_;
            ColumnInfo.NotNull := (notNull =? 1)%Z;
            ColumnInfo.PrimaryKey := (pk =? 1)%Z |}
  | _ => Err (sql.arityError (length row) 6)
  end.

(** [for pragmaRows.Next() { ... columns = append(columns, ...) }]. *)
Fixpoint loadColumns (names : list string) (next : list (list sql.Value))
    (columns : slice ColumnInfo.t) : result (slice ColumnInfo.t) :=
  match next with
  | [] => Ok columns
  | r :: next' =>
      let? column := scanColumnInfo names r in
      loadColumns names next' (append columns [column])
  end.

Definition columnNames (rows : sql.Rows) : list string :=
  match sql.Columns rows with
  | Ok names => names
  | Err _ => []
  end.

(** The body of [for rows.Next() { ... }] in [loadTableInfo], for one row of
    the table list. *)
Definition loadTable (db : sql.DB) (names : list string) (r : list sql.Value)
    : result TableInfo.t :=
  let? tableName := sql.ScanString names r in
  let? pragmaRows := db (pragmaQuery tableName) [] in
  let? columns := loadColumns (columnNames pragmaRows) (sql.Next pragmaRows) None in
  Ok {| TableInfo.Name := tableName; TableInfo.Columns := columns |}.

(** The outer loop of [loadTableInfo]: [s.tables] grows by one table per
    row; the first error ends it and is returned with the tables appended
    so far. *)
Fixpoint loadTables (db : sql.DB) (names : list string)
    (next : list (list sql.Value)) (tables : slice TableInfo.t)
    : slice TableInfo.t * option error :=
  match next with
  | [] => (tables, None)
  | r :: next' =>
      match loadTable db names r with
      | Ok table => loadTables db names next' (append tables [table])
      | Err e => (tables, Some e)
      end
  end.

Definition loadTableInfo (s : APIServer) : APIServer * option error :=
  match db s masterQuery [] with
  | Err e => (s, Some e)
  | Ok rows =>
      let (tables', err) :=
        loadTables (db s) (columnNames rows) (sql.Next rows) (tables s) in
      ({| db := db s; tables := tables' |}, err)
  end.

(** [NewAPIServer] from the point where the connection is open and
    configured: a server with no tables, then [loadTableInfo]. *)
Definition NewAPIServer (conn : sql.DB) : result APIServer :=
  let server := {| db := conn; tables := None |} in
  match loadTableInfo server with
  | (_, Some err) => Err ("failed to load table info: " +:+ err)
  | (server, None) => Ok server
  end.

(** The handlers [setupRoutes] registers. *)
Inductive Route :=
  | RouteInfo
  | RouteTable (tableName : string)
  | RouteRecord (tableName : string).

(** [setupRoutes]: the path patterns and their handlers, in registration
    order. *)
Definition setupRoutes (s : APIServer) : list (string * Route) :=
  ("/", RouteInfo)
  :: flat_map
       (fun table =>
          [("/" +:+ TableInfo.Name table, RouteTable (TableInfo.Name table));
           ("/" +:+ TableInfo.Name table +:+ "/:id",
            RouteRecord (TableInfo.Name table))])
       (elems (tables s)).

Definition handler (s : APIServer) (r : Route) (c : gin.Context) : Handler Outcome :=
  match r with
  | RouteInfo => handleAPIInfo s c
  | RouteTable tableName => handleTableQuery s tableName c
  | RouteRecord tableName => handleRecordQuery s tableName c
  end.

(** One request served by the route registered under [pattern]; the server
    value is handed on to the next request. [None]: no such route. *)
Definition serve (s : APIServer) (pattern : string) (c : gin.Context)
    : APIServer * option (Outcome * list Call) :=
  match List.find (fun pr => (pr.1 =? pattern)%string) (setupRoutes s) with
  | Some (_, r) => (s, Some (run (handler s r c)))
  | None => (s, None)
  end.

(** The server after a sequence of requests. *)
Definition serveAll (s : APIServer) (requests : list (string * gin.Context))
    : APIServer :=
  fold_left (fun s rq => (serve s rq.1 rq.2).1) requests s.

(** *** What [encoding/json] writes *)

Inductive JSONKind := JNull | JBoolean | JNumber | JString | JArray | JObject.

(** [json.Marshal] on a value stored in a row: the JSON kind it writes, or
    [None] when it refuses the value with an [UnsupportedValueError], as it
    does for a float that is not finite. *)
Definition jsonValue (v : sql.Value) : option JSONKind :=
  match v with
  | sql.VNil => Some JNull
  | sql.VBool _ => Some JBoolean
  | sql.VInt _ => Some JNumber
  | sql.VFloat f => if sql.finite f then Some JNumber else None
  | sql.VString _ | sql.VBytes _ | sql.VTime _ => Some JString
  end.

(** [json.Marshal] accepts every value of the record. *)
Definition accepted (r : Record_) : bool :=
  bool_decide (map_Forall (fun _ v => is_Some (jsonValue v)) r).

(** [json.Marshal] accepts the body; when it does not, [c.JSON] writes the
    status and no body. *)
Definition marshals (b : Body) : bool :=
  match b with
  | PageBody _ _ _ data => forallb accepted (elems data)
  | RecordBody result => accepted result
  | ErrorBody _ | InfoBody _ _ => true
  end.

(** A nil slice is written as [null], any other slice as an array. *)
Definition jsonSlice {A} (s : slice A) : JSONKind :=
  match s with
  | None => JNull
  | Some _ => JArray
  end.

(** The members of the object written for a body that [marshals], by
    name. *)
Definition jsonBody (b : Body) : gmap string JSONKind :=
  match b with
  | ErrorBody _ => {[ "error" := JString ]}
  | PageBody _ _ _ data =>
      <[ "total" := JNumber ]> (<[ "offset" := JNumber ]> (<[ "limit" := JNumber ]>
        {[ "data" := jsonSlice data ]}))
  | RecordBody result => omap jsonValue result
  | InfoBody tables endpoints =>
      <[ "tables" := jsonSlice tables ]> {[ "endpoints" := jsonSlice endpoints ]}
  end.

(** ** The database engine

    An executable model of SQLite for the statements the program sends:
    the table list of [sqlite_master], [PRAGMA table_info], [COUNT( * )] and
    [SELECT *] with equality conditions on bound arguments, [ORDER BY] one
    column and [LIMIT]/[OFFSET]. Statements are read as words separated by
    white space; the model answers any other statement with an error of
    its own, [syntax error], where SQLite would name the place.

    The model is exact on a fragment, which the statements about it spell
    out: names that are plain ([is_name]), bound values that are the
    decimal text of an integer or hold no digit ([plain_value]), and
    tables stored as SQLite stores them, without values of storage class
    REAL and without columns the driver reads as times ([well_stored]).
    Collations other than the default one are not modelled. *)

Module MiniSQLite.

(** A stored value with its storage class. *)
Inductive Datum :=
  | Null
  | Integer (n : Z)
  | Text (s : string)
  | Blob (b : list byte).

Record Column := {
  cname : string;
  ctype : string;      (* the declared type, as written *)
  notnull : bool;
  pk : Z;              (* position in the primary key, 0 if not part of it *)
}.

(** A row of [sqlite_master], with the content of the table when it is
    one. *)
Record Object := {
  otype : string;      (* table, index, view or trigger *)
  oname : string;
  columns : list Column;
  rows : list (list Datum);
}.

Definition Database := list Object.

(** *** Words *)

Definition is_space (c : ascii) : bool :=
  let n := nat_of_ascii c in
  (n =? 32)%nat || (n =? 9)%nat || (n =? 10)%nat || (n =? 13)%nat.

Definition snoc (s : string) (c : ascii) : string := s +:+ String c EmptyString.

(** The words of [s]; [cur] is the word being read. *)
Fixpoint words_from (s : string) (cur : string) : list string :=
  match s with
  | EmptyString => if (cur =? "")%string then [] else [cur]
  | String c s' =>
      if is_space c
      then (if (cur =? "")%string then words_from s' "" else cur :: words_from s' "")
      else words_from s' (snoc cur c)
  end.

Definition words (s : string) : list string := words_from s "".

Definition lower_ascii (c : ascii) : ascii :=
  let n := nat_of_ascii c in
  if (65 <=? n)%nat && (n <=? 90)%nat then ascii_of_nat (n + 32) else c.

Fixpoint lower (s : string) : string :=
  match s with
  | EmptyString => EmptyString
  | String c s' => String (lower_ascii c) (lower s')
  end.

(** Names are compared without regard to ASCII case. *)
Definition same_name (a b : string) : bool := (lower a =? lower b)%string.

(** The keywords of SQLite. Written where a statement expects a name, some
    are a syntax error and others are read as a name after all; which
    depends on the place and on the version of the library, and the model
    takes no side: the statements about the engine keep to names that are
    not keywords. *)
Definition keywords : list string :=
  ["abort"; "action"; "add"; "after"; "all"; "alter"; "always"; "analyze"; "and";
   "as"; "asc"; "attach"; "autoincrement"; "before"; "begin"; "between"; "by";
   "cascade"; "case"; "cast"; "check"; "collate"; "column"; "commit"; "conflict";
   "constraint"; "create"; "cross"; "current"; "current_date"; "current_time";
   "current_timestamp"; "database"; "default"; "deferrable"; "deferred"; "delete";
   "desc"; "detach"; "distinct"; "do"; "drop"; "each"; "else"; "end"; "escape";
   "except"; "exclude"; "exclusive"; "exists"; "explain"; "fail"; "filter";
   "first"; "following"; "for"; "foreign"; "from"; "full"; "generated"; "glob";
   "group"; "groups"; "having"; "if"; "ignore"; "immediate"; "in"; "index";
   "indexed"; "initially"; "inner"; "insert"; "instead"; "intersect"; "into";
   "is"; "isnull"; "join"; "key"; "last"; "left"; "like"; "limit"; "match";
   "materialized"; "natural"; "no"; "not"; "nothing"; "notnull"; "null"; "nulls";
   "of"; "offset"; "on"; "or"; "order"; "others"; "outer"; "over"; "partition";
   "plan"; "pragma"; "preceding"; "primary"; "query"; "raise"; "range";
   "recursive"; "references"; "regexp"; "reindex"; "release"; "rename";
   "replace"; "restrict"; "returning"; "right"; "rollback"; "row"; "rows";
   "savepoint"; "select"; "set"; "table"; "temp"; "temporary"; "then"; "ties";
   "to"; "transaction"; "trigger"; "unbounded"; "union"; "unique"; "update";
   "using"; "vacuum"; "values"; "view"; "virtual"; "when"; "where"; "window";
   "with"; "within"; "without"].

Definition is_keyword (s : string) : bool :=
  existsb (String.eqb (lower s)) keywords.

(** Names SQLite gives a meaning of its own where a column is expected:
    the row id under its three names, and the two truth values. *)
Definition implicit_names : list string :=
  ["rowid"; "oid"; "_rowid_"; "true"; "false"].

Definition is_implicit (s : string) : bool :=
  existsb (String.eqb (lower s)) implicit_names.

(** *** Statements *)

Inductive Stmt :=
  | MasterTables (pattern : string)
  | PragmaTableInfo (table : string)
  | Count (table : string)
  | Select (table : string) (conds : list string)
      (order : option (string * bool))   (* column, descending *)
      (limit : option (Z * Z)).          (* limit, offset *)

Definition int_of_word (w : string) : option Z :=
  Z.of_int <$> NilEmpty.int_of_string w.

(** [s] without the prefix [p]. *)
Fixpoint strip_prefix (p s : string) : option string :=
  match p, s with
  | EmptyString, _ => Some s
  | String a p', String b s' => if Ascii.eqb a b then strip_prefix p' s' else None
  | _, EmptyString => None
  end.

(** [s] without its last character, when that is [c]. *)
Fixpoint strip_last (c : ascii) (s : string) : option string :=
  match s with
  | EmptyString => None
  | String a EmptyString => if Ascii.eqb a c then Some EmptyString else None
  | String a s' => String a <$> strip_last c s'
  end.

(** [k1 = ? AND k2 = ? ...]: the columns, and the words that follow. *)
Fixpoint parse_conds (ws : list string) : option (list string * list string) :=
  match ws with
  | k :: eq :: q :: rest =>
      if (eq =? "=")%string && (q =? "?")%string then
        match rest with
        | w :: rest' =>
            if (w =? "AND")%string
            then
              match parse_conds rest' with
              | Some (ks, rest'') => Some (k :: ks, rest'')
              | None => None
              end
            else Some ([k], rest)
        | [] => Some ([k], rest)
        end
      else None
  | _ => None
  end.

Definition parse_where (ws : list string) : option (list string * list string) :=
  match ws with
  | w :: rest => if (w =? "WHERE")%string then parse_conds rest else Some ([], ws)
  | [] => Some ([], ws)
  end.

Definition parse_order (ws : list string)
    : option (option (string * bool) * list string) :=
  match ws with
  | w1 :: w2 :: col :: rest =>
      if (w1 =? "ORDER")%string then
        if (w2 =? "BY")%string then
          match rest with
          | d :: rest' =>
              if same_name d "ASC" then Some (Some (col, false), rest')
              else if same_name d "DESC" then Some (Some (col, true), rest')
              else Some (Some (col, false), rest)
          | [] => Some (Some (col, false), rest)
          end
        else None
      else Some (None, ws)
  | w1 :: _ => if (w1 =? "ORDER")%string then None else Some (None, ws)
  | [] => Some (None, ws)
  end.

Definition parse_limit (ws : list string) : option (option (Z * Z)) :=
  match ws with
  | [] => Some None
  | [w1; n; w2; m] =>
      if (w1 =? "LIMIT")%string && (w2 =? "OFFSET")%string then
        match int_of_word n, int_of_word m with
        | Some n, Some m => Some (Some (n, m))
        | _, _ => None
        end
      else None
  | _ => None
  end.

Definition parse_select (table : string) (ws : list string) : option Stmt :=
  match parse_where ws with
  | Some (conds, ws1) =>
      match parse_order ws1 with
      | Some (order, ws2) =>
          match parse_limit ws2 with
          | Some limit => Some (Select table conds order limit)
          | None => None
          end
      | None => None
      end
  | None => None
  end.

Definition list_eqb (a b : list string) : bool :=
  bool_decide (a = b).

Definition parse (ws : list string) : option Stmt :=
  match ws with
  | [w1; w2] =>
      if (w1 =? "PRAGMA")%string then
        match strip_prefix "table_info(" w2 with
        | Some r => PragmaTableInfo <$> strip_last ")" r
        | None => None
        end
      else None
  | w1 :: w2 :: w3 :: table :: rest =>
      if (w1 =? "SELECT")%string && (w3 =? "FROM")%string then
        if (w2 =? "COUNT(*)")%string then
          match rest with
          | [] => Some (Count table)
          | _ => None
          end
        else if (w2 =? "*")%string then parse_select table rest
        else if (w2 =? "name")%string && (table =? "sqlite_master")%string then
          match rest with
          | [k1; k2; k3; k4; k5; k6; lit] =>
              if list_eqb [k1; k2; k3; k4; k5; k6]
                   ["WHERE"; "type='table'"; "AND"; "name"; "NOT"; "LIKE"]
              then
                match strip_prefix "'" lit with
                | Some r => MasterTables <$> strip_last "'" r
                | None => None
                end
              else None
          | _ => None
          end
        else None
      else None
  | _ => None
  end.

(** *** Evaluation *)

(** [LIKE]: [%] stands for any run of characters, [_] for any single
    character, letters match without regard to ASCII case. *)
Fixpoint like (p : string) : string -> bool :=
  match p with
  | EmptyString => fun s => (s =? "")%string
  | String c p' =>
      if Ascii.eqb c "%" then
        fix any (s : string) : bool :=
          like p' s || match s with
                       | EmptyString => false
                       | String _ s' => any s'
                       end
      else if Ascii.eqb c "_" then
        fun s => match s with
                 | EmptyString => false
                 | String _ s' => like p' s'
                 end
      else
        fun s => match s with
                 | EmptyString => false
                 | String d s' =>
                     Ascii.eqb (lower_ascii c) (lower_ascii d) && like p' s'
                 end
  end.

Definition find_table (db : Database) (table : string) : option Object :=
  List.find (fun o => (otype o =? "table")%string && same_name (oname o) table) db.

(** The position of the column named [col]. *)
Fixpoint column_index (cols : list Column) (col : string) : option nat :=
  match cols with
  | [] => None
  | c :: cols' =>
      if same_name (cname c) col then Some 0%nat
      else S <$> column_index cols' col
  end.

Fixpoint contains (sub s : string) : bool :=
  String.prefix sub s
  || match s with
     | EmptyString => false
     | String _ s' => contains sub s'
     end.

Inductive Affinity := AffInteger | AffText | AffBlob | AffReal | AffNumeric.

(** The affinity of a column, from its declared type. *)
Definition affinity (declared : string) : Affinity :=
  let d := lower declared in
  if contains "int" d then AffInteger
  else if contains "char" d || contains "clob" d || contains "text" d then AffText
  else if contains "blob" d || (d =? "")%string then AffBlob
  else if contains "real" d || contains "floa" d || contains "doub" d then AffReal
  else AffNumeric.

(** A bound text argument as it is compared with a column of the given
    affinity: a numeric column turns the text of an integer into that
    integer. SQLite also turns other numeric texts ([41.0], [4.1e1], a
    number between spaces) into numbers; the model leaves them as text, and
    is exact for a [plain_value]. *)
Definition bound (aff : Affinity) (arg : string) : Datum :=
  match aff with
  | AffInteger | AffReal | AffNumeric =>
      match strconv.Atoi arg with
      | Some n => Integer n
      | None => Text arg
      end
  | AffText | AffBlob => Text arg
  end.

(** [=]: values of the same storage class with the same content. NULL is
    equal to nothing. *)
Definition datum_eqb (a b : Datum) : bool :=
  match a, b with
  | Integer n, Integer m => (n =? m)%Z
  | Text s, Text t => (s =? t)%string
  | Blob x, Blob y => (string_of_list_byte x =? string_of_list_byte y)%string
  | _, _ => false
  end.

(** The order of [ORDER BY]: NULL, then integers, then text, then blobs;
    text and blobs byte by byte. *)
Definition datum_leb (a b : Datum) : bool :=
  match a, b with
  | Null, _ => true
  | _, Null => false
  | Integer n, Integer m => (n <=? m)%Z
  | Integer _, _ => true
  | _, Integer _ => false
  | Text s, Text t => String.leb s t
  | Text _, _ => true
  | _, Text _ => false
  | Blob x, Blob y => String.leb (string_of_list_byte x) (string_of_list_byte y)
  end.

Definition cell (i : nat) (row : list Datum) : Datum := nth i row Null.

Fixpoint insert_by (le : list Datum -> list Datum -> bool) (r : list Datum)
    (sorted : list (list Datum)) : list (list Datum) :=
  match sorted with
  | [] => [r]
  | r' :: rest => if le r r' then r :: sorted else r' :: insert_by le r rest
  end.

Definition sort_by (le : list Datum -> list Datum -> bool)
    (rs : list (list Datum)) : list (list Datum) :=
  fold_right (insert_by le) [] rs.

(** The conditions as (column position, affinity) with their arguments.
    A key is looked up among the declared columns only, which is what
    SQLite does for a key that is a plain name ([is_name]). *)
Fixpoint resolve (cols : list Column) (conds args : list string)
    : result (list (nat * Datum)) :=
  match conds, args with
  | [], _ => Ok []
  | k :: conds', a :: args' =>
      match column_index cols k with
      | Some i =>
          let aff := affinity (default "" (ctype <$> cols !! i)) in
          let? rest := resolve cols conds' args' in
          Ok ((i, bound aff a) :: rest)
      | None => Err ("no such column: " +:+ k)
      end
  | _ :: _, [] => Err "not enough args to execute query"
  end.

Definition matches (conds : list (nat * Datum)) (row : list Datum) : bool :=
  forallb (fun c => datum_eqb (cell c.1 row) c.2) conds.

Definition ordered (cols : list Column) (order : option (string * bool))
    (rs : list (list Datum)) : result (list (list Datum)) :=
  match order with
  | None => Ok rs
  | Some (col, desc) =>
      match column_index cols col with
      | Some i =>
          Ok (sort_by (fun r1 r2 =>
                         if desc then datum_leb (cell i r2) (cell i r1)
                         else datum_leb (cell i r1) (cell i r2)) rs)
      | None => Err ("no such column: " +:+ col)
      end
  end.

(** The rows after the first [m]. *)
Fixpoint skip (m : Z) (rs : list (list Datum)) : list (list Datum) :=
  match rs with
  | [] => []
  | _ :: rs' => if (0 <? m)%Z then skip (m - 1) rs' else rs
  end.

(** The first [n] rows. *)
Fixpoint first (n : Z) (rs : list (list Datum)) : list (list Datum) :=
  match rs with
  | [] => []
  | r :: rs' => if (0 <? n)%Z then r :: first (n - 1) rs' else []
  end.

(** [LIMIT n OFFSET m]; a negative limit is no limit. *)
Definition limited (limit : option (Z * Z)) (rs : list (list Datum))
    : list (list Datum) :=
  match limit with
  | None => rs
  | Some (n, m) =>
      let rs' := skip m rs in
      if (n <? 0)%Z then rs' else first n rs'
  end.


(** What the driver hands over for a value stored in a column of the given
    declared type. It looks at the declared type in lower case: an integer
    of a column declared [boolean] arrives as the bool [n > 0]. The
    [time.Time] it builds for a column that is [timed] is not modelled;
    the statements about stored values keep to tables without such
    columns ([well_stored]). *)
Definition toValue (declared : string) (d : Datum) : sql.Value :=
  match d with
  | Null => sql.VNil
  | Integer n =>
      if (lower declared =? "boolean")%string then sql.VBool (0 <? n)%Z
      else sql.VInt n
  | Text s => sql.VString s
  | Blob b => sql.VBytes b
  end.

(** The declared type of the column at position [i]. *)
Definition decltype (cols : list Column) (i : nat) : string :=
  default "" (ctype <$> cols !! i).

(** A stored row as the driver hands it over. *)
Definition toValues (cols : list Column) (r : list Datum) : list sql.Value :=
  imap (fun i d => toValue (decltype cols i) d) r.

Definition answer (names : list string) (rs : list (list sql.Value)) : sql.Rows :=
  {| sql.Columns := Ok names; sql.Next := rs; sql.RowsErr := None |}.

Definition table_info_row (cid : nat) (c : Column) : list sql.Value :=
  [sql.VInt (Z.of_nat cid); sql.VString (cname c); sql.VString (ctype c);
   sql.VInt (if notnull c then 1 else 0); sql.VNil; sql.VInt (pk c)].

Definition exec (db : Database) (st : Stmt) (args : list string) : result sql.Rows :=
  match st with
  | MasterTables pattern =>
      Ok (answer ["name"]
            (map (fun o => [sql.VString (oname o)])
               (List.filter
                  (fun o => (otype o =? "table")%string && negb (like pattern (oname o)))
                  db)))
  | PragmaTableInfo table =>
      Ok (answer ["cid"; "name"; "type"; "notnull"; "dflt_value"; "pk"]
            (match find_table db table with
             | Some o => imap table_info_row (columns o)
             | None => []
             end))
  | Count table =>
      match find_table db table with
      | Some o => Ok (answer ["COUNT(*)"] [[sql.VInt (Z.of_nat (length (rows o)))]])
      | None => Err ("no such table: " +:+ table)
      end
  | Select table conds order limit =>
      match find_table db table with
      | Some o =>
          let? conds' := resolve (columns o) conds args in
          let? rs := ordered (columns o) order (List.filter (matches conds') (rows o)) in
          Ok (answer (map cname (columns o))
                (map (toValues (columns o)) (limited limit rs)))
      | None => Err ("no such table: " +:+ table)
      end
  end.

(** The connection to a database: [db.Query]. *)
Definition open (db : Database) : sql.DB :=
  fun query args =>
    match parse (words query) with
    | Some st => exec db st args
    | None => Err "syntax error"
    end.

(** *** The example database of the specification:
    [users(id INTEGER PRIMARY KEY, name TEXT, age INTEGER)] with the rows
    [(1, Ann, 30)] and [(2, Bo, 41)]. *)
Definition users_table : Object :=
  {| otype := "table"; oname := "users";
     columns :=
       [ {| cname := "id"; ctype := "INTEGER"; notnull := false; pk := 1 |};
         {| cname := "name"; ctype := "TEXT"; notnull := false; pk := 0 |};
         {| cname := "age"; ctype := "INTEGER"; notnull := false; pk := 0 |} ];
     rows :=
       [ [Integer 1; Text "Ann"; Integer 30];
         [Integer 2; Text "Bo"; Integer 41] ] |}.

Definition users : Database := [users_table].

(** The same database after an AUTOINCREMENT table was used once: SQLite
    keeps its own table [sqlite_sequence] in [sqlite_master], and an index
    on [users]. *)
Definition users_with_internal : Database :=
  {| otype := "table"; oname := "sqlite_sequence";
     columns :=
       [ {| cname := "name"; ctype := ""; notnull := false; pk := 0 |};
         {| cname := "seq"; ctype := ""; notnull := false; pk := 0 |} ];
     rows := [ [Text "users"; Integer 2] ] |}
  :: {| otype := "index"; oname := "users_by_name"; columns := []; rows := [] |}
  :: users.

End MiniSQLite.

(** ** Notions used in the statements *)

(** The request [c] with every occurrence of the parameter [key] removed. *)
Definition without (key : string) (c : gin.Context) : gin.Context :=
  {| gin.RawQuery := List.filter (fun kv => negb (kv.1 =? key)%string) (gin.RawQuery c);
     gin.RangeQuery := List.filter (fun e => negb (e.1 =? key)%string) (gin.RangeQuery c);
     gin.ParamID := gin.ParamID c |}.

(** The value of the first pair of the query string whose key is [key]. *)
Definition first_value (pairs : list (string * string)) (key : string) : option string :=
  snd <$> List.find (fun kv => (kv.1 =? key)%string) pairs.

(** The condition the filter loop writes for a key. *)
Definition condition (key : string) : string := key +:+ " = ?".

(** A non-empty string without white space: one word of a statement. *)
Fixpoint no_space (s : string) : bool :=
  match s with
  | EmptyString => true
  | String c s' => negb (MiniSQLite.is_space c) && no_space s'
  end.

Definition is_word (s : string) : bool := negb (s =? "")%string && no_space s.

(** A plain SQL identifier: letters, digits and underscores, not starting
    with a digit. *)
Definition ident_char (c : ascii) : bool :=
  let n := nat_of_ascii c in
  ((65 <=? n) && (n <=? 90) || (97 <=? n) && (n <=? 122)
   || (48 <=? n) && (n <=? 57) || (n =? 95))%nat.

Fixpoint ident_chars (s : string) : bool :=
  match s with
  | EmptyString => true
  | String c s' => ident_char c && ident_chars s'
  end.

Definition is_ident (s : string) : bool :=
  match s with
  | EmptyString => false
  | String c _ => negb (strconv.is_digit c) && ident_chars s
  end.

(** A plain name: an identifier that SQLite reads as the name of a table or
    column of the database and as nothing else. It is not a keyword, not
    one of the names with a meaning of their own, and not in the name
    space SQLite keeps to itself. *)
Definition is_name (s : string) : bool :=
  is_ident s && negb (MiniSQLite.is_keyword s) && negb (MiniSQLite.is_implicit s)
  && negb (MiniSQLite.like "sqlite_%" s).







(** The keys of a list request that become conditions. *)
Definition filter_keys (c : gin.Context) : list string :=
  (List.filter (fun e => negb (reserved e.1)) (gin.RangeQuery c)).*1.

(** A list request whose filter keys are plain names and whose [order] is
    empty or a plain name. *)
Definition named_request (c : gin.Context) : bool :=
  forallb is_name (filter_keys c)
  && ((gin.Query c "order" =? "")%string || is_name (gin.Query c "order")).


(** The words [ws], each after one space. *)
Fixpoint spaced (ws : list string) : string :=
  match ws with
  | [] => ""
  | w :: ws' => " " +:+ w +:+ spaced ws'
  end.

(** The words of the conditions on [keys] joined by [AND]. *)
Fixpoint cond_words (key : string) (keys : list string) : list string :=
  match keys with
  | [] => [key; "="; "?"]
  | key' :: keys' => key :: "=" :: "?" :: "AND" :: cond_words key' keys'
  end.

(** The words of the list statement after the table name. *)
Definition where_words (keys : list string) : list string :=
  match keys with
  | [] => []
  | key :: keys' => "WHERE" :: cond_words key keys'
  end.

Definition order_words (order : string) : list string :=
  if (order =? "")%string then [] else ["ORDER"; "BY"; order].

Definition limit_words (lim off : Z) : list string :=
  ["LIMIT"; strconv.Itoa lim; "OFFSET"; strconv.Itoa off].

(** The [total] of a page reply. *)
Definition total_of (o : Outcome) : option Z :=
  match o with
  | Reply _ (PageBody total _ _ _) => Some total
  | _ => None
  end.

(** The [data] of a page reply. *)
Definition data_of (o : Outcome) : option (slice Record_) :=
  match o with
  | Reply _ (PageBody _ _ _ data) => Some data
  | _ => None
  end.


(** The record a handler builds from a stored row. *)
Definition record_of (o : MiniSQLite.Object) (r : list MiniSQLite.Datum) : Record_ :=
  decodeRow (map MiniSQLite.cname (MiniSQLite.columns o))
    (MiniSQLite.toValues (MiniSQLite.columns o) r).

(** The server [NewAPIServer] builds on the example database. *)
Definition usersServer : APIServer :=
  {| db := MiniSQLite.open MiniSQLite.users;
     tables :=
       Some [ {| TableInfo.Name := "users";
                 TableInfo.Columns :=
                   Some [ {| ColumnInfo.Name := "id"; ColumnInfo.Type_ := "INTEGER";
                             ColumnInfo.NotNull := false; ColumnInfo.PrimaryKey := true |};
                          {| ColumnInfo.Name := "name"; ColumnInfo.Type_ := "TEXT";
                             ColumnInfo.NotNull := false; ColumnInfo.PrimaryKey := false |};
                          {| ColumnInfo.Name := "age"; ColumnInfo.Type_ := "INTEGER";
                             ColumnInfo.NotNull := false; ColumnInfo.PrimaryKey := false |} ] |} ] |}.

Definition Ann : Record_ :=
  <["id" := sql.VInt 1]> (<["name" := sql.VString "Ann"]> {["age" := sql.VInt 30]}).

Definition Bo : Record_ :=
  <["id" := sql.VInt 2]> (<["name" := sql.VString "Bo"]> {["age" := sql.VInt 41]}).

(** ** The rest of [main.go]: configuration, startup and authentication *)

Record Config := {
  DBPath : string;
  Port : Z;
  Host : string;
  Mode : string;
  Username : string;
  Password : string;
}.

(** What [os.Stat] answers for a path: no error, an error for which
    [os.IsNotExist] holds, or any other error. *)
Inductive StatResult :=
  | StatOk
  | StatNotExist
  | StatOther (err : error).

Definition validateConfig (stat : string -> StatResult) (config : Config)
    : option error :=
  if (DBPath config =? "")%string then Some "database path is required"
  else
    match stat (DBPath config) with
    | StatNotExist => Some ("database file does not exist: " +:+ DBPath config)
    | _ => None
    end.

(** [parseConfig]. [flags] is the configuration after [flag.Parse()]
    (flag values or their defaults), [getenv] is [os.Getenv]. *)
Definition parseConfig (flags : Config) (getenv : string -> string)
    (stat : string -> StatResult) : result Config :=
  let config := flags in
  let envUsername := getenv "SQLITE_REST_USERNAME" in
  let config :=
    if negb (envUsername =? "")%string
    then {| DBPath := DBPath config; Port := Port config; Host := Host config;
            Mode := Mode config; Username := envUsername;
            Password := Password config |}
    else config in
  let envPassword := getenv "SQLITE_REST_PASSWORD" in
  let config :=
    if negb (envPassword =? "")%string
    then {| DBPath := DBPath config; Port := Port config; Host := Host config;
            Mode := Mode config; Username := Username config;
            Password := envPassword |}
    else config in
  match validateConfig stat config with
  | Some err => Err err
  | None => Ok config
  end.

(** The statements of [configureDatabase], in order. *)
Definition pragmas : list string :=
  ["PRAGMA cache_size = -2097152";
   "PRAGMA page_size = 32768";
   "PRAGMA journal_mode = OFF";
   "PRAGMA synchronous = OFF";
   "PRAGMA temp_store = MEMORY";
   "PRAGMA mmap_size = 137438953472";
   "PRAGMA query_only = 1"].

(** The [%q] form of a string of printable ASCII characters without quote
    or backslash, as all of [pragmas] are. *)
Definition quoted (s : string) : string := sql.dq +:+ s +:+ sql.dq.

(** [for _, pragma := range pragmas { if _, err := db.Exec(pragma); err !=
    nil { return fmt.Errorf(...) } }]; [done] lists the statements executed
    so far. *)
Fixpoint execPragmas (exec : string -> option error) (todo done : list string)
    : option error * list string :=
  match todo with
  | [] => (None, done)
  | pragma :: todo' =>
      match exec pragma with
      | Some err =>
          (Some ("failed to execute " +:+ quoted pragma +:+ ": " +:+ err),
           done ++ [pragma])
      | None => execPragmas exec todo' (done ++ [pragma])
      end
  end.

(** [configureDatabase]: the error, and the statements executed. *)
Definition configureDatabase (exec : string -> option error)
    : option error * list string :=
  execPragmas exec pragmas [].

(** An opened [*sql.DB]: the answers of [Ping], [Exec] and [Query]. *)
Record Conn := {
  Ping : option error;
  Exec : string -> option error;
  QueryDB : sql.DB;
}.

Module Startup.

(** [NewAPIServer] from its first line: [sql.Open], [Ping],
    [configureDatabase], then the construction of the server and
    [loadTableInfo] (the part defined as [NewAPIServer] above). Returned
    with the statements [Exec] ran. *)
Definition NewAPIServer (opened : result Conn) : result APIServer * list string :=
  match opened with
  | Err err => (Err ("failed to open database: " +:+ err), [])
  | Ok conn =>
      match Ping conn with
      | Some err => (Err ("database ping failed: " +:+ err), [])
      | None =>
          match configureDatabase (Exec conn) with
          | (Some err, executed) => (Err err, executed)
          | (None, executed) => (NewAPIServer (QueryDB conn), executed)
          end
      end
  end.

End Startup.

Definition StatusUnauthorized : Z := 401.

(** What the middleware chain leaves behind: the headers this program set
    with [c.Header], and the outcome with the statements sent. *)
Record Response := {
  Header : list (string * string);
  Result : Outcome * list Call;
}.

(** [authMiddleware]. [basicAuth] is [c.Request.BasicAuth()] ([None] when
    [hasAuth] is false); [next] is the rest of the chain, which
    [c.Next()] runs and [c.AbortWithStatusJSON] skips. *)
Definition authMiddleware (config : Config) (basicAuth : option (string * string))
    (next : Handler Outcome) : Response :=
  if (Username config =? "")%string && (Password config =? "")%string
  then {| Header := []; Result := run next |}
  else
    let unauthorized :=
      {| Header := [("WWW-Authenticate", "Basic realm=Authorization Required")];
         Result := (Reply StatusUnauthorized (ErrorBody "Unauthorized"), []) |} in
    match basicAuth with
    | None => unauthorized
    | Some (username, password) =>
        if negb (username =? Username config)%string
           || negb (password =? Password config)%string
        then unauthorized
        else {| Header := []; Result := run next |}
    end.

(** [db.QueryRow(query).Scan(&value)] with [value] a [string]. *)
Definition QueryRowScanString (conn : sql.DB) (query : string) : result string :=
  let? rows := conn query [] in
  match sql.Next rows with
  | [] => Err (default sql.ErrNoRows (sql.RowsErr rows))
  | row :: _ => sql.ScanString (columnNames rows) row
  end.

(** The settings [logStartup] reads back. *)
Definition loggedPragmas : list string :=
  ["cache_size"; "page_size"; "journal_mode"; "synchronous";
   "temp_store"; "read_uncommitted"; "cache_shared"; "mmap_size"].

(** [logStartup]: the messages passed to [log.Printf], in order. The error
    of [row.Scan(&value)] is dropped and [value] stays empty. *)
Definition logStartup (config : Config) (conn : sql.DB) : list string :=
  ["Server Configuration:";
   "Mode: " +:+ Mode config;
   "Address: " +:+ Host config +:+ ":" +:+ strconv.Itoa (Port config);
   "Database: " +:+ DBPath config;
   "Auth Enabled: "
   +:+ (if negb (Username config =? "")%string || negb (Password config =? "")%string
        then "true" else "false");
   "SQLite Configuration:"]
  ++ map (fun pragma =>
            let value :=
              match QueryRowScanString conn ("PRAGMA " +:+ pragma) with
              | Ok value => value
              | Err _ => ""
              end in
            "  " +:+ pragma +:+ " = " +:+ value)
       loggedPragmas.

(** The descriptor [loadTableInfo] builds for a declared column. *)
Definition describe (c : MiniSQLite.Column) : ColumnInfo.t :=
  {| ColumnInfo.Name := MiniSQLite.cname c;
     ColumnInfo.Type_ := MiniSQLite.ctype c;
     ColumnInfo.NotNull := MiniSQLite.notnull c;
     ColumnInfo.PrimaryKey := (MiniSQLite.pk c =? 1)%Z |}.

(** The tables a client can see: tables of [sqlite_master] outside the
    pattern of [loadTableInfo]. *)
Definition user_tables (database : MiniSQLite.Database) : list MiniSQLite.Object :=
  List.filter
    (fun o => (MiniSQLite.otype o =? "table")%string
              && negb (MiniSQLite.like "sqlite_%" (MiniSQLite.oname o)))
    database.

(** A table [loadTableInfo] can read back: its name is a plain name, which
    the unquoted [PRAGMA table_info(<name>)] can carry, and finds the table
    itself, and the numbers of [PRAGMA table_info] fit an [int]. *)
Definition loadable (database : MiniSQLite.Database) (o : MiniSQLite.Object) : Prop :=
  is_name (MiniSQLite.oname o) = true
  /\ MiniSQLite.find_table database (MiniSQLite.oname o) = Some o
  /\ Forall (fun c => (- 2 ^ 63 <= MiniSQLite.pk c <= 2 ^ 63 - 1)%Z) (MiniSQLite.columns o)
  /\ (Z.of_nat (length (MiniSQLite.columns o)) <= 2 ^ 63)%Z.

(** The catalog of a database: its user tables in the order of
    [sqlite_master], each with the descriptors of its columns in order. *)
Definition catalog_of (database : MiniSQLite.Database) : slice TableInfo.t :=
  append None
    (map (fun o =>
            {| TableInfo.Name := MiniSQLite.oname o;
               TableInfo.Columns := append None (map describe (MiniSQLite.columns o)) |})
       (user_tables database)).

(** A database with one table whose primary key has two columns:
    [order_lines(order_id INTEGER NOT NULL, line INTEGER NOT NULL, item
    TEXT, PRIMARY KEY (order_id, line))]. *)
Definition order_lines : MiniSQLite.Database :=
  [ {| MiniSQLite.otype := "table"; MiniSQLite.oname := "order_lines";
       MiniSQLite.columns :=
         [ {| MiniSQLite.cname := "order_id"; MiniSQLite.ctype := "INTEGER";
              MiniSQLite.notnull := true; MiniSQLite.pk := 1 |};
           {| MiniSQLite.cname := "line"; MiniSQLite.ctype := "INTEGER";
              MiniSQLite.notnull := true; MiniSQLite.pk := 2 |};
           {| MiniSQLite.cname := "item"; MiniSQLite.ctype := "TEXT";
              MiniSQLite.notnull := false; MiniSQLite.pk := 0 |} ];
       MiniSQLite.rows := [] |} ].

(** The server [s] on a connection whose answers never carry an iteration
    error: [rows.Err()] is nil for every statement. *)
Definition withoutRowsErr (s : APIServer) : APIServer :=
  {| db := fun query args =>
             match db s query args with
             | Ok rows =>
                 Ok {| sql.Columns := sql.Columns rows;
                       sql.Next := sql.Next rows;
                       sql.RowsErr := None |}
             | Err e => Err e
             end;
     tables := tables s |}.

(** A connection on which every iteration but that of the count statement
    stops after one row with the error [interrupted]. *)
Definition interrupted (conn : sql.DB) : sql.DB :=
  fun query args =>
    match conn query args with
    | Ok rows =>
        if String.prefix "SELECT COUNT(*)" query then Ok rows
        else Ok {| sql.Columns := sql.Columns rows;
                   sql.Next := take 1 (sql.Next rows);
                   sql.RowsErr := Some "interrupted" |}
    | Err e => Err e
    end.

(** A connection on which the iteration of every statement but the count
    stops after [n] rows with the error [e]: from then on [rows.Next()]
    returns false and [rows.Err()] returns [e]. *)
Definition stepFails (n : nat) (e : error) (conn : sql.DB) : sql.DB :=
  fun query args =>
    match conn query args with
    | Ok rows =>
        if String.prefix "SELECT COUNT(*)" query then Ok rows
        else Ok {| sql.Columns := sql.Columns rows;
                   sql.Next := take n (sql.Next rows);
                   sql.RowsErr := Some e |}
    | Err e => Err e
    end.

(** A database with a column declared BOOLEAN:
    [tasks(id INTEGER PRIMARY KEY, title TEXT, done BOOLEAN)] with the row
    [(1, Write, 1)]. *)
Definition tasks_table : MiniSQLite.Object :=
  {| MiniSQLite.otype := "table"; MiniSQLite.oname := "tasks";
     MiniSQLite.columns :=
       [ {| MiniSQLite.cname := "id"; MiniSQLite.ctype := "INTEGER";
            MiniSQLite.notnull := false; MiniSQLite.pk := 1 |};
         {| MiniSQLite.cname := "title"; MiniSQLite.ctype := "TEXT";
            MiniSQLite.notnull := false; MiniSQLite.pk := 0 |};
         {| MiniSQLite.cname := "done"; MiniSQLite.ctype := "BOOLEAN";
            MiniSQLite.notnull := false; MiniSQLite.pk := 0 |} ];
     MiniSQLite.rows :=
       [ [MiniSQLite.Integer 1; MiniSQLite.Text "Write"; MiniSQLite.Integer 1] ] |}.

Definition tasks : MiniSQLite.Database := [tasks_table].

(** The catalog of a started server, or the error of the start. *)
Definition catalog (started : result APIServer) : result (slice TableInfo.t) :=
  let? s := started in Ok (tables s).

(** * Properties *)

(** ** Handlers step by step *)

Lemma reserved_false key :
  reserved key = false <-> key <> "limit" /\ key <> "offset" /\ key <> "order".
Proof.
  unfold reserved. rewrite !orb_false_iff, !String.eqb_neq. tauto.
Qed.

(** [handleTableQuery] when the count statement fails. *)
Lemma table_count_fails s tableName c e :
  sql.QueryRowScanInt (db s) (countQuery tableName) = Err e ->
  run (handleTableQuery s tableName c)
  = (Reply StatusInternalServerError (ErrorBody e), [(countQuery tableName, [])]).
Proof.
  intros H. unfold run, handleTableQuery, bind, dbQueryRowScanInt.
  rewrite H. reflexivity.
Qed.

(** [handleTableQuery] up to the answer of the list statement. *)
Lemma table_after_filters s tableName c total whereConditions params :
  sql.QueryRowScanInt (db s) (countQuery tableName) = Ok total ->
  filters (gin.RangeQuery c) [] [] = Some (whereConditions, params) ->
  run (handleTableQuery s tableName c)
  = let query := listQuery tableName whereConditions (gin.Query c "order")
                   (limit c) (offset c) in
    (match db s query params with
     | Err e => Reply StatusInternalServerError (ErrorBody e)
     | Ok rows =>
         match sql.Columns rows with
         | Err e => Reply StatusInternalServerError (ErrorBody e)
         | Ok columns =>
             match scanRows columns (sql.Next rows) None with
             | Err e => Reply StatusInternalServerError (ErrorBody e)
             | Ok results => Reply StatusOK (PageBody total (offset c) (limit c) results)
             end
         end
     end,
     [(countQuery tableName, []); (query, params)]).
Proof.
  intros Hc Hf. unfold run, handleTableQuery, bind, dbQueryRowScanInt, dbQuery.
  rewrite Hc. cbn [orInternalServerError ret]. rewrite Hf. cbn [orPanic ret].
  destruct (db s _ params) as [rows|e]; [|reflexivity].
  cbn [orInternalServerError ret].
  destruct (sql.Columns rows) as [columns|e]; [|reflexivity].
  cbn [orInternalServerError ret].
  destruct (scanRows columns (sql.Next rows) None); reflexivity.
Qed.

(** [handleTableQuery] when [values[0]] is out of range. *)
Lemma table_filters_panic s tableName c total :
  sql.QueryRowScanInt (db s) (countQuery tableName) = Ok total ->
  filters (gin.RangeQuery c) [] [] = None ->
  exists msg,
    run (handleTableQuery s tableName c) = (Panic msg, [(countQuery tableName, [])]).
Proof.
  intros Hc Hf. eexists. unfold run, handleTableQuery, bind, dbQueryRowScanInt.
  rewrite Hc. cbn [orInternalServerError ret]. rewrite Hf. reflexivity.
Qed.

(** [handleRecordQuery] in terms of the answer of its statement. *)
Lemma record_run s tableName c :
  run (handleRecordQuery s tableName c)
  = (match db s (recordQuery tableName) [gin.ParamID c] with
     | Err e => Reply StatusInternalServerError (ErrorBody e)
     | Ok rows =>
         match sql.Columns rows with
         | Err e => Reply StatusInternalServerError (ErrorBody e)
         | Ok columns =>
             match sql.Next rows with
             | [] => Reply StatusNotFound (ErrorBody "Record not found")
             | r :: _ =>
                 match sql.ScanAny r (length columns) with
                 | Err e => Reply StatusInternalServerError (ErrorBody e)
                 | Ok values => Reply StatusOK (RecordBody (decodeRow columns values))
                 end
             end
         end
     end,
     [(recordQuery tableName, [gin.ParamID c])]).
Proof.
  unfold run, handleRecordQuery, bind, dbQuery.
  destruct (db s _ _) as [rows|e]; [|reflexivity].
  cbn [orInternalServerError ret].
  destruct (sql.Columns rows) as [columns|e]; [|reflexivity].
  cbn [orInternalServerError ret].
  destruct (sql.Next rows) as [|r next]; [reflexivity|].
  destruct (sql.ScanAny r (length columns)); reflexivity.
Qed.

Lemma QueryRowScanInt_Err conn query e :
  conn query [] = Err e -> sql.QueryRowScanInt conn query = Err e.
Proof. intros H. unfold sql.QueryRowScanInt. rewrite H. reflexivity. Qed.

(** The scan loop on rows that have one value per column. *)
Lemma scanRows_ok (columns : list string) (next : list (list sql.Value))
    (acc : slice Record_) :
  Forall (fun r => length r = length columns) next ->
  scanRows columns next acc = Ok (append acc (map (decodeRow columns) next)).
Proof.
  intros H. revert acc. induction H as [|r next Hr _ IH]; intros acc; [reflexivity|].
  cbn [scanRows]. unfold sql.ScanAny. rewrite Hr, Nat.eqb_refl. cbn [try].
  unfold sql.assignAny. rewrite map_id, IH. f_equal. cbn [map].
  unfold append, elems. destruct acc as [l|], (map (decodeRow columns) next);
    cbn; rewrite <- ?app_assoc; reflexivity.
Qed.

(** [handleTableQuery] when both statements are answered and every row has
    one value per column. *)
Lemma table_page_run s tableName c total whereConditions params rows columns :
  sql.QueryRowScanInt (db s) (countQuery tableName) = Ok total ->
  filters (gin.RangeQuery c) [] [] = Some (whereConditions, params) ->
  db s (listQuery tableName whereConditions (gin.Query c "order") (limit c) (offset c))
     params = Ok rows ->
  sql.Columns rows = Ok columns ->
  Forall (fun r => length r = length columns) (sql.Next rows) ->
  run (handleTableQuery s tableName c)
  = (Reply StatusOK
       (PageBody total (offset c) (limit c)
          (append None (map (decodeRow columns) (sql.Next rows)))),
     [(countQuery tableName, []);
      (listQuery tableName whereConditions (gin.Query c "order") (limit c) (offset c),
       params)]).
Proof.
  intros Hc Hf Hq Hcols Hlen. rewrite (table_after_filters _ _ _ _ _ _ Hc Hf).
  cbv zeta. now rewrite Hq, Hcols, (scanRows_ok _ _ _ Hlen).
Qed.

(** ** Errors of the engine *)

(** X18. When the database answers the call that sends the count
    statement, the list statement or the lookup statement with an error,
    the handler replies with status 500 and a body whose [error] member is
    the text of that error; the failing statement is the last one sent and
    it is sent once. *)
Theorem engine_errors_are_reported (s : APIServer) (tableName : string)
    (c : gin.Context) (e : error) :
  (db s (countQuery tableName) [] = Err e ->
   run (handleTableQuery s tableName c)
   = (Reply StatusInternalServerError (ErrorBody e), [(countQuery tableName, [])]))
  /\ (forall total whereConditions params,
        sql.QueryRowScanInt (db s) (countQuery tableName) = Ok total ->
        filters (gin.RangeQuery c) [] [] = Some (whereConditions, params) ->
        db s (listQuery tableName whereConditions (gin.Query c "order")
                (limit c) (offset c)) params = Err e ->
        run (handleTableQuery s tableName c)
        = (Reply StatusInternalServerError (ErrorBody e),
           [(countQuery tableName, []);
            (listQuery tableName whereConditions (gin.Query c "order")
               (limit c) (offset c), params)]))
  /\ (db s (recordQuery tableName) [gin.ParamID c] = Err e ->
      run (handleRecordQuery s tableName c)
      = (Reply StatusInternalServerError (ErrorBody e),
         [(recordQuery tableName, [gin.ParamID c])])).
Proof.
  split; [|split].
  - intros H. apply table_count_fails. now apply QueryRowScanInt_Err.
  - intros total whereConditions params Hc Hf H.
    rewrite (table_after_filters _ _ _ _ _ _ Hc Hf). cbv zeta. now rewrite H.
  - intros H. rewrite record_run. now rewrite H.
Qed.

Lemma engine_errors_are_reported_witness :
  run (handleTableQuery usersServer "ghosts" (gin.request [] ""))
  = (Reply 500 (ErrorBody "no such table: ghosts"),
     [("SELECT COUNT(*) FROM ghosts", [])])
  /\ run (handleTableQuery usersServer "users" (gin.request [("nope", "99")] ""))
     = (Reply 500 (ErrorBody "no such column: nope"),
        [("SELECT COUNT(*) FROM users", []);
         ("SELECT * FROM users WHERE nope = ? LIMIT 100 OFFSET 0", ["99"])])
  /\ run (handleRecordQuery usersServer "ghosts" (gin.request [] "7"))
     = (Reply 500 (ErrorBody "no such table: ghosts"),
        [("SELECT * FROM ghosts WHERE id = ?", ["7"])]).
Proof.
  split; [|split].
  - apply (proj1 (engine_errors_are_reported usersServer "ghosts"
                    (gin.request [] "") "no such table: ghosts")).
    vm_compute. reflexivity.
  - apply (proj1 (proj2 (engine_errors_are_reported usersServer "users"
                           (gin.request [("nope", "99")] "") "no such column: nope"))
             2%Z ["nope = ?"] ["99"]); vm_compute; reflexivity.
  - apply (proj2 (proj2 (engine_errors_are_reported usersServer "ghosts"
                           (gin.request [] "7") "no such table: ghosts"))).
    vm_compute. reflexivity.
Defined.

(** C7. An error of the engine that ends the iteration over the rows is
    not reported. It is left in [rows.Err()], which neither handler reads:
    on the example database, when the engine fails after the first row of
    the list statement, [GET /users] is answered 200 with that row, and
    when it fails before the first row of the lookup statement,
    [GET /users/1] is answered 404. The same failure of the count
    statement, which goes through [QueryRow] and [Scan], is answered 500
    with the text of the error. *)
Theorem iteration_failure_is_answered_as_success :
  let e := "database disk image is malformed" in
  let failing n :=
    {| db := stepFails n e (MiniSQLite.open MiniSQLite.users);
       tables := tables usersServer |} in
  let failingCount :=
    {| db := fun _ _ =>
               Ok {| sql.Columns := Ok ["COUNT(*)"]; sql.Next := [];
                     sql.RowsErr := Some e |};
       tables := tables usersServer |} in
  db (failing 1) "SELECT * FROM users LIMIT 100 OFFSET 0" []
  = Ok {| sql.Columns := Ok ["id"; "name"; "age"];
          sql.Next := [[sql.VInt 1; sql.VString "Ann"; sql.VInt 30]];
          sql.RowsErr := Some e |}
  /\ run (handleTableQuery (failing 1) "users" (gin.request [] ""))
     = (Reply 200 (PageBody 2 0 100 (Some [Ann])),
        [("SELECT COUNT(*) FROM users", []);
         ("SELECT * FROM users LIMIT 100 OFFSET 0", [])])
  /\ db (failing 0) "SELECT * FROM users WHERE id = ?" ["1"]
     = Ok {| sql.Columns := Ok ["id"; "name"; "age"]; sql.Next := [];
             sql.RowsErr := Some e |}
  /\ run (handleRecordQuery (failing 0) "users" (gin.request [] "1"))
     = (Reply 404 (ErrorBody "Record not found"),
        [("SELECT * FROM users WHERE id = ?", ["1"])])
  /\ run (handleRecordQuery usersServer "users" (gin.request [] "1"))
     = (Reply 200 (RecordBody Ann), [("SELECT * FROM users WHERE id = ?", ["1"])])
  /\ run (handleTableQuery failingCount "users" (gin.request [] ""))
     = (Reply 500 (ErrorBody e), [("SELECT COUNT(*) FROM users", [])]).
Proof.
  intros e failing failingCount.
  refine (conj _ (conj _ (conj _ (conj _ (conj _ _))))); vm_compute; reflexivity.
Qed.

(** ** The single-record lookup *)

(** C4. [handleRecordQuery] sends exactly one statement,
    [SELECT * FROM <table> WHERE id = ?] with the path value as its only
    bound argument, whatever the columns of the table are; when the answer
    has no row the reply is 404, otherwise the first row is decoded into
    the flat record of a 200 reply. *)
Theorem record_lookup_by_literal_id (s : APIServer) (tableName : string)
    (c : gin.Context) (rows : sql.Rows) (columns : list string) :
  db s (recordQuery tableName) [gin.ParamID c] = Ok rows ->
  sql.Columns rows = Ok columns ->
  recordQuery tableName = "SELECT * FROM " +:+ tableName +:+ " WHERE id = ?"
  /\ (run (handleRecordQuery s tableName c)).2
     = [(recordQuery tableName, [gin.ParamID c])]
  /\ (sql.Next rows = [] ->
      (run (handleRecordQuery s tableName c)).1
      = Reply StatusNotFound (ErrorBody "Record not found"))
  /\ (forall r next,
        sql.Next rows = r :: next -> length r = length columns ->
        (run (handleRecordQuery s tableName c)).1
        = Reply StatusOK (RecordBody (decodeRow columns r))).
Proof.
  intros Hq Hc. rewrite record_run, Hq, Hc. cbn [fst snd].
  split; [reflexivity|]. split; [reflexivity|]. split.
  - intros ->. reflexivity.
  - intros r next -> Hlen. unfold sql.ScanAny.
    rewrite Hlen, Nat.eqb_refl. unfold sql.assignAny. now rewrite map_id.
Qed.

Lemma record_lookup_by_literal_id_witness :
  (run (handleRecordQuery usersServer "users" (gin.request [] "1"))).1
  = Reply 200 (RecordBody Ann)
  /\ (run (handleRecordQuery usersServer "users" (gin.request [] "999"))).1
     = Reply 404 (ErrorBody "Record not found").
Proof.
  split.
  - pose proof (record_lookup_by_literal_id usersServer "users" (gin.request [] "1")
                  (MiniSQLite.answer ["id"; "name"; "age"]
                     [[sql.VInt 1; sql.VString "Ann"; sql.VInt 30]])
                  ["id"; "name"; "age"] eq_refl eq_refl) as (_ & _ & _ & H).
    rewrite (H _ [] eq_refl eq_refl). reflexivity.
  - pose proof (record_lookup_by_literal_id usersServer "users" (gin.request [] "999")
                  (MiniSQLite.answer ["id"; "name"; "age"] [])
                  ["id"; "name"; "age"] eq_refl eq_refl) as (_ & _ & H & _).
    exact (H eq_refl).
Defined.

(** ** A page without rows *)

(** C10. When the list statement is answered without rows, the reply is
    200 and its [data] is the nil slice, written as JSON [null], next to
    the numbers [total], [limit] and [offset]. *)
Theorem empty_page_data_is_null (s : APIServer) (tableName : string)
    (c : gin.Context) (total : Z) (whereConditions params : list string)
    (rows : sql.Rows) (columns : list string) :
  sql.QueryRowScanInt (db s) (countQuery tableName) = Ok total ->
  filters (gin.RangeQuery c) [] [] = Some (whereConditions, params) ->
  db s (listQuery tableName whereConditions (gin.Query c "order") (limit c) (offset c))
     params = Ok rows ->
  sql.Columns rows = Ok columns ->
  sql.Next rows = [] ->
  let body := PageBody total (offset c) (limit c) None in
  (run (handleTableQuery s tableName c)).1 = Reply StatusOK body
  /\ jsonBody body !! "data" = Some JNull
  /\ jsonBody body !! "total" = Some JNumber
  /\ jsonBody body !! "limit" = Some JNumber
  /\ jsonBody body !! "offset" = Some JNumber.
Proof.
  intros Hc Hf Hq Hcols Hnext body.
  rewrite (table_after_filters _ _ _ _ _ _ Hc Hf). cbv zeta.
  rewrite Hq, Hcols, Hnext. cbn [scanRows fst].
  repeat split; reflexivity.
Qed.

Lemma empty_page_data_is_null_witness :
  (run (handleTableQuery usersServer "users" (gin.request [("age", "99")] ""))).1
  = Reply 200 (PageBody 2 0 100 None).
Proof.
  apply (empty_page_data_is_null usersServer "users"
           (gin.request [("age", "99")] "") 2%Z ["age = ?"] ["99"]
           (MiniSQLite.answer ["id"; "name"; "age"] []) ["id"; "name"; "age"]);
    vm_compute; reflexivity.
Defined.

(** ** The info route *)

Lemma endpoints_loop (ts : list TableInfo.t) (acc : list string) :
  fold_left
    (fun endpoints table =>
       append endpoints
         ["GET /" +:+ TableInfo.Name table;
          "GET /" +:+ TableInfo.Name table +:+ "/:id"])
    ts (Some acc)
  = Some (acc ++ flat_map
                   (fun table =>
                      ["GET /" +:+ TableInfo.Name table;
                       "GET /" +:+ TableInfo.Name table +:+ "/:id"]) ts).
Proof.
  revert acc. induction ts as [|t ts IH]; intros acc; cbn [fold_left flat_map].
  - now rewrite app_nil_r.
  - cbn [append elems default]. rewrite IH. now rewrite <- app_assoc.
Qed.

Lemma NewAPIServer_users :
  NewAPIServer (MiniSQLite.open MiniSQLite.users) = Ok usersServer.
Proof.
  unfold NewAPIServer, loadTableInfo. cbn [db tables].
  replace (MiniSQLite.open MiniSQLite.users masterQuery [])
    with (Ok (MiniSQLite.answer ["name"] [[sql.VString "users"]]))
    by (vm_compute; reflexivity).
  cbn [columnNames MiniSQLite.answer sql.Columns sql.Next].
  replace (loadTables (MiniSQLite.open MiniSQLite.users) ["name"]
             [[sql.VString "users"]] None)
    with (tables usersServer, @None error) by (vm_compute; reflexivity).
  reflexivity.
Qed.

(** C9. [handleAPIInfo] replies 200 with the tables of the server as they
    are and, for each table in order, the two strings [GET /<table>] and
    [GET /<table>/:id]; it sends no statement to the database. On the
    example database the server has the one table [users] with its three
    columns, and the endpoints are [GET /users] and [GET /users/:id]. *)
Theorem info_lists_catalog_and_endpoints :
  (forall (s : APIServer) (c : gin.Context),
     let endpoints :=
       flat_map (fun table => ["GET /" +:+ TableInfo.Name table;
                               "GET /" +:+ TableInfo.Name table +:+ "/:id"])
         (elems (tables s)) in
     run (handleAPIInfo s c) = (Reply StatusOK (InfoBody (tables s) (Some endpoints)), [])
     /\ length endpoints = (2 * length (elems (tables s)))%nat)
  /\ (NewAPIServer (MiniSQLite.open MiniSQLite.users) = Ok usersServer
      /\ (exists t c1 c2 c3,
            tables usersServer = Some [t]
            /\ TableInfo.Name t = "users"
            /\ TableInfo.Columns t = Some [c1; c2; c3])
      /\ (run (handleAPIInfo usersServer (gin.request [] ""))).1
         = Reply 200 (InfoBody (tables usersServer)
                        (Some ["GET /users"; "GET /users/:id"]))).
Proof.
  split.
  - intros s c endpoints. split.
    + unfold handleAPIInfo. rewrite endpoints_loop. reflexivity.
    + subst endpoints. induction (elems (tables s)) as [|t ts IH]; [reflexivity|].
      cbn [flat_map app length]. rewrite IH. lia.
  - split; [apply NewAPIServer_users|]. split.
    + do 4 eexists. repeat split; reflexivity.
    + vm_compute. reflexivity.
Qed.

(** ** The query string *)

Lemma append_cons a s t : String a s +:+ t = String a (s +:+ t).
Proof. reflexivity. Qed.

Lemma append_assoc s t u : (s +:+ t) +:+ u = s +:+ (t +:+ u).
Proof.
  induction s as [|a s IH]; [reflexivity|].
  now rewrite !append_cons, IH.
Qed.

Lemma append_nil_r s : s +:+ "" = s.
Proof.
  induction s as [|a s IH]; [reflexivity|].
  now rewrite append_cons, IH.
Qed.

(** The values of [key] in the query string, in order. *)
Lemma ParseQuery_loop (pairs : list (string * string)) (m : url.Values) (key : string) :
  fold_left (fun m kv => <[kv.1 := default [] (m !! kv.1) ++ [kv.2]]> m) pairs m !! key
  = match map snd (List.filter (fun kv => (kv.1 =? key)%string) pairs) with
    | [] => m !! key
    | vs => Some (default [] (m !! key) ++ vs)
    end.
Proof.
  revert m. induction pairs as [|[k v] pairs IH]; intros m; [reflexivity|].
  cbn [fold_left List.filter fst snd]. rewrite IH.
  destruct (String.eqb_spec k key) as [->|Hne].
  - rewrite lookup_insert_eq. cbn [map snd default from_option id].
    destruct (map snd _); [reflexivity|].
    now rewrite <- app_assoc.
  - now rewrite lookup_insert_ne.
Qed.

Lemma ParseQuery_lookup (pairs : list (string * string)) (key : string) (vs : list string) :
  url.ParseQuery pairs !! key = Some vs ->
  exists v vs', vs = v :: vs' /\ first_value pairs key = Some v.
Proof.
  unfold url.ParseQuery, first_value. rewrite ParseQuery_loop, lookup_empty.
  induction pairs as [|[k w] pairs IH]; cbn [List.filter List.find fst snd map];
    [discriminate|].
  destruct (String.eqb_spec k key) as [->|Hne].
  - cbn [map snd]. intros [= <-]. now eexists _, _.
  - exact IH.
Qed.

Lemma ParseQuery_keys (pairs : list (string * string)) (key : string) :
  is_Some (url.ParseQuery pairs !! key) <-> key ∈ pairs.*1.
Proof.
  unfold url.ParseQuery. rewrite ParseQuery_loop, lookup_empty.
  induction pairs as [|[k w] pairs IH]; cbn [List.filter fst snd map fmap list_fmap].
  - split; [intros [? ?]; discriminate|intros H; now apply elem_of_nil in H].
  - rewrite elem_of_cons. destruct (String.eqb_spec k key) as [->|Hne].
    + cbn [map]. split; [now left|intros _; now eexists].
    + rewrite IH. split; [now right|]. intros [H|H]; [congruence|exact H].
Qed.

Lemma ParseQuery_without (pairs : list (string * string)) (key key' : string) :
  url.ParseQuery (List.filter (fun kv => negb (kv.1 =? key)%string) pairs) !! key'
  = if (key =? key')%string then None else url.ParseQuery pairs !! key'.
Proof.
  unfold url.ParseQuery. rewrite !ParseQuery_loop, lookup_empty.
  destruct (String.eqb_spec key key') as [<-|Hne].
  - replace (List.filter (fun kv : string * string => (kv.1 =? key)%string)
               (List.filter (fun kv => negb (kv.1 =? key)%string) pairs))
      with (@nil (string * string)); [reflexivity|].
    induction pairs as [|[k v] pairs IH]; [reflexivity|]. cbn [List.filter fst].
    destruct (String.eqb_spec k key) as [->|Hk]; cbn [negb List.filter fst]; [exact IH|].
    apply String.eqb_neq in Hk. now rewrite Hk.
  - replace (List.filter (fun kv : string * string => (kv.1 =? key')%string)
               (List.filter (fun kv => negb (kv.1 =? key)%string) pairs))
      with (List.filter (fun kv : string * string => (kv.1 =? key')%string) pairs);
      [reflexivity|].
    induction pairs as [|[k v] pairs IH]; [reflexivity|]. cbn [List.filter fst].
    destruct (String.eqb_spec k key) as [->|Hk]; cbn [negb List.filter fst].
    + apply String.eqb_neq in Hne. now rewrite Hne.
    + destruct (k =? key')%string; [now f_equal|exact IH].
Qed.

(** ** Pagination parameters *)

Lemma limit_eq (c : gin.Context) :
  limit c = match strconv.Atoi (gin.Query c "limit") with
            | Some l => if (0 <? l)%Z then l else 100%Z
            | None => 100%Z
            end.
Proof.
  unfold limit. destruct (String.eqb_spec (gin.Query c "limit") "") as [->|_]; cbn [negb].
  - reflexivity.
  - destruct (strconv.Atoi _) as [l|]; [|reflexivity].
    now rewrite Z.gtb_ltb.
Qed.

Lemma offset_eq (c : gin.Context) :
  offset c = match strconv.Atoi (gin.Query c "offset") with
             | Some o => if (0 <=? o)%Z then o else 0%Z
             | None => 0%Z
             end.
Proof.
  unfold offset. destruct (String.eqb_spec (gin.Query c "offset") "") as [->|_]; cbn [negb].
  - reflexivity.
  - destruct (strconv.Atoi _) as [o|]; [|reflexivity].
    now rewrite Z.geb_leb.
Qed.

Lemma Query_without_eq key c : gin.Query (without key c) key = "".
Proof.
  unfold gin.Query, gin.URLQuery, without. cbn [gin.RawQuery].
  now rewrite ParseQuery_without, String.eqb_refl.
Qed.

Lemma Query_without_ne key key' c :
  key <> key' -> gin.Query (without key c) key' = gin.Query c key'.
Proof.
  intros H. unfold gin.Query, gin.URLQuery, without. cbn [gin.RawQuery].
  apply String.eqb_neq in H. now rewrite ParseQuery_without, H.
Qed.

Lemma filters_without key entries whereConditions params :
  reserved key = true ->
  filters (List.filter (fun e => negb (e.1 =? key)%string) entries) whereConditions params
  = filters entries whereConditions params.
Proof.
  intros Hr. revert whereConditions params.
  induction entries as [|[k vs] entries IH]; intros w p; [reflexivity|].
  cbn [List.filter fst]. destruct (String.eqb_spec k key) as [->|Hne]; cbn [negb].
  - cbn [filters]. rewrite Hr. cbn [negb]. apply IH.
  - cbn [filters]. destruct (negb (reserved k)); [|apply IH].
    destruct vs; [reflexivity|apply IH].
Qed.

(** A list request whose pagination parameter [key] falls back to its
    default is served exactly like the request without that parameter. *)
Lemma table_without key s tableName c :
  (key = "limit" \/ key = "offset") ->
  limit (without key c) = limit c ->
  offset (without key c) = offset c ->
  handleTableQuery s tableName (without key c) = handleTableQuery s tableName c.
Proof.
  intros Hk Hl Ho. unfold handleTableQuery. rewrite Hl, Ho.
  replace (gin.RangeQuery (without key c))
    with (List.filter (fun e => negb (e.1 =? key)%string) (gin.RangeQuery c))
    by reflexivity.
  rewrite filters_without by (destruct Hk as [->| ->]; reflexivity).
  rewrite Query_without_ne by (destruct Hk as [->| ->]; discriminate).
  reflexivity.
Qed.

(** The text of the list statement, clause by clause. *)
Lemma listQuery_text tableName whereConditions order lim off :
  listQuery tableName whereConditions order lim off
  = "SELECT * FROM " +:+ tableName
    +:+ match whereConditions with
        | [] => ""
        | _ => " WHERE " +:+ String.concat " AND " whereConditions
        end
    +:+ (if (order =? "")%string then "" else " ORDER BY " +:+ order)
    +:+ " LIMIT " +:+ strconv.Itoa lim +:+ " OFFSET " +:+ strconv.Itoa off.
Proof.
  unfold listQuery.
  destruct whereConditions as [|w ws]; cbn [length Nat.ltb Nat.leb];
    destruct (order =? "")%string; cbn [negb];
    rewrite ?append_assoc; reflexivity.
Qed.

(** C3. The effective limit is the supplied [limit] when [strconv.Atoi]
    accepts it and it is positive, and 100 otherwise; the effective offset
    is the supplied [offset] when [strconv.Atoi] accepts it and it is not
    negative, and 0 otherwise. A request whose [limit] (or [offset]) is
    rejected is served exactly as the same request without that parameter:
    same reply, same statements. The effective values are the ones used:
    the list statement ends in [LIMIT <limit> OFFSET <offset>] with them,
    and the page that answers it carries them as [limit] and [offset]. *)
Theorem pagination_defaults (s : APIServer) (tableName : string) (c : gin.Context) :
  (forall l, strconv.Atoi (gin.Query c "limit") = Some l -> (0 < l)%Z -> limit c = l)
  /\ (forall o, strconv.Atoi (gin.Query c "offset") = Some o -> (0 <= o)%Z -> offset c = o)
  /\ ((forall l, strconv.Atoi (gin.Query c "limit") = Some l -> (l <= 0)%Z) ->
      limit c = 100%Z
      /\ run (handleTableQuery s tableName c)
         = run (handleTableQuery s tableName (without "limit" c)))
  /\ ((forall o, strconv.Atoi (gin.Query c "offset") = Some o -> (o < 0)%Z) ->
      offset c = 0%Z
      /\ run (handleTableQuery s tableName c)
         = run (handleTableQuery s tableName (without "offset" c)))
  /\ (forall total whereConditions params,
        sql.QueryRowScanInt (db s) (countQuery tableName) = Ok total ->
        filters (gin.RangeQuery c) [] [] = Some (whereConditions, params) ->
        let query :=
          "SELECT * FROM " +:+ tableName
          +:+ match whereConditions with
              | [] => ""
              | _ => " WHERE " +:+ String.concat " AND " whereConditions
              end
          +:+ (if (gin.Query c "order" =? "")%string then ""
               else " ORDER BY " +:+ gin.Query c "order")
          +:+ " LIMIT " +:+ strconv.Itoa (limit c)
          +:+ " OFFSET " +:+ strconv.Itoa (offset c) in
        (run (handleTableQuery s tableName c)).2
        = [(countQuery tableName, []); (query, params)]
        /\ forall rows columns,
             db s query params = Ok rows ->
             sql.Columns rows = Ok columns ->
             Forall (fun r => length r = length columns) (sql.Next rows) ->
             (run (handleTableQuery s tableName c)).1
             = Reply StatusOK
                 (PageBody total (offset c) (limit c)
                    (append None (map (decodeRow columns) (sql.Next rows))))).
Proof.
  split; [|split; [|split; [|split]]].
  - intros l H Hl. rewrite limit_eq, H.
    now destruct (Z.ltb_spec 0 l); [|lia].
  - intros o H Ho. rewrite offset_eq, H.
    now destruct (Z.leb_spec 0 o); [|lia].
  - intros H.
    assert (Hl : limit c = 100%Z).
    { rewrite limit_eq. destruct (strconv.Atoi _) as [l|] eqn:E; [|reflexivity].
      specialize (H l eq_refl). now destruct (Z.ltb_spec 0 l); [lia|]. }
    split; [exact Hl|].
    rewrite table_without; [reflexivity|now left| |].
    + rewrite Hl. unfold limit. now rewrite Query_without_eq.
    + unfold offset. now rewrite Query_without_ne.
  - intros H.
    assert (Ho : offset c = 0%Z).
    { rewrite offset_eq. destruct (strconv.Atoi _) as [o|] eqn:E; [|reflexivity].
      specialize (H o eq_refl). now destruct (Z.leb_spec 0 o); [lia|]. }
    split; [exact Ho|].
    rewrite table_without; [reflexivity|now right| |].
    + unfold limit. now rewrite Query_without_ne.
    + rewrite Ho. unfold offset. now rewrite Query_without_eq.
  - intros total whereConditions params Hc Hf query. subst query.
    rewrite <- listQuery_text. split.
    + now rewrite (table_after_filters _ _ _ _ _ _ Hc Hf).
    + intros rows columns Hq Hcols Hlen.
      now rewrite (table_page_run _ _ _ _ _ _ _ _ Hc Hf Hq Hcols Hlen).
Qed.

Example Atoi_examples :
  map strconv.Atoi
    ["25"; "+7"; "-5"; "0"; "007"; "abc"; "12x"; " 1"; "-"; "1.5";
     "9223372036854775807"; "9223372036854775808"]
  = [Some 25; Some 7; Some (-5); Some 0; Some 7; None; None; None; None; None;
     Some 9223372036854775807; None]%Z.
Proof. vm_compute. reflexivity. Qed.

Lemma pagination_defaults_witness :
  limit (gin.request [("limit", "5")] "") = 5%Z
  /\ offset (gin.request [("offset", "3")] "") = 3%Z
  /\ limit (gin.request [("limit", "0")] "") = 100%Z
  /\ limit (gin.request [("limit", "abc")] "") = 100%Z
  /\ offset (gin.request [("offset", "-1")] "") = 0%Z
  /\ run (handleTableQuery usersServer "users" (gin.request [("limit", "-2")] ""))
     = run (handleTableQuery usersServer "users"
              (without "limit" (gin.request [("limit", "-2")] "")))
  /\ (run (handleTableQuery usersServer "users"
             (gin.request [("limit", "1"); ("offset", "1")] ""))).2
     = [("SELECT COUNT(*) FROM users", []);
        ("SELECT * FROM users LIMIT 1 OFFSET 1", [])]
  /\ (run (handleTableQuery usersServer "users"
             (gin.request [("limit", "1"); ("offset", "1")] ""))).1
     = Reply 200 (PageBody 2 1 1 (Some [Bo])).
Proof.
  refine (conj _ (conj _ (conj _ (conj _ (conj _ (conj _ _)))))).
  - apply (proj1 (pagination_defaults usersServer "users" _)); [reflexivity|lia].
  - apply (proj1 (proj2 (pagination_defaults usersServer "users" _)));
      [reflexivity|lia].
  - apply (proj1 (proj2 (proj2 (pagination_defaults usersServer "users" _)))).
    intros l H. vm_compute in H. inversion H. lia.
  - apply (proj1 (proj2 (proj2 (pagination_defaults usersServer "users" _)))).
    intros l H. vm_compute in H. discriminate H.
  - apply (proj2 (proj2 (proj2 (pagination_defaults usersServer "users" _)))).
    intros o H. vm_compute in H. inversion H. lia.
  - apply (proj1 (proj2 (proj2 (pagination_defaults usersServer "users" _)))).
    intros l H. vm_compute in H. inversion H. lia.
  - pose proof (proj2 (proj2 (proj2 (proj2
                  (pagination_defaults usersServer "users"
                     (gin.request [("limit", "1"); ("offset", "1")] "")))))
                  2%Z [] [] ltac:(vm_compute; reflexivity) ltac:(vm_compute; reflexivity))
      as [Hlog Hpage].
    split; [exact Hlog|].
    apply (Hpage (MiniSQLite.answer ["id"; "name"; "age"]
                    [[sql.VInt 2; sql.VString "Bo"; sql.VInt 41]])
             ["id"; "name"; "age"]).
    + vm_compute. reflexivity.
    + reflexivity.
    + repeat constructor.
Defined.

(** ** Row decoding *)

Lemma find_append {A} (f : A -> bool) (l1 l2 : list A) :
  List.find f (l1 ++ l2)
  = match List.find f l1 with
    | Some x => Some x
    | None => List.find f l2
    end.
Proof.
  induction l1 as [|a l1 IH]; [reflexivity|].
  cbn [app List.find]. now destruct (f a).
Qed.

Lemma decodeRow_loop (cvs : list (string * sql.Value)) (row : Record_) (col : string) :
  fold_left (fun row cv => <[cv.1 := decodeValue cv.2]> row) cvs row !! col
  = match List.find (fun cv => (cv.1 =? col)%string) (rev cvs) with
    | Some cv => Some (decodeValue cv.2)
    | None => row !! col
    end.
Proof.
  revert row. induction cvs as [|[c v] cvs IH]; intros row; [reflexivity|].
  cbn [fold_left rev fst snd]. rewrite IH, find_append.
  destruct (List.find _ (rev cvs)) as [cv|]; [reflexivity|].
  cbn [List.find fst snd]. destruct (String.eqb_spec c col) as [->|Hne].
  - now rewrite lookup_insert_eq.
  - now rewrite lookup_insert_ne.
Qed.

Lemma find_rev_zip (cols : list string) (vals : list sql.Value) i col v :
  cols !! i = Some col -> vals !! i = Some v ->
  col ∉ drop (S i) cols ->
  List.find (fun cv : string * sql.Value => (cv.1 =? col)%string) (rev (zip cols vals))
  = Some (col, v).
Proof.
  revert vals i. induction cols as [|c cols IH]; intros vals i Hc Hv Hlast; [done|].
  destruct vals as [|w vals]; [done|].
  cbn [zip zip_with rev]. rewrite find_append.
  destruct i as [|i]; cbn in Hc, Hv, Hlast.
  - injection Hc as ->. injection Hv as ->.
    destruct (List.find _ (rev (zip_with pair cols vals))) as [[c' v']|] eqn:E.
    + apply find_some in E as [Hin Heq]. cbn in Heq.
      apply String.eqb_eq in Heq as ->.
      apply in_rev, list_elem_of_In, elem_of_zip_l in Hin. cbn in Hin.
      rewrite drop_0 in Hlast. contradiction.
    + cbn. now rewrite String.eqb_refl.
  - now rewrite (IH vals i Hc Hv Hlast).
Qed.

(** The member a decoded row has for the last column of a given name. *)
Lemma decodeRow_lookup (cols : list string) (vals : list sql.Value) i col v :
  cols !! i = Some col -> vals !! i = Some v ->
  col ∉ drop (S i) cols ->
  decodeRow cols vals !! col = Some (decodeValue v).
Proof.
  intros Hc Hv Hlast. unfold decodeRow.
  now rewrite decodeRow_loop, (find_rev_zip _ _ _ _ _ Hc Hv Hlast).
Qed.

Lemma scanRows_decodes (columns : list string) (next : list (list sql.Value))
    (acc results : slice Record_) :
  scanRows columns next acc = Ok results ->
  elems results = elems acc ++ map (decodeRow columns) next
  /\ Forall (fun r => length r = length columns) next
  /\ (results = None <-> acc = None /\ next = []).
Proof.
  revert acc. induction next as [|r next IH]; intros acc H; cbn [scanRows] in H.
  - injection H as <-. rewrite app_nil_r. repeat split; try tauto. constructor.
  - unfold sql.ScanAny in H.
    destruct (Nat.eqb_spec (length columns) (length r)) as [Hlen|]; [|discriminate].
    cbn [try] in H. unfold sql.assignAny in H. rewrite map_id in H.
    apply IH in H as (He & Hall & Hnil). cbn [append elems default] in He, Hnil.
    split; [|split].
    + rewrite He. unfold id. cbn [map]. now rewrite <- app_assoc.
    + constructor; [now symmetry|exact Hall].
    + split; [intros ->; destruct Hnil as [Hnil _]; now destruct Hnil|].
      intros [_ ?]. discriminate.
Qed.

(** A page reply, read backwards: both statements were answered and every
    row was scanned. *)
Lemma table_page_inv s tableName c status total off lim data :
  (run (handleTableQuery s tableName c)).1 = Reply status (PageBody total off lim data) ->
  exists whereConditions params rows columns,
    sql.QueryRowScanInt (db s) (countQuery tableName) = Ok total
    /\ filters (gin.RangeQuery c) [] [] = Some (whereConditions, params)
    /\ db s (listQuery tableName whereConditions (gin.Query c "order")
               (limit c) (offset c)) params = Ok rows
    /\ sql.Columns rows = Ok columns
    /\ scanRows columns (sql.Next rows) None = Ok data
    /\ status = StatusOK /\ off = offset c /\ lim = limit c.
Proof.
  intros H.
  destruct (sql.QueryRowScanInt (db s) (countQuery tableName)) as [total'|e] eqn:Hc.
  2:{ rewrite (table_count_fails _ _ _ _ Hc) in H. discriminate H. }
  destruct (filters (gin.RangeQuery c) [] []) as [[whereConditions params]|] eqn:Hf.
  2:{ destruct (table_filters_panic _ _ _ _ Hc Hf) as [msg Hp].
      rewrite Hp in H. discriminate H. }
  rewrite (table_after_filters _ _ _ _ _ _ Hc Hf) in H. cbv zeta in H. cbn [fst] in H.
  destruct (db s _ params) as [rows|e] eqn:Hq; [|discriminate H].
  destruct (sql.Columns rows) as [columns|e] eqn:Hcols; [|discriminate H].
  destruct (scanRows columns (sql.Next rows) None) as [results|e] eqn:Hs;
    [|discriminate H].
  injection H as <- <- <- <- <-.
  exists whereConditions, params, rows, columns. now rewrite Hq.
Qed.

(** ** Decoded rows *)

Lemma decodeRow_loop_accepted (cvs : list (string * sql.Value)) (row : Record_) :
  map_Forall (fun _ v => is_Some (jsonValue v)) row ->
  Forall (fun cv => forall f, cv.2 = sql.VFloat f -> sql.finite f = true) cvs ->
  map_Forall (fun _ v => is_Some (jsonValue v))
    (fold_left (fun row cv => <[cv.1 := decodeValue cv.2]> row) cvs row).
Proof.
  intros Hrow H. revert row Hrow.
  induction H as [|[col v] cvs Hv _ IH]; intros row Hrow; [exact Hrow|].
  cbn [fold_left fst snd] in *. apply IH. apply map_Forall_insert_2; [|exact Hrow].
  destruct v as [|n|f|b|b|t|t]; cbn; try (eexists; reflexivity).
  rewrite (Hv f eq_refl). eexists; reflexivity.
Qed.

(** C6, as the program has it. In both query handlers every row of the
    answer becomes a record by [decodeRow]: for each column, in the order
    of the answer, a byte slice is stored as the string of its bytes and
    any other value exactly as the driver delivered it; the tables and
    declared types known to the server play no part in the handlers. A
    page holds one such record for each row delivered, a lookup the record
    of the first row. Hence a delivered byte slice or string is written as
    a JSON string, a delivered integer or finite float as a JSON number, a
    delivered bool as a JSON boolean and nil as JSON null, and a record
    without a float that is not finite is accepted by the encoder. *)
Theorem rows_are_decoded_mechanically :
  (forall b, decodeValue (sql.VBytes b) = sql.VString (string_of_list_byte b))
  /\ (forall v, (forall b, v <> sql.VBytes b) -> decodeValue v = v)
  /\ (forall (cols : list string) (vals : list sql.Value) i col v,
        cols !! i = Some col -> vals !! i = Some v -> col ∉ drop (S i) cols ->
        decodeRow cols vals !! col = Some (decodeValue v))
  /\ (forall s tableName c total whereConditions params rows columns,
        sql.QueryRowScanInt (db s) (countQuery tableName) = Ok total ->
        filters (gin.RangeQuery c) [] [] = Some (whereConditions, params) ->
        db s (listQuery tableName whereConditions (gin.Query c "order")
                (limit c) (offset c)) params = Ok rows ->
        sql.Columns rows = Ok columns ->
        Forall (fun r => length r = length columns) (sql.Next rows) ->
        (run (handleTableQuery s tableName c)).1
        = Reply StatusOK
            (PageBody total (offset c) (limit c)
               (append None (map (decodeRow columns) (sql.Next rows)))))
  /\ (forall s tableName c rows columns r next,
        db s (recordQuery tableName) [gin.ParamID c] = Ok rows ->
        sql.Columns rows = Ok columns ->
        sql.Next rows = r :: next -> length r = length columns ->
        (run (handleRecordQuery s tableName c)).1
        = Reply StatusOK (RecordBody (decodeRow columns r)))
  /\ (forall s tableName c status total off lim data,
        (run (handleTableQuery s tableName c)).1
        = Reply status (PageBody total off lim data) ->
        exists query args rows columns,
          In (query, args) (run (handleTableQuery s tableName c)).2
          /\ db s query args = Ok rows /\ sql.Columns rows = Ok columns
          /\ elems data = map (decodeRow columns) (sql.Next rows))
  /\ (forall s tableName c status result,
        (run (handleRecordQuery s tableName c)).1 = Reply status (RecordBody result) ->
        exists rows columns r next,
          db s (recordQuery tableName) [gin.ParamID c] = Ok rows
          /\ sql.Columns rows = Ok columns /\ sql.Next rows = r :: next
          /\ result = decodeRow columns r)
  /\ (forall conn tables1 tables2 tableName c,
        handleTableQuery {| db := conn; tables := tables1 |} tableName c
        = handleTableQuery {| db := conn; tables := tables2 |} tableName c
        /\ handleRecordQuery {| db := conn; tables := tables1 |} tableName c
           = handleRecordQuery {| db := conn; tables := tables2 |} tableName c)
  /\ (forall b n f t (text : string),
        jsonValue (decodeValue (sql.VBytes b)) = Some JString
        /\ jsonValue (decodeValue (sql.VString text)) = Some JString
        /\ jsonValue (decodeValue (sql.VInt n)) = Some JNumber
        /\ (sql.finite f = true -> jsonValue (decodeValue (sql.VFloat f)) = Some JNumber)
        /\ jsonValue (decodeValue (sql.VBool t)) = Some JBoolean
        /\ jsonValue (decodeValue sql.VNil) = Some JNull)
  /\ (forall cols vals,
        Forall (fun v => forall f, v = sql.VFloat f -> sql.finite f = true) vals ->
        marshals (RecordBody (decodeRow cols vals)) = true).
Proof.
  refine (conj _ (conj _ (conj _ (conj _ (conj _ (conj _ (conj _ (conj _ (conj _ _))))))))).
  - reflexivity.
  - intros v Hv. destruct v; try reflexivity. now destruct (Hv b).
  - apply decodeRow_lookup.
  - intros s tableName c total w p rows columns Hc Hf Hq Hcols Hlen.
    now rewrite (table_page_run _ _ _ _ _ _ _ _ Hc Hf Hq Hcols Hlen).
  - intros s tableName c rows columns r next Hq Hcols Hnext Hlen.
    rewrite record_run, Hq, Hcols, Hnext. unfold sql.ScanAny.
    rewrite Hlen, Nat.eqb_refl. unfold sql.assignAny. now rewrite map_id.
  - intros s tableName c status total off lim data H.
    destruct (table_page_inv _ _ _ _ _ _ _ _ H)
      as (w & p & rows & columns & Hc & Hf & Hq & Hcols & Hs & _).
    exists (listQuery tableName w (gin.Query c "order") (limit c) (offset c)),
      p, rows, columns.
    rewrite (table_after_filters _ _ _ _ _ _ Hc Hf). cbv zeta. cbn [snd].
    split; [right; now left|]. split; [exact Hq|]. split; [exact Hcols|].
    now destruct (scanRows_decodes _ _ _ _ Hs) as (-> & _).
  - intros s tableName c status result H. rewrite record_run in H. cbn [fst] in H.
    destruct (db s _ _) as [rows|e] eqn:Hq; [|discriminate H].
    destruct (sql.Columns rows) as [columns|e] eqn:Hcols; [|discriminate H].
    destruct (sql.Next rows) as [|r next] eqn:Hnext; [discriminate H|].
    unfold sql.ScanAny in H.
    destruct (length columns =? length r)%nat; [|discriminate H].
    injection H as <- <-. unfold sql.assignAny. rewrite map_id.
    now exists rows, columns, r, next.
  - intros. split; reflexivity.
  - intros b n f t text. refine (conj _ (conj _ (conj _ (conj _ (conj _ _)))));
      try reflexivity.
    intros Hf. cbn. now rewrite Hf.
  - intros cols vals H. cbn [marshals]. unfold accepted. apply bool_decide_eq_true.
    unfold decodeRow. apply decodeRow_loop_accepted; [apply map_Forall_empty|].
    apply Forall_forall. intros [col v] Hin f Hv. cbn [snd] in Hv. subst v.
    apply elem_of_zip_r in Hin.
    rewrite Forall_forall in H. apply (H _ Hin f eq_refl).
Qed.

Lemma rows_are_decoded_mechanically_witness :
  (run (handleRecordQuery usersServer "users" (gin.request [] "2"))).1
  = Reply 200 (RecordBody Bo)
  /\ (run (handleTableQuery usersServer "users" (gin.request [("age", "41")] ""))).1
     = Reply 200 (PageBody 2 0 100 (Some [Bo]))
  /\ decodeRow ["id"; "photo"; "score"; "note"]
       [sql.VInt 7; sql.VBytes [x68; x69]; sql.VFloat (sql.Float64 "1.5"); sql.VNil]
     !! "photo" = Some (sql.VString "hi")
  /\ jsonValue (decodeValue (sql.VFloat (sql.Float64 "1.5"))) = Some JNumber.
Proof.
  destruct rows_are_decoded_mechanically
    as (_ & _ & Hrow & Hpage & Hrecord & _ & _ & _ & Hjson & _).
  refine (conj _ (conj _ (conj _ _))).
  - apply (Hrecord usersServer "users" (gin.request [] "2")
             (MiniSQLite.answer ["id"; "name"; "age"]
                [[sql.VInt 2; sql.VString "Bo"; sql.VInt 41]])
             ["id"; "name"; "age"] [sql.VInt 2; sql.VString "Bo"; sql.VInt 41] []);
      vm_compute; reflexivity.
  - apply (Hpage usersServer "users" (gin.request [("age", "41")] "") 2%Z
             ["age = ?"] ["41"]
             (MiniSQLite.answer ["id"; "name"; "age"]
                [[sql.VInt 2; sql.VString "Bo"; sql.VInt 41]])
             ["id"; "name"; "age"]); try (vm_compute; reflexivity).
    repeat constructor.
  - apply (Hrow ["id"; "photo"; "score"; "note"]
             [sql.VInt 7; sql.VBytes [x68; x69]; sql.VFloat (sql.Float64 "1.5"); sql.VNil]
             1%nat "photo" (sql.VBytes [x68; x69]) eq_refl eq_refl).
    cbn [drop]. intros H. repeat (apply elem_of_cons in H as [H|H]; [discriminate H|]).
    now apply elem_of_nil in H.
  - apply (proj1 (proj2 (proj2 (proj2 (Hjson [] 0%Z (sql.Float64 "1.5") true ""))))).
    reflexivity.
Defined.

(** The claim C6 fails on a column declared BOOLEAN: the integer 1 stored
    in [tasks.done] reaches the handler as the bool [true], so the numeric
    column is written as a JSON boolean, not as a JSON number. *)
Lemma declared_boolean_is_not_written_as_a_number :
  let s := {| db := MiniSQLite.open tasks; tables := catalog_of tasks |} in
  let task : Record_ :=
    <["id" := sql.VInt 1]>
      (<["title" := sql.VString "Write"]> {["done" := sql.VBool true]}) in
  MiniSQLite.rows tasks_table
  = [[MiniSQLite.Integer 1; MiniSQLite.Text "Write"; MiniSQLite.Integer 1]]
  /\ (run (handleRecordQuery s "tasks" (gin.request [] "1"))).1
     = Reply 200 (RecordBody task)
  /\ (run (handleTableQuery s "tasks" (gin.request [] ""))).1
     = Reply 200 (PageBody 1 0 100 (Some [task]))
  /\ jsonBody (RecordBody task) !! "id" = Some JNumber
  /\ jsonBody (RecordBody task) !! "done" = Some JBoolean
  /\ jsonBody (RecordBody task) !! "done" <> Some JNumber.
Proof.
  intros s task.
  refine (conj _ (conj _ (conj _ (conj _ (conj _ _)))));
    try (vm_compute; reflexivity).
  assert (H : jsonBody (RecordBody task) !! "done" = Some JBoolean)
    by (vm_compute; reflexivity).
  rewrite H. discriminate.
Qed.

(** ** Filters *)

(** The filter loop keeps the entries whose key is not reserved, in order,
    and reads the first value of each. *)
Lemma filters_kept (entries : list (string * list string)) whereConditions params :
  Forall (fun e => e.2 <> []) entries ->
  let kept := List.filter (fun e => negb (reserved e.1)) entries in
  filters entries whereConditions params
  = Some (whereConditions ++ map (fun e => condition e.1) kept,
          params ++ map (fun e => hd "" e.2) kept).
Proof.
  intros Hne. revert whereConditions params.
  induction Hne as [|[k vs] entries Hvs Hne IH]; intros w p; cbn [filters List.filter].
  - now rewrite !app_nil_r.
  - cbn [fst snd] in *. destruct (negb (reserved k)).
    + destruct vs as [|v vs]; [contradiction|].
      rewrite IH. cbn [map fst snd hd]. now rewrite <- !app_assoc.
    + apply IH.
Qed.

(** ** The catalog *)

Example like_examples :
  map (MiniSQLite.like "sqlite_%")
    ["sqlite_sequence"; "sqlite_stat1"; "SQLITE_X"; "sqlite_"; "sqlitex1";
     "users"; "sqlite"; "my_sqlite_x"]
  = [true; true; true; true; true; false; false; false].
Proof. vm_compute. reflexivity. Qed.

Example affinity_examples :
  map MiniSQLite.affinity ["INTEGER"; "TEXT"; "VARCHAR(20)"; ""; "BLOB"; "REAL"; "DATE"]
  = [MiniSQLite.AffInteger; MiniSQLite.AffText; MiniSQLite.AffText; MiniSQLite.AffBlob;
     MiniSQLite.AffBlob; MiniSQLite.AffReal; MiniSQLite.AffNumeric].
Proof. vm_compute. reflexivity. Qed.

Lemma like_any (s : string) : MiniSQLite.like "%" s = true.
Proof.
  induction s as [|a s IH]; [reflexivity|].
  cbn in *. exact IH.
Qed.

Lemma like_sqlite_prefix (rest : string) :
  MiniSQLite.like "sqlite_%" ("sqlite_" +:+ rest) = true.
Proof. exact (like_any rest). Qed.

Lemma open_masterQuery (database : MiniSQLite.Database) :
  MiniSQLite.open database masterQuery []
  = Ok (MiniSQLite.answer ["name"]
          (map (fun o => [sql.VString (MiniSQLite.oname o)])
             (List.filter
                (fun o => (MiniSQLite.otype o =? "table")%string
                          && negb (MiniSQLite.like "sqlite_%" (MiniSQLite.oname o)))
                database))).
Proof.
  unfold MiniSQLite.open.
  replace (MiniSQLite.parse (MiniSQLite.words masterQuery))
    with (Some (MiniSQLite.MasterTables "sqlite_%")) by (vm_compute; reflexivity).
  reflexivity.
Qed.

(** Every table [loadTables] appends carries the name scanned from one of
    the rows of the table list. *)
Lemma loadTables_names (conn : sql.DB) (names : list string)
    (next : list (list sql.Value)) (tables0 tables1 : slice TableInfo.t) :
  loadTables conn names next tables0 = (tables1, None) ->
  forall t, t ∈ elems tables1 ->
    t ∈ elems tables0
    \/ exists r, r ∈ next /\ sql.ScanString names r = Ok (TableInfo.Name t).
Proof.
  revert tables0. induction next as [|r next IH]; intros tables0 H t Ht;
    cbn [loadTables] in H.
  - injection H as <-. now left.
  - destruct (loadTable conn names r) as [table|e] eqn:Hl; [|discriminate H].
    destruct (IH _ H t Ht) as [Hin|(r' & Hr' & Hs)].
    + cbn [append elems default] in Hin. unfold id in Hin.
      apply elem_of_app in Hin as [Hin|Hin]; [now left|].
      apply list_elem_of_singleton in Hin as ->. right. exists r.
      split; [apply elem_of_cons; now left|].
      unfold loadTable in Hl.
      destruct (sql.ScanString names r) as [tableName|]; [|discriminate Hl].
      cbn [try] in Hl. destruct (conn _ _); [|discriminate Hl].
      cbn [try] in Hl. destruct (loadColumns _ _ _); [|discriminate Hl].
      injection Hl as <-. reflexivity.
    + right. exists r'. split; [apply elem_of_cons; now right|exact Hs].
Qed.

Lemma serve_keeps_server s pattern c : (serve s pattern c).1 = s.
Proof. unfold serve. now destruct (List.find _ _) as [[? ?]|]. Qed.

Lemma serveAll_keeps_server s requests : serveAll s requests = s.
Proof.
  unfold serveAll. induction requests as [|rq requests IH]; [reflexivity|].
  cbn [fold_left]. now rewrite serve_keeps_server.
Qed.

(** C8. The tables of the server [NewAPIServer] builds are tables of
    [sqlite_master] whose name does not start with [sqlite_], and the
    server has the same tables after any sequence of requests. *)
Theorem catalog_excludes_internal_tables (database : MiniSQLite.Database)
    (s : APIServer) :
  NewAPIServer (MiniSQLite.open database) = Ok s ->
  (forall t, t ∈ elems (tables s) ->
     (forall rest, TableInfo.Name t <> "sqlite_" +:+ rest)
     /\ exists o, o ∈ database /\ MiniSQLite.otype o = "table"
                  /\ MiniSQLite.oname o = TableInfo.Name t)
  /\ (forall requests, tables (serveAll s requests) = tables s).
Proof.
  intros H. split; [|intros requests; now rewrite serveAll_keeps_server].
  unfold NewAPIServer, loadTableInfo in H. cbn [db tables] in H.
  rewrite open_masterQuery in H.
  cbn [columnNames MiniSQLite.answer sql.Columns sql.Next] in H.
  destruct (loadTables _ _ _ None) as [tables' [e|]] eqn:Hl; [discriminate H|].
  injection H as <-. cbn [tables]. intros t Ht.
  destruct (loadTables_names _ _ _ _ _ Hl t Ht) as [Hin|(r & Hr & Hs)].
  { now apply elem_of_nil in Hin. }
  apply list_elem_of_In, in_map_iff in Hr as (o & <- & Ho).
  apply filter_In in Ho as [Ho Hkeep].
  apply andb_true_iff in Hkeep as [Htype Hlike].
  cbn in Hs. injection Hs as Hname. split.
  - intros rest Hrest. rewrite Hname, Hrest, like_sqlite_prefix in Hlike.
    discriminate Hlike.
  - exists o. split; [now apply list_elem_of_In|].
    split; [now apply String.eqb_eq|exact Hname].
Qed.

Lemma NewAPIServer_users_with_internal :
  NewAPIServer (MiniSQLite.open MiniSQLite.users_with_internal)
  = Ok {| db := MiniSQLite.open MiniSQLite.users_with_internal;
          tables := tables usersServer |}.
Proof.
  unfold NewAPIServer, loadTableInfo. cbn [db tables].
  rewrite open_masterQuery.
  cbn [columnNames MiniSQLite.answer sql.Columns sql.Next].
  replace (loadTables _ _ _ None) with (tables usersServer, @None error)
    by (vm_compute; reflexivity).
  reflexivity.
Qed.

Lemma catalog_excludes_internal_tables_witness :
  let s := {| db := MiniSQLite.open MiniSQLite.users_with_internal;
              tables := tables usersServer |} in
  (forall t, t ∈ elems (tables s) ->
     (forall rest, TableInfo.Name t <> "sqlite_" +:+ rest)
     /\ exists o, o ∈ MiniSQLite.users_with_internal /\ MiniSQLite.otype o = "table"
                  /\ MiniSQLite.oname o = TableInfo.Name t)
  /\ (forall requests, tables (serveAll s requests) = tables s).
Proof.
  intros s.
  apply (catalog_excludes_internal_tables MiniSQLite.users_with_internal s).
  apply NewAPIServer_users_with_internal.
Defined.

(** ** Numbers as text *)

Lemma parse_digits_acc (d : Decimal.uint) (acc : positive) :
  strconv.parse_digits (NilEmpty.string_of_uint d) (Z.pos acc)
  = Some (Z.pos (Pos.of_uint_acc d acc)).
Proof.
  revert acc. induction d as [|d IH|d IH|d IH|d IH|d IH|d IH|d IH|d IH|d IH|d IH];
    intros acc; [reflexivity|..];
    cbn [NilEmpty.string_of_uint strconv.parse_digits Pos.of_uint_acc];
    change (strconv.is_digit _) with true; cbv iota;
    rewrite <- IH; f_equal; unfold strconv.digit_value.
  all: match goal with
       | |- context [Z.of_nat (nat_of_ascii ?c)] =>
           let v := eval vm_compute in (Z.of_nat (nat_of_ascii c)) in
           change (Z.of_nat (nat_of_ascii c)) with v
       end; lia.
Qed.

Lemma parse_digits_uint (d : Decimal.uint) :
  strconv.parse_digits (NilEmpty.string_of_uint d) 0 = Some (Z.of_N (Pos.of_uint d)).
Proof.
  induction d as [|d IH|d IH|d IH|d IH|d IH|d IH|d IH|d IH|d IH|d IH];
    [reflexivity|exact IH|..];
    cbn [NilEmpty.string_of_uint strconv.parse_digits Pos.of_uint];
    change (strconv.is_digit _) with true; cbv iota;
    apply parse_digits_acc.
Qed.

Lemma string_of_uint_nonempty (d : Decimal.uint) :
  d <> Decimal.Nil -> NilEmpty.string_of_uint d <> "".
Proof. destruct d; [congruence|discriminate..]. Qed.

Lemma string_of_uint_head (d : Decimal.uint) :
  match NilEmpty.string_of_uint d with
  | String c _ => c <> "-"%char /\ c <> "+"%char
  | EmptyString => True
  end.
Proof. destruct d; cbn; [exact I|split; discriminate..]. Qed.

Lemma no_space_uint (d : Decimal.uint) : no_space (NilEmpty.string_of_uint d) = true.
Proof. induction d; [reflexivity|exact IHd..]. Qed.

(** [strconv.Atoi] reads back what [%d] printed, when it fits an [int]. *)
Lemma Atoi_Itoa (z : Z) :
  strconv.Atoi (strconv.Itoa z)
  = if ((- 2 ^ 63 <=? z) && (z <=? 2 ^ 63 - 1))%Z then Some z else None.
Proof.
  unfold strconv.Itoa. destruct z as [|p|p]; [reflexivity|..]; cbn [Z.to_int].
  - cbn [NilEmpty.string_of_int].
    pose proof (string_of_uint_head (Pos.to_uint p)) as Hh.
    pose proof (string_of_uint_nonempty _ (DecimalPos.Unsigned.to_uint_nonnil p)) as Hn.
    pose proof (parse_digits_uint (Pos.to_uint p)) as Hp.
    rewrite DecimalPos.Unsigned.of_to in Hp. cbn [Z.of_N] in Hp.
    unfold strconv.Atoi.
    destruct (NilEmpty.string_of_uint (Pos.to_uint p)) as [|c s]; [congruence|].
    rewrite Hp.
    destruct c as [[] [] [] [] [] [] [] []]; try reflexivity;
      destruct Hh as [H1 H2]; congruence.
  - cbn [NilEmpty.string_of_int].
    pose proof (string_of_uint_nonempty _ (DecimalPos.Unsigned.to_uint_nonnil p)) as Hn.
    pose proof (parse_digits_uint (Pos.to_uint p)) as Hp.
    rewrite DecimalPos.Unsigned.of_to in Hp. cbn [Z.of_N] in Hp.
    unfold strconv.Atoi.
    destruct (NilEmpty.string_of_uint (Pos.to_uint p)) as [|c s]; [congruence|].
    rewrite Hp. reflexivity.
Qed.

Lemma is_word_Itoa (z : Z) : is_word (strconv.Itoa z) = true.
Proof.
  unfold is_word, strconv.Itoa.
  destruct z as [|p|p]; [reflexivity|..]; cbn [Z.to_int NilEmpty.string_of_int].
  - rewrite no_space_uint, andb_true_r.
    apply negb_true_iff, String.eqb_neq, string_of_uint_nonempty,
      DecimalPos.Unsigned.to_uint_nonnil.
  - cbn [no_space]. now rewrite no_space_uint.
Qed.

Lemma int_of_word_Itoa (z : Z) : MiniSQLite.int_of_word (strconv.Itoa z) = Some z.
Proof.
  unfold MiniSQLite.int_of_word, strconv.Itoa.
  rewrite NilEmpty.isi. cbn. now rewrite DecimalZ.of_to.
Qed.

(** ** The words of the statements *)

Lemma snoc_append cur c w : MiniSQLite.snoc cur c +:+ w = cur +:+ String c w.
Proof. unfold MiniSQLite.snoc. now rewrite append_assoc. Qed.

Lemma words_from_word (w s cur : string) :
  no_space w = true ->
  MiniSQLite.words_from (w +:+ s) cur = MiniSQLite.words_from s (cur +:+ w).
Proof.
  revert cur. induction w as [|c w IH]; intros cur Hw.
  - now rewrite append_nil_r.
  - cbn [no_space] in Hw. apply andb_true_iff in Hw as [Hc Hw].
    apply negb_true_iff in Hc.
    rewrite append_cons. cbn [MiniSQLite.words_from]. rewrite Hc.
    rewrite (IH _ Hw). now rewrite snoc_append.
Qed.

Lemma words_from_spaced (ws : list string) (cur : string) :
  is_word cur = true ->
  Forall (fun w => is_word w = true) ws ->
  MiniSQLite.words_from (spaced ws) cur = cur :: ws.
Proof.
  intros Hcur Hws. revert cur Hcur.
  induction Hws as [|w ws Hw Hws IH]; intros cur Hcur;
    apply andb_true_iff in Hcur as Hcur'; destruct Hcur' as [Hne _];
    apply negb_true_iff in Hne.
  - cbn [spaced MiniSQLite.words_from]. now rewrite Hne.
  - cbn [spaced]. change (" " +:+ w +:+ spaced ws) with (String " " (w +:+ spaced ws)).
    cbn [MiniSQLite.words_from]. change (MiniSQLite.is_space " ") with true.
    cbv iota. rewrite Hne. f_equal.
    apply andb_true_iff in Hw as Hw'. destruct Hw' as [_ Hns].
    rewrite (words_from_word _ _ _ Hns). now apply IH.
Qed.

Lemma words_spaced (w : string) (ws : list string) :
  is_word w = true ->
  Forall (fun w => is_word w = true) ws ->
  MiniSQLite.words (w +:+ spaced ws) = w :: ws.
Proof.
  intros Hw Hws. unfold MiniSQLite.words.
  apply andb_true_iff in Hw as Hw'. destruct Hw' as [_ Hns].
  rewrite (words_from_word _ _ _ Hns). now apply words_from_spaced.
Qed.

Lemma spaced_app (a b : list string) : spaced (a ++ b) = spaced a +:+ spaced b.
Proof.
  induction a as [|w a IH]; [reflexivity|].
  cbn [app spaced]. now rewrite IH, !append_assoc.
Qed.

Lemma spaced_cond_words (key : string) (keys : list string) :
  spaced (cond_words key keys)
  = " " +:+ String.concat " AND " (map condition (key :: keys)).
Proof.
  revert key. induction keys as [|key' keys IH]; intros key.
  - cbn [cond_words spaced map String.concat]. unfold condition.
    now rewrite append_nil_r.
  - cbn [cond_words]. change (key :: "=" :: "?" :: "AND" :: cond_words key' keys)
      with ([key; "="; "?"; "AND"] ++ cond_words key' keys).
    rewrite spaced_app, IH. cbn [spaced map String.concat]. unfold condition.
    rewrite ?append_assoc. reflexivity.
Qed.

Lemma countQuery_words (tableName : string) :
  is_word tableName = true ->
  MiniSQLite.words (countQuery tableName) = ["SELECT"; "COUNT(*)"; "FROM"; tableName].
Proof.
  intros Ht. rewrite <- (words_spaced "SELECT" ["COUNT(*)"; "FROM"; tableName]).
  - cbn [spaced]. now rewrite append_nil_r.
  - reflexivity.
  - repeat constructor. exact Ht.
Qed.

Lemma listQuery_spaced tableName keys order lim off :
  listQuery tableName (map condition keys) order lim off
  = "SELECT" +:+ spaced (["*"; "FROM"; tableName] ++ where_words keys
                         ++ order_words order ++ limit_words lim off).
Proof.
  rewrite listQuery_text, !spaced_app.
  assert (Hw : spaced (where_words keys)
               = match map condition keys with
                 | [] => ""
                 | _ => " WHERE " +:+ String.concat " AND " (map condition keys)
                 end).
  { destruct keys as [|key keys]; [reflexivity|].
    unfold where_words. change ("WHERE" :: cond_words key keys)
      with (["WHERE"] ++ cond_words key keys).
    rewrite spaced_app, spaced_cond_words. cbn [map]. reflexivity. }
  assert (Ho : spaced (order_words order)
               = if (order =? "")%string then "" else " ORDER BY " +:+ order).
  { unfold order_words. destruct (order =? "")%string; [reflexivity|].
    cbn [spaced]. now rewrite append_nil_r. }
  rewrite Hw, Ho. unfold limit_words. cbn [spaced].
  rewrite ?append_assoc, ?append_nil_r. reflexivity.
Qed.

Lemma is_word_words_ok keys order :
  Forall (fun key => is_word key = true) keys ->
  order = "" \/ is_word order = true ->
  Forall (fun w => is_word w = true) (where_words keys ++ order_words order).
Proof.
  intros Hk Ho. apply Forall_app. split.
  - destruct Hk as [|key keys Hkey Hkeys]; [constructor|].
    unfold where_words. constructor; [reflexivity|].
    revert key Hkey. induction Hkeys as [|key' keys Hkey' Hkeys IH]; intros key Hkey.
    + repeat constructor. exact Hkey.
    + cbn [cond_words]. repeat (constructor; [first [exact Hkey|reflexivity]|]).
      now apply IH.
  - unfold order_words. destruct Ho as [->|Ho]; [constructor|].
    destruct (order =? "")%string; repeat constructor. exact Ho.
Qed.

Lemma listQuery_words tableName keys order lim off :
  is_word tableName = true ->
  Forall (fun key => is_word key = true) keys ->
  order = "" \/ is_word order = true ->
  MiniSQLite.words (listQuery tableName (map condition keys) order lim off)
  = ["SELECT"; "*"; "FROM"; tableName] ++ where_words keys
    ++ order_words order ++ limit_words lim off.
Proof.
  intros Ht Hk Ho. rewrite listQuery_spaced. rewrite words_spaced; [reflexivity..|].
  cbn [app]. repeat (constructor; [first [exact Ht|reflexivity]|]).
  rewrite app_assoc. apply Forall_app. split; [now apply is_word_words_ok|].
  unfold limit_words. repeat (constructor; [first [apply is_word_Itoa|reflexivity]|]).
  constructor.
Qed.

Lemma ident_char_no_space (c : ascii) :
  ident_char c = true -> MiniSQLite.is_space c = false.
Proof.
  unfold ident_char, MiniSQLite.is_space. intros H.
  repeat match goal with
         | |- context [(nat_of_ascii c =? ?k)%nat] =>
             destruct (Nat.eqb_spec (nat_of_ascii c) k) as [E|_];
             [rewrite E in H; discriminate H|]
         end.
  reflexivity.
Qed.

Lemma is_ident_word (s : string) : is_ident s = true -> is_word s = true.
Proof.
  unfold is_ident, is_word. destruct s as [|c s]; [discriminate|].
  intros [_ H]%andb_true_iff. cbn [String.eqb negb andb].
  change (no_space (String c s) = true).
  induction (String c s) as [|a t IH]; [reflexivity|].
  cbn [ident_chars no_space] in *. apply andb_true_iff in H as [Ha Ht].
  now rewrite (ident_char_no_space _ Ha), IH.
Qed.

Lemma is_name_ident (s : string) : is_name s = true -> is_ident s = true.
Proof. unfold is_name. rewrite !andb_true_iff. tauto. Qed.

Lemma is_name_word (s : string) : is_name s = true -> is_word s = true.
Proof. intros H. now apply is_ident_word, is_name_ident. Qed.

(** The filter keys and the order value of a named request are words of
    the list statement. *)
Lemma named_request_words (c : gin.Context) :
  named_request c = true ->
  Forall (fun key => is_word key = true) (filter_keys c)
  /\ (gin.Query c "order" = "" \/ is_word (gin.Query c "order") = true).
Proof.
  unfold named_request. intros [Hk Ho]%andb_true_iff. split.
  - apply Forall_forall. intros key Hin. apply is_name_word.
    rewrite forallb_forall in Hk. now apply Hk, list_elem_of_In.
  - apply orb_true_iff in Ho as [Ho|Ho].
    + left. now apply String.eqb_eq.
    + right. now apply is_name_word.
Qed.

(** ** The engine on the statements of the program *)

Lemma open_count (database : MiniSQLite.Database) (tableName : string) o :
  is_word tableName = true ->
  MiniSQLite.find_table database tableName = Some o ->
  MiniSQLite.open database (countQuery tableName) []
  = Ok (MiniSQLite.answer ["COUNT(*)"]
          [[sql.VInt (Z.of_nat (length (MiniSQLite.rows o)))]]).
Proof.
  intros Ht Ho. unfold MiniSQLite.open. rewrite (countQuery_words _ Ht).
  change (MiniSQLite.parse _) with (Some (MiniSQLite.Count tableName)).
  cbn [MiniSQLite.exec]. now rewrite Ho.
Qed.

(** The count statement is answered with the number of rows of the table,
    which [Scan] stores in [total] when it fits an [int]. *)
Lemma count_total (database : MiniSQLite.Database) (tableName : string) o total :
  is_word tableName = true ->
  MiniSQLite.find_table database tableName = Some o ->
  sql.QueryRowScanInt (MiniSQLite.open database) (countQuery tableName) = Ok total ->
  total = Z.of_nat (length (MiniSQLite.rows o)).
Proof.
  intros Ht Ho H. unfold sql.QueryRowScanInt in H.
  rewrite (open_count _ _ _ Ht Ho) in H.
  cbn [try MiniSQLite.answer sql.Next sql.Columns sql.ScanInt sql.scanError
         sql.assignInt sql.asString] in H.
  rewrite Atoi_Itoa in H.
  destruct (_ && _)%bool; [|discriminate H].
  cbn [sql.scanError] in H. now injection H as <-.
Qed.

Lemma parse_conds_words (keys : list string) (key : string) (r0 : string)
    (rest : list string) :
  (r0 =? "AND")%string = false ->
  MiniSQLite.parse_conds (cond_words key keys ++ r0 :: rest)
  = Some (key :: keys, r0 :: rest).
Proof.
  intros Hr. revert key. induction keys as [|key' keys IH]; intros key.
  - cbn [cond_words app MiniSQLite.parse_conds].
    change (("=" =? "=")%string && ("?" =? "?")%string) with true. cbv iota.
    now rewrite Hr.
  - cbn [cond_words app MiniSQLite.parse_conds].
    change (("=" =? "=")%string && ("?" =? "?")%string) with true. cbv iota.
    change ("AND" =? "AND")%string with true. cbv iota.
    now rewrite (IH key').
Qed.

Lemma parse_listQuery tableName keys order lim off :
  MiniSQLite.parse (["SELECT"; "*"; "FROM"; tableName] ++ where_words keys
                    ++ order_words order ++ limit_words lim off)
  = Some (MiniSQLite.Select tableName keys
            (if (order =? "")%string then None else Some (order, false))
            (Some (lim, off))).
Proof.
  cbn [app MiniSQLite.parse].
  change (("SELECT" =? "SELECT")%string && ("FROM" =? "FROM")%string) with true.
  change ("*" =? "COUNT(*)")%string with false.
  change ("*" =? "*")%string with true. cbv iota.
  unfold MiniSQLite.parse_select.
  assert (Hl : MiniSQLite.parse_limit (limit_words lim off) = Some (Some (lim, off))).
  { unfold limit_words. cbn [MiniSQLite.parse_limit].
    change (("LIMIT" =? "LIMIT")%string && ("OFFSET" =? "OFFSET")%string) with true.
    cbv iota. now rewrite !int_of_word_Itoa. }
  assert (Ho : MiniSQLite.parse_order (order_words order ++ limit_words lim off)
               = Some (if (order =? "")%string then None else Some (order, false),
                       limit_words lim off)).
  { unfold order_words. destruct (order =? "")%string; reflexivity. }
  assert (Hw : MiniSQLite.parse_where
                 (where_words keys ++ order_words order ++ limit_words lim off)
               = Some (keys, order_words order ++ limit_words lim off)).
  { destruct keys as [|key keys].
    - unfold order_words. destruct (order =? "")%string; reflexivity.
    - unfold where_words. cbn [app MiniSQLite.parse_where].
      change ("WHERE" =? "WHERE")%string with true. cbv iota.
      unfold order_words. destruct (order =? "")%string;
        cbn [app]; now apply parse_conds_words. }
  now rewrite Hw, Ho, Hl.
Qed.

Lemma open_listQuery database tableName keys order lim off args :
  is_word tableName = true ->
  Forall (fun key => is_word key = true) keys ->
  order = "" \/ is_word order = true ->
  MiniSQLite.open database (listQuery tableName (map condition keys) order lim off) args
  = MiniSQLite.exec database
      (MiniSQLite.Select tableName keys
         (if (order =? "")%string then None else Some (order, false))
         (Some (lim, off))) args.
Proof.
  intros Ht Hk Ho. unfold MiniSQLite.open.
  now rewrite (listQuery_words _ _ _ _ _ Ht Hk Ho), parse_listQuery.
Qed.

Lemma filters_Some (entries : list (string * list string)) w p w' p' :
  filters entries w p = Some (w', p') ->
  w' = w ++ map condition (List.filter (fun e => negb (reserved e.1)) entries).*1.
Proof.
  revert w p. induction entries as [|[k vs] entries IH]; intros w p H;
    cbn [filters List.filter fst] in *.
  - injection H as <- <-. now rewrite app_nil_r.
  - destruct (negb (reserved k)).
    + destruct vs as [|v vs]; [discriminate H|].
      apply IH in H as ->. cbn [fmap list_fmap map fst]. now rewrite <- app_assoc.
    + now apply IH in H.
Qed.

(** ** Filters in the statement *)

(** C2, as the program has it. Let [pairs] be the query string of the
    request. The filter loop yields one condition for each distinct key
    other than [limit], [offset] and [order], the key written as it is
    followed by [ = ?], and binds for it the first value the key has in
    the query string; it never panics. The statement sent is
    [SELECT * FROM <table>], then [WHERE] and the conditions joined by
    [AND] when there is one, then the order and pagination clauses: its
    text is built from the keys alone, the values travel as arguments.
    When the table name, the keys and the order value are plain names, the
    statement read word by word is the selection with one equality
    condition per key and nothing else. *)
Theorem filters_are_bound_equalities (s : APIServer) (tableName : string)
    (c : gin.Context) :
  gin.range_ok c ->
  let pairs := gin.RawQuery c in
  exists keys params,
    NoDup keys
    /\ (forall key,
          key ∈ keys
          <-> key ∈ pairs.*1 /\ key <> "limit" /\ key <> "offset" /\ key <> "order")
    /\ Forall2 (fun key v => first_value pairs key = Some v) keys params
    /\ filters (gin.RangeQuery c) [] [] = Some (map condition keys, params)
    /\ (forall total,
          sql.QueryRowScanInt (db s) (countQuery tableName) = Ok total ->
          (run (handleTableQuery s tableName c)).2
          = [(countQuery tableName, []);
             (listQuery tableName (map condition keys) (gin.Query c "order")
                (limit c) (offset c), params)])
    /\ listQuery tableName (map condition keys) (gin.Query c "order") (limit c) (offset c)
       = "SELECT * FROM " +:+ tableName
         +:+ match keys with
             | [] => ""
             | _ => " WHERE " +:+ String.concat " AND " (map (fun key => key +:+ " = ?") keys)
             end
         +:+ (if (gin.Query c "order" =? "")%string then ""
              else " ORDER BY " +:+ gin.Query c "order")
         +:+ " LIMIT " +:+ strconv.Itoa (limit c)
         +:+ " OFFSET " +:+ strconv.Itoa (offset c)
    /\ (is_name tableName = true ->
        named_request c = true ->
        MiniSQLite.parse
          (MiniSQLite.words
             (listQuery tableName (map condition keys) (gin.Query c "order")
                (limit c) (offset c)))
        = Some (MiniSQLite.Select tableName keys
                  (if (gin.Query c "order" =? "")%string then None
                   else Some (gin.Query c "order", false))
                  (Some (limit c, offset c)))).
Proof.
  intros Hr pairs. unfold gin.range_ok, gin.URLQuery in Hr. fold pairs in Hr.
  set (entries := gin.RangeQuery c) in *.
  set (kept := List.filter (fun e => negb (reserved e.1)) entries).
  assert (Hin : forall k vs, (k, vs) ∈ entries <-> url.ParseQuery pairs !! k = Some vs).
  { intros k vs. rewrite Hr. apply elem_of_map_to_list. }
  assert (Hnd : NoDup entries.*1).
  { rewrite Hr. apply NoDup_fst_map_to_list. }
  assert (Hne : Forall (fun e => e.2 <> []) entries).
  { apply Forall_forall. intros [k vs] Hk%Hin.
    apply ParseQuery_lookup in Hk as (v & vs' & -> & _). discriminate. }
  assert (Hf : filters entries [] [] = Some (map condition kept.*1, map (fun e => hd "" e.2) kept)).
  { rewrite (filters_kept _ _ _ Hne). cbn [app]. fold kept.
    f_equal. f_equal. clearbody kept.
    induction kept as [|e kept IH]; [reflexivity|]. cbn. f_equal. exact IH. }
  exists kept.*1, (map (fun e => hd "" e.2) kept).
  refine (conj _ (conj _ (conj _ (conj Hf (conj _ (conj _ _)))))).
  - subst kept. clear -Hnd. induction entries as [|[k vs] entries IH]; [constructor|].
    cbn [List.filter fst]. inversion Hnd as [|? ? Hk Hnd']; subst.
    destruct (negb (reserved k)); [|now apply IH].
    cbn [fmap list_fmap fst]. constructor; [|now apply IH].
    intros Hin. apply Hk. apply list_elem_of_fmap in Hin as ([k' vs'] & -> & Hin).
    apply list_elem_of_In, filter_In in Hin as [Hin _].
    apply list_elem_of_fmap. exists (k', vs'). split; [reflexivity|].
    now apply list_elem_of_In.
  - intros key. rewrite <- reserved_false, <- ParseQuery_keys. split.
    + intros ([k vs] & -> & Hk)%list_elem_of_fmap.
      apply list_elem_of_In, filter_In in Hk as [Hk Hres]. cbn [fst] in *.
      apply list_elem_of_In, Hin in Hk. split; [eexists; exact Hk|].
      now destruct (reserved k).
    + intros [[vs Hk] Hres]. apply list_elem_of_fmap. exists (key, vs).
      split; [reflexivity|]. apply list_elem_of_In, filter_In.
      split; [now apply list_elem_of_In, Hin|]. cbn [fst]. now rewrite Hres.
  - assert (Hsub : Forall (fun e => e ∈ entries) kept).
    { apply Forall_forall. intros e He. apply list_elem_of_In, filter_In in He as [He _].
      now apply list_elem_of_In. }
    clearbody kept. clear Hf. induction Hsub as [|[k vs] kept Hk Hsub IH]; [constructor|].
    cbn [fmap list_fmap map fst snd]. constructor; [|exact IH].
    apply Hin, ParseQuery_lookup in Hk as (v & vs' & -> & Hv). exact Hv.
  - intros total Hc. now rewrite (table_after_filters _ _ _ _ _ _ Hc Hf).
  - rewrite listQuery_text. unfold condition. now destruct (kept.*1).
  - intros Ht%is_name_word Hn. destruct (named_request_words _ Hn) as [Hk Hw].
    now rewrite (listQuery_words _ _ _ _ _ Ht Hk Hw), parse_listQuery.
Qed.

Lemma filters_are_bound_equalities_witness :
  let pairs := [("age", "41"); ("name", "Bo"); ("age", "30"); ("limit", "5")] in
  let c := gin.request pairs "" in
  exists keys params,
    NoDup keys
    /\ (forall key,
          key ∈ keys
          <-> key ∈ pairs.*1 /\ key <> "limit" /\ key <> "offset" /\ key <> "order")
    /\ Forall2 (fun key v => first_value pairs key = Some v) keys params
    /\ filters (gin.RangeQuery c) [] [] = Some (map condition keys, params)
    /\ (forall total,
          sql.QueryRowScanInt (db usersServer) (countQuery "users") = Ok total ->
          (run (handleTableQuery usersServer "users" c)).2
          = [(countQuery "users", []);
             (listQuery "users" (map condition keys) (gin.Query c "order")
                (limit c) (offset c), params)])
    /\ listQuery "users" (map condition keys) (gin.Query c "order") (limit c) (offset c)
       = "SELECT * FROM " +:+ "users"
         +:+ match keys with
             | [] => ""
             | _ => " WHERE " +:+ String.concat " AND " (map (fun key => key +:+ " = ?") keys)
             end
         +:+ (if (gin.Query c "order" =? "")%string then ""
              else " ORDER BY " +:+ gin.Query c "order")
         +:+ " LIMIT " +:+ strconv.Itoa (limit c)
         +:+ " OFFSET " +:+ strconv.Itoa (offset c)
    /\ (is_name "users" = true ->
        named_request c = true ->
        MiniSQLite.parse
          (MiniSQLite.words
             (listQuery "users" (map condition keys) (gin.Query c "order")
                (limit c) (offset c)))
        = Some (MiniSQLite.Select "users" keys
                  (if (gin.Query c "order" =? "")%string then None
                   else Some (gin.Query c "order", false))
                  (Some (limit c, offset c)))).
Proof.
  intros pairs c.
  apply (filters_are_bound_equalities usersServer "users" c).
  unfold gin.range_ok. reflexivity.
Defined.

(** The claim C2 fails when a key is more than a column name: the key
    [age > 30 OR name] is written into the statement as it is, so the
    WHERE clause sent for [GET /users?age > 30 OR name=Ann] holds an
    inequality and an OR, and its one condition is not an equality on a
    column. *)
Lemma filter_key_can_spell_other_predicates :
  let c := gin.request [("age > 30 OR name", "Ann")] "" in
  gin.range_ok c
  /\ filters (gin.RangeQuery c) [] [] = Some (["age > 30 OR name = ?"], ["Ann"])
  /\ (run (handleTableQuery usersServer "users" c)).2
     = [("SELECT COUNT(*) FROM users", []);
        ("SELECT * FROM users WHERE age > 30 OR name = ? LIMIT 100 OFFSET 0", ["Ann"])]
  /\ MiniSQLite.words "age > 30 OR name = ?"
     = ["age"; ">"; "30"; "OR"; "name"; "="; "?"]
  /\ ~ (exists column,
          is_ident column = true /\ "age > 30 OR name = ?" = column +:+ " = ?").
Proof.
  intros c. refine (conj _ (conj _ (conj _ (conj _ _)))).
  - unfold gin.range_ok. reflexivity.
  - vm_compute. reflexivity.
  - vm_compute. reflexivity.
  - vm_compute. reflexivity.
  - intros (column & Hid & Heq).
    destruct column as [|c1 [|c2 [|c3 [|c4 column]]]]; vm_compute in Heq;
      try (inversion Heq; fail).
    inversion Heq; subst. vm_compute in Hid. discriminate Hid.
Qed.

Example filters_example :
  (run (handleTableQuery usersServer "users"
          (gin.request [("age", "41"); ("name", "Bo"); ("age", "30"); ("limit", "5")] ""))).2
  = [("SELECT COUNT(*) FROM users", []);
     ("SELECT * FROM users WHERE age = ? AND name = ? LIMIT 5 OFFSET 0", ["41"; "Bo"])].
Proof. vm_compute. reflexivity. Qed.

(** *** Sorting *)


Section Sorting.

Variable le : list MiniSQLite.Datum -> list MiniSQLite.Datum -> bool.
Hypothesis le_total : forall a b, le a b = false -> le b a = true.






End Sorting.



Lemma skip_drop (m : Z) (rs : list (list MiniSQLite.Datum)) :
  MiniSQLite.skip m rs = drop (Z.to_nat m) rs.
Proof.
  revert m. induction rs as [|r rs IH]; intros m; cbn [MiniSQLite.skip].
  - now rewrite drop_nil.
  - destruct (Z.ltb_spec 0 m) as [Hm|Hm].
    + rewrite IH. replace (Z.to_nat m) with (S (Z.to_nat (m - 1))) by lia. reflexivity.
    + replace (Z.to_nat m) with 0%nat by lia. reflexivity.
Qed.

Lemma first_take (n : Z) (rs : list (list MiniSQLite.Datum)) :
  MiniSQLite.first n rs = take (Z.to_nat n) rs.
Proof.
  revert n. induction rs as [|r rs IH]; intros n; cbn [MiniSQLite.first].
  - now rewrite take_nil.
  - destruct (Z.ltb_spec 0 n) as [Hn|Hn].
    + rewrite IH. replace (Z.to_nat n) with (S (Z.to_nat (n - 1))) by lia. reflexivity.
    + replace (Z.to_nat n) with 0%nat by lia. reflexivity.
Qed.

(** [LIMIT n OFFSET m] in terms of the list operations. *)
Lemma limited_eq (n m : Z) (rs : list (list MiniSQLite.Datum)) :
  MiniSQLite.limited (Some (n, m)) rs
  = if (n <? 0)%Z then drop (Z.to_nat m) rs
    else take (Z.to_nat n) (drop (Z.to_nat m) rs).
Proof.
  unfold MiniSQLite.limited. rewrite skip_drop.
  destruct (n <? 0)%Z; [reflexivity|apply first_take].
Qed.




Lemma table_log_starts_with_count s tableName c :
  hd_error (run (handleTableQuery s tableName c)).2 = Some (countQuery tableName, []).
Proof.
  destruct (sql.QueryRowScanInt (db s) (countQuery tableName)) as [total|e] eqn:Hc.
  - destruct (filters (gin.RangeQuery c) [] []) as [[w p]|] eqn:Hf.
    + now rewrite (table_after_filters _ _ _ _ _ _ Hc Hf).
    + destruct (table_filters_panic _ _ _ _ Hc Hf) as [msg ->]. reflexivity.
  - now rewrite (table_count_fails _ _ _ _ Hc).
Qed.

(** ** The total of a page *)

(** C1, as the program has it. The first statement of every list request
    is [SELECT COUNT( * ) FROM <table>], without condition and without
    argument, so the [total] of a page is the number of rows of the table,
    whatever the filters and the pagination are. On the example database
    [GET /users?age=41] returns the one matching row and [total] 2. *)
Theorem total_counts_every_row :
  (forall s tableName c,
     hd_error (run (handleTableQuery s tableName c)).2
     = Some ("SELECT COUNT(*) FROM " +:+ tableName, []))
  /\ (forall database tables0 tableName o c status total off lim data,
        is_ident tableName = true ->
        MiniSQLite.find_table database tableName = Some o ->
        (run (handleTableQuery {| db := MiniSQLite.open database; tables := tables0 |}
                tableName c)).1
        = Reply status (PageBody total off lim data) ->
        total = Z.of_nat (length (MiniSQLite.rows o)))
  /\ (run (handleTableQuery usersServer "users" (gin.request [("age", "41")] ""))).1
     = Reply 200 (PageBody 2 0 100 (Some [Bo])).
Proof.
  split; [exact table_log_starts_with_count|]. split; [|vm_compute; reflexivity].
  intros database tables0 tableName o c status total off lim data Ht%is_ident_word Ho H.
  destruct (table_page_inv _ _ _ _ _ _ _ _ H) as (_ & _ & _ & _ & Hc & _).
  cbn [db] in Hc. exact (count_total _ _ _ _ Ht Ho Hc).
Qed.

(** The claim C1 fails on the example of the specification: the [total] of
    [GET /users?age=41] is not 1. *)
Lemma total_is_not_the_filtered_count :
  let o := (run (handleTableQuery usersServer "users"
                   (gin.request [("age", "41")] ""))).1 in
  data_of o = Some (Some [Bo]) /\ total_of o = Some 2%Z /\ total_of o <> Some 1%Z.
Proof.
  intros o. assert (H : o = Reply 200 (PageBody 2 0 100 (Some [Bo])))
    by (vm_compute; reflexivity).
  rewrite H. cbn [data_of total_of]. repeat split. discriminate.
Qed.

Lemma total_counts_every_row_witness :
  2%Z = Z.of_nat (length (MiniSQLite.rows MiniSQLite.users_table)).
Proof.
  apply (proj1 (proj2 total_counts_every_row) MiniSQLite.users (tables usersServer)
           "users" MiniSQLite.users_table (gin.request [("age", "41")] "")
           200%Z 2%Z 0%Z 100%Z (Some [Bo])).
  - reflexivity.
  - reflexivity.
  - vm_compute. reflexivity.
Defined.

(** ** Ordering *)





(** * Further properties of the program *)

(** ** Pagination bounds *)

Lemma Atoi_range (s : string) (n : Z) :
  strconv.Atoi s = Some n -> (- 2 ^ 63 <= n <= 2 ^ 63 - 1)%Z.
Proof.
  unfold strconv.Atoi. intros H.
  assert (Hu : forall (neg : bool) (digits : string),
             match digits with
             | EmptyString => @None Z
             | String _ _ =>
                 match strconv.parse_digits digits 0 with
                 | Some m =>
                     if ((- 2 ^ 63 <=? (if neg then (- m)%Z else m))
                         && ((if neg then (- m)%Z else m) <=? 2 ^ 63 - 1))%Z
                     then Some (if neg then (- m)%Z else m) else None
                 | None => None
                 end
             end = Some n -> (- 2 ^ 63 <= n <= 2 ^ 63 - 1)%Z).
  { clear H. intros neg digits Hd. destruct digits as [|d ds]; [inversion Hd|].
    destruct (strconv.parse_digits _ 0) as [m|]; cbv iota in Hd; [|inversion Hd].
    destruct (_ && _)%bool eqn:E; cbv iota in Hd; [|inversion Hd]. injection Hd as <-.
    apply andb_true_iff in E as [E1 E2]. apply Z.leb_le in E1, E2. lia. }
  destruct s as [|c s]; [discriminate H|].
  destruct c as [[] [] [] [] [] [] [] []];
    first [ exact (Hu true s H) | exact (Hu false s H)
          | match type of H with
            | context [strconv.parse_digits ?d 0] => exact (Hu false d H)
            end ].
Qed.

Lemma limit_offset_range (c : gin.Context) :
  (1 <= limit c <= 2 ^ 63 - 1)%Z /\ (0 <= offset c <= 2 ^ 63 - 1)%Z.
Proof.
  rewrite limit_eq, offset_eq. split.
  - destruct (strconv.Atoi _) as [l|] eqn:E; [|lia].
    apply Atoi_range in E. destruct (Z.ltb_spec 0 l); lia.
  - destruct (strconv.Atoi _) as [o|] eqn:E; [|lia].
    apply Atoi_range in E. destruct (Z.leb_spec 0 o); lia.
Qed.

(** X1. Whatever the request, the effective limit is a positive [int] and
    the effective offset a non-negative [int]. *)
Theorem pagination_bounds (c : gin.Context) :
  (1 <= limit c <= 2 ^ 63 - 1)%Z /\ (0 <= offset c <= 2 ^ 63 - 1)%Z.
Proof. exact (limit_offset_range c). Qed.

(** ** Errors the handlers do not look at *)

(** X2. Neither query handler consults [rows.Err()]: the lookup replies,
    and a list request whose count succeeded replies, exactly as on a
    connection whose iterations never end with an error. An iteration cut
    short by an error thus gives a 200 page of the rows read so far, or
    404 when no row was read. *)
Theorem iteration_errors_are_not_consulted (s : APIServer) (tableName : string)
    (c : gin.Context) :
  run (handleRecordQuery s tableName c)
  = run (handleRecordQuery (withoutRowsErr s) tableName c)
  /\ (forall total,
        sql.QueryRowScanInt (db s) (countQuery tableName) = Ok total ->
        run (handleTableQuery s tableName c)
        = run (handleTableQuery (withoutRowsErr s) tableName c)).
Proof.
  split.
  - rewrite !record_run. cbn [withoutRowsErr db].
    destruct (db s _ _) as [rows|e]; reflexivity.
  - intros total Hc.
    assert (Hc' : sql.QueryRowScanInt (db (withoutRowsErr s)) (countQuery tableName)
                  = Ok total).
    { unfold sql.QueryRowScanInt in *. cbn [withoutRowsErr db].
      destruct (db s _ _) as [rows|e]; [|discriminate Hc]. cbn [try sql.Next] in *.
      destruct (sql.Next rows); [discriminate Hc|exact Hc]. }
    destruct (filters (gin.RangeQuery c) [] []) as [[w p]|] eqn:Hf.
    + rewrite (table_after_filters _ _ _ _ _ _ Hc Hf),
        (table_after_filters _ _ _ _ _ _ Hc' Hf).
      cbv zeta. cbn [withoutRowsErr db].
      destruct (db s _ p) as [rows|e]; reflexivity.
    + unfold run, handleTableQuery, bind, dbQueryRowScanInt.
      rewrite Hc, Hc'. cbn [orInternalServerError ret]. rewrite Hf. reflexivity.
Qed.

Lemma iteration_errors_are_not_consulted_witness :
  let s := {| db := interrupted (MiniSQLite.open MiniSQLite.users);
              tables := tables usersServer |} in
  (run (handleTableQuery s "users" (gin.request [] ""))).1
  = Reply 200 (PageBody 2 0 100 (Some [Ann]))
  /\ run (handleTableQuery s "users" (gin.request [] ""))
     = run (handleTableQuery (withoutRowsErr s) "users" (gin.request [] "")).
Proof.
  intros s. split; [vm_compute; reflexivity|].
  apply (proj2 (iteration_errors_are_not_consulted s "users" (gin.request [] "")) 2%Z).
  vm_compute. reflexivity.
Defined.

(** X3. When the count statement is answered without a row, the reply is
    500 with the error of the iteration, or [sql: no rows in result set]
    when there is none, and the list statement is not sent. *)
Theorem count_without_rows (s : APIServer) (tableName : string) (c : gin.Context)
    (rows : sql.Rows) :
  db s (countQuery tableName) [] = Ok rows ->
  sql.Next rows = [] ->
  run (handleTableQuery s tableName c)
  = (Reply StatusInternalServerError
       (ErrorBody (match sql.RowsErr rows with
                   | Some e => e
                   | None => "sql: no rows in result set"
                   end)),
     [(countQuery tableName, [])]).
Proof.
  intros Hq Hn. apply table_count_fails. unfold sql.QueryRowScanInt.
  rewrite Hq. cbn [try]. rewrite Hn. now destruct (sql.RowsErr rows).
Qed.

Lemma count_without_rows_witness :
  run (handleTableQuery
         {| db := fun _ _ => Ok (MiniSQLite.answer ["COUNT(*)"] []); tables := None |}
         "users" (gin.request [("age", "41")] ""))
  = (Reply 500 (ErrorBody "sql: no rows in result set"),
     [("SELECT COUNT(*) FROM users", [])]).
Proof.
  apply (count_without_rows
           {| db := fun _ _ => Ok (MiniSQLite.answer ["COUNT(*)"] []); tables := None |}
           "users" (gin.request [("age", "41")] "")
           (MiniSQLite.answer ["COUNT(*)"] [])); reflexivity.
Defined.

(** ** Pages against the engine *)








Lemma count_ok (database : MiniSQLite.Database) (tableName : string) o :
  is_word tableName = true ->
  MiniSQLite.find_table database tableName = Some o ->
  (Z.of_nat (length (MiniSQLite.rows o)) <= 2 ^ 63 - 1)%Z ->
  sql.QueryRowScanInt (MiniSQLite.open database) (countQuery tableName)
  = Ok (Z.of_nat (length (MiniSQLite.rows o))).
Proof.
  intros Ht Ho Hn. unfold sql.QueryRowScanInt. rewrite (open_count _ _ _ Ht Ho).
  cbn [try MiniSQLite.answer sql.Next sql.Columns sql.ScanInt sql.scanError
         sql.assignInt sql.asString].
  rewrite Atoi_Itoa.
  destruct (Z.leb_spec (- 2 ^ 63) (Z.of_nat (length (MiniSQLite.rows o)))); [|lia].
  destruct (Z.leb_spec (Z.of_nat (length (MiniSQLite.rows o))) (2 ^ 63 - 1)); [|lia].
  reflexivity.
Qed.




(** ** Lookup and list agree *)

Lemma open_recordQuery database tableName args :
  is_word tableName = true ->
  MiniSQLite.open database (recordQuery tableName) args
  = MiniSQLite.exec database (MiniSQLite.Select tableName ["id"] None None) args.
Proof.
  intros Ht. unfold MiniSQLite.open.
  replace (MiniSQLite.words (recordQuery tableName))
    with ["SELECT"; "*"; "FROM"; tableName; "WHERE"; "id"; "="; "?"]; [reflexivity|].
  symmetry.
  rewrite <- (words_spaced "SELECT" ["*"; "FROM"; tableName; "WHERE"; "id"; "="; "?"]);
    [reflexivity|reflexivity|].
  repeat constructor. exact Ht.
Qed.

(** The request [GET /<table>?id=<id>]. *)
Lemma request_by_id (id : string) :
  let c := gin.request [("id", id)] "" in
  gin.RangeQuery c = [("id", [id])]
  /\ gin.Query c "order" = "" /\ limit c = 100%Z /\ offset c = 0%Z.
Proof.
  intros c.
  assert (Hm : url.ParseQuery [("id", id)] = {["id" := [id]]}).
  { unfold url.ParseQuery. cbn [fold_left fst snd]. rewrite lookup_empty.
    cbn [default from_option app]. apply insert_empty. }
  assert (Hq : forall key, key <> "id" -> gin.Query c key = "").
  { intros key Hne. unfold gin.Query, gin.URLQuery, c, gin.request. cbn [gin.RawQuery].
    rewrite Hm, lookup_singleton_ne by congruence. reflexivity. }
  split; [|split; [|split]].
  - unfold c, gin.request. cbn [gin.RangeQuery]. rewrite Hm.
    apply map_to_list_singleton.
  - apply Hq. discriminate.
  - unfold limit. rewrite Hq by discriminate. reflexivity.
  - unfold offset. rewrite Hq by discriminate. reflexivity.
Qed.

(** X6. On a table of the database whose rows have one value per column,
    the record [GET /<table>/<id>] returns is the first record of the page
    [GET /<table>?id=<id>] returns. *)
Theorem record_reappears_in_filtered_list
    database tables0 tableName o c status result :
  is_ident tableName = true ->
  MiniSQLite.find_table database tableName = Some o ->
  Forall (fun r => length r = length (MiniSQLite.columns o)) (MiniSQLite.rows o) ->
  (Z.of_nat (length (MiniSQLite.rows o)) <= 2 ^ 63 - 1)%Z ->
  (run (handleRecordQuery {| db := MiniSQLite.open database; tables := tables0 |}
          tableName c)).1
  = Reply status (RecordBody result) ->
  exists others,
    (run (handleTableQuery {| db := MiniSQLite.open database; tables := tables0 |}
            tableName (gin.request [("id", gin.ParamID c)] ""))).1
    = Reply StatusOK
        (PageBody (Z.of_nat (length (MiniSQLite.rows o))) 0 100 (Some (result :: others))).
Proof.
  intros Ht%is_ident_word Ho Hwf Hn H.
  rewrite record_run in H. cbn [fst db] in H.
  rewrite (open_recordQuery _ _ _ Ht) in H. cbn [MiniSQLite.exec] in H.
  rewrite Ho in H.
  destruct (MiniSQLite.resolve _ ["id"] [gin.ParamID c]) as [conds|e] eqn:Hr;
    [|discriminate H].
  cbn [try MiniSQLite.ordered MiniSQLite.limited MiniSQLite.answer
         sql.Columns sql.Next] in H.
  destruct (List.filter (MiniSQLite.matches conds) (MiniSQLite.rows o))
    as [|r0 rs] eqn:Hrows; [discriminate H|].
  cbn [map] in H.
  assert (Hlen : Forall (fun r => length (MiniSQLite.toValues (MiniSQLite.columns o) r)
                                  = length (map MiniSQLite.cname (MiniSQLite.columns o)))
                   (r0 :: rs)).
  { rewrite <- Hrows. apply Forall_forall. intros r Hr0.
    apply list_elem_of_In, filter_In in Hr0 as [Hr0 _].
    rewrite Forall_forall in Hwf. unfold MiniSQLite.toValues.
    rewrite length_imap, length_map. apply Hwf.
    now apply list_elem_of_In. }
  unfold sql.ScanAny in H. inversion Hlen as [|? ? Hr0 Hrs]; subst.
  rewrite Hr0, Nat.eqb_refl in H. unfold sql.assignAny in H. rewrite map_id in H.
  injection H as <- <-.
  destruct (request_by_id (gin.ParamID c)) as (Hrange & Horder & Hlimit & Hoffset).
  cbv zeta in Hrange, Horder, Hlimit, Hoffset.
  assert (Hf : filters (gin.RangeQuery (gin.request [("id", gin.ParamID c)] "")) [] []
               = Some (map condition ["id"], [gin.ParamID c])).
  { rewrite Hrange. reflexivity. }
  exists (map (record_of o) (take 99 rs)).
  rewrite (table_after_filters {| db := MiniSQLite.open database; tables := tables0 |}
             _ _ _ _ _ (count_ok _ _ _ Ht Ho Hn) Hf).
  cbv zeta. cbn [fst db]. rewrite Horder, Hlimit, Hoffset.
  rewrite (open_listQuery _ _ ["id"] "" _ _ _ Ht) by (repeat constructor).
  cbn [String.eqb MiniSQLite.exec]. rewrite Ho, Hr.
  cbn [try MiniSQLite.ordered MiniSQLite.answer sql.Columns sql.Next]. rewrite Hrows.
  replace (MiniSQLite.limited (Some (100%Z, 0%Z)) (r0 :: rs)) with (r0 :: take 99 rs)
    by (now rewrite limited_eq).
  rewrite scanRows_ok.
  - cbn [map append elems default app]. unfold record_of.
    rewrite map_map. reflexivity.
  - apply Forall_forall. intros r Hin. apply list_elem_of_In, in_map_iff in Hin
      as (r' & <- & Hin).
    rewrite Forall_forall in Hlen. apply Hlen. apply list_elem_of_In.
    destruct Hin as [<-|Hin]; [now left|right].
    apply list_elem_of_In, (subseteq_take 99 rs), list_elem_of_In, Hin.
Qed.

Lemma record_reappears_in_filtered_list_witness :
  exists others,
    (run (handleTableQuery usersServer "users" (gin.request [("id", "1")] ""))).1
    = Reply 200 (PageBody 2 0 100 (Some (Ann :: others))).
Proof.
  apply (record_reappears_in_filtered_list MiniSQLite.users (tables usersServer)
           "users" MiniSQLite.users_table (gin.request [] "1") 200%Z Ann).
  - reflexivity.
  - reflexivity.
  - repeat constructor.
  - vm_compute. discriminate.
  - vm_compute. reflexivity.
Defined.

(** ** Loading the catalog *)

Lemma append_append {A} (acc : slice A) (x : A) (l : list A) :
  append (append acc [x]) l = append acc (x :: l).
Proof.
  unfold append, elems. destruct acc as [a|], l; cbn; rewrite <- ?app_assoc; reflexivity.
Qed.

Lemma loadTables_ok conn names next (ts : list TableInfo.t) acc :
  Forall2 (fun r t => loadTable conn names r = Ok t) next ts ->
  loadTables conn names next acc = (append acc ts, None).
Proof.
  intros H. revert acc. induction H as [|r t next ts Hr _ IH]; intros acc.
  - reflexivity.
  - cbn [loadTables]. now rewrite Hr, IH, append_append.
Qed.

Lemma loadTables_fail conn names before r after (ts : list TableInfo.t) e acc :
  Forall2 (fun r t => loadTable conn names r = Ok t) before ts ->
  loadTable conn names r = Err e ->
  loadTables conn names (before ++ r :: after) acc = (append acc ts, Some e).
Proof.
  intros H He. revert acc. induction H as [|r' t before ts Hr _ IH]; intros acc.
  - cbn [app loadTables]. now rewrite He.
  - cbn [app loadTables]. now rewrite Hr, IH, append_append.
Qed.

Lemma loadTable_withoutRowsErr conn tables0 names r :
  loadTable (db (withoutRowsErr {| db := conn; tables := tables0 |})) names r
  = loadTable conn names r.
Proof.
  unfold loadTable, withoutRowsErr. cbn [db].
  destruct (sql.ScanString names r) as [tableName|e]; [|reflexivity]. cbn [try].
  now destruct (conn (pragmaQuery tableName) []).
Qed.

Lemma loadTables_withoutRowsErr conn tables0 names next acc :
  loadTables (db (withoutRowsErr {| db := conn; tables := tables0 |})) names next acc
  = loadTables conn names next acc.
Proof.
  revert acc. induction next as [|r next IH]; intros acc; [reflexivity|].
  cbn [loadTables]. rewrite loadTable_withoutRowsErr.
  destruct (loadTable conn names r); [apply IH|reflexivity].
Qed.

(** X7. [NewAPIServer] fails when the table list, or the first table that
    does not load, fails with [e]: there is no server and the error is
    [failed to load table info: e]. Otherwise the server has one table for
    each row the iteration over the table list delivered, in order. The
    error that ends an iteration is not consulted, for the table list and
    for the columns alike: the catalog is the one of the same connection
    without iteration errors, so an iteration cut short gives a server
    with a part of the catalog. *)
Theorem catalog_follows_the_rows_delivered (conn : sql.DB) :
  (forall e,
     conn masterQuery [] = Err e ->
     NewAPIServer conn = Err ("failed to load table info: " +:+ e))
  /\ (forall rows ts,
        conn masterQuery [] = Ok rows ->
        Forall2 (fun r t => loadTable conn (columnNames rows) r = Ok t)
          (sql.Next rows) ts ->
        NewAPIServer conn = Ok {| db := conn; tables := append None ts |})
  /\ (forall rows before r after ts e,
        conn masterQuery [] = Ok rows ->
        sql.Next rows = before ++ r :: after ->
        Forall2 (fun r t => loadTable conn (columnNames rows) r = Ok t) before ts ->
        loadTable conn (columnNames rows) r = Err e ->
        NewAPIServer conn = Err ("failed to load table info: " +:+ e))
  /\ catalog (NewAPIServer conn)
     = catalog (NewAPIServer (db (withoutRowsErr {| db := conn; tables := None |}))).
Proof.
  split; [|split; [|split]].
  - intros e H. unfold NewAPIServer, loadTableInfo. cbn [db]. now rewrite H.
  - intros rows ts H Hts. unfold NewAPIServer, loadTableInfo. cbn [db tables].
    now rewrite H, (loadTables_ok _ _ _ _ _ Hts).
  - intros rows before r after ts e H Hn Hts He.
    unfold NewAPIServer, loadTableInfo. cbn [db tables].
    now rewrite H, Hn, (loadTables_fail _ _ _ _ _ _ _ _ Hts He).
  - unfold NewAPIServer, loadTableInfo. cbn [db tables].
    change (db (withoutRowsErr {| db := conn; tables := None |}) masterQuery [])
      with (match conn masterQuery [] with
            | Ok rows =>
                Ok {| sql.Columns := sql.Columns rows; sql.Next := sql.Next rows;
                      sql.RowsErr := None |}
            | Err e => Err e
            end).
    destruct (conn masterQuery []) as [rows|e]; [|reflexivity].
    cbn [sql.Next]. unfold columnNames at 2. cbn [sql.Columns].
    fold (columnNames rows). rewrite loadTables_withoutRowsErr.
    now destruct (loadTables conn (columnNames rows) (sql.Next rows) None) as [ts [e|]].
Qed.

Lemma catalog_follows_the_rows_delivered_witness :
  NewAPIServer (fun _ _ => Err "database is locked")
  = Err "failed to load table info: database is locked"
  /\ catalog (NewAPIServer (interrupted (MiniSQLite.open (MiniSQLite.users ++ order_lines))))
     = Ok (Some [ {| TableInfo.Name := "users";
                     TableInfo.Columns :=
                       Some [ {| ColumnInfo.Name := "id"; ColumnInfo.Type_ := "INTEGER";
                                 ColumnInfo.NotNull := false;
                                 ColumnInfo.PrimaryKey := true |} ] |} ]).
Proof.
  split.
  - apply (proj1 (catalog_follows_the_rows_delivered _)). reflexivity.
  - rewrite (proj1 (proj2 (catalog_follows_the_rows_delivered
                             (interrupted (MiniSQLite.open (MiniSQLite.users ++ order_lines)))))
               {| sql.Columns := Ok ["name"]; sql.Next := [[sql.VString "users"]];
                  sql.RowsErr := Some "interrupted" |}
               [ {| TableInfo.Name := "users";
                    TableInfo.Columns :=
                      Some [ {| ColumnInfo.Name := "id"; ColumnInfo.Type_ := "INTEGER";
                                ColumnInfo.NotNull := false;
                                ColumnInfo.PrimaryKey := true |} ] |} ]).
    + reflexivity.
    + vm_compute. reflexivity.
    + constructor; [vm_compute; reflexivity|constructor].
Defined.

Lemma no_space_app (a b : string) :
  no_space (a +:+ b) = no_space a && no_space b.
Proof.
  induction a as [|c a IH]; [reflexivity|].
  rewrite append_cons. cbn [no_space]. now rewrite IH, andb_assoc.
Qed.

Lemma strip_last_app (c : ascii) (s : string) :
  MiniSQLite.strip_last c (s +:+ String c "") = Some s.
Proof.
  induction s as [|a s IH].
  - change (MiniSQLite.strip_last c ("" +:+ String c ""))
      with (if Ascii.eqb c c then Some "" else None).
    now rewrite Ascii.eqb_refl.
  - rewrite append_cons. cbn [MiniSQLite.strip_last]. rewrite IH.
    destruct s; reflexivity.
Qed.

Lemma open_pragmaQuery (database : MiniSQLite.Database) (name : string) :
  no_space name = true ->
  MiniSQLite.open database (pragmaQuery name) []
  = Ok (MiniSQLite.answer ["cid"; "name"; "type"; "notnull"; "dflt_value"; "pk"]
          (match MiniSQLite.find_table database name with
           | Some o => imap MiniSQLite.table_info_row (MiniSQLite.columns o)
           | None => []
           end)).
Proof.
  intros Hn. unfold MiniSQLite.open.
  assert (Hw : MiniSQLite.words (pragmaQuery name)
               = ["PRAGMA"; "table_info(" +:+ name +:+ ")"]).
  { rewrite <- (words_spaced "PRAGMA" ["table_info(" +:+ name +:+ ")"]).
    - cbn [spaced]. now rewrite append_nil_r.
    - reflexivity.
    - repeat constructor. unfold is_word.
      rewrite !no_space_app, Hn. reflexivity. }
  rewrite Hw. cbn [MiniSQLite.parse]. change ("PRAGMA" =? "PRAGMA")%string with true.
  cbv iota.
  change (MiniSQLite.strip_prefix "table_info(" ("table_info(" +:+ name +:+ ")"))
    with (Some (name +:+ ")")).
  cbv iota. now rewrite strip_last_app.
Qed.

Lemma scanColumnInfo_row names (cid : nat) (c : MiniSQLite.Column) :
  (Z.of_nat cid <= 2 ^ 63 - 1)%Z ->
  (- 2 ^ 63 <= MiniSQLite.pk c <= 2 ^ 63 - 1)%Z ->
  scanColumnInfo names (MiniSQLite.table_info_row cid c) = Ok (describe c).
Proof.
  intros Hcid Hpk. unfold scanColumnInfo, MiniSQLite.table_info_row.
  cbn [sql.assignInt sql.assignString sql.asString sql.assignAny].
  rewrite !Atoi_Itoa.
  destruct (Z.leb_spec (- 2 ^ 63) (Z.of_nat cid)); [|lia].
  destruct (Z.leb_spec (Z.of_nat cid) (2 ^ 63 - 1)); [|lia].
  destruct (Z.leb_spec (- 2 ^ 63) (MiniSQLite.pk c)); [|lia].
  destruct (Z.leb_spec (MiniSQLite.pk c) (2 ^ 63 - 1)); [|lia].
  unfold describe. destruct (MiniSQLite.notnull c); reflexivity.
Qed.

Lemma loadColumns_rows names (cols : list MiniSQLite.Column) (k : nat) acc :
  (Z.of_nat (k + length cols) <= 2 ^ 63)%Z ->
  Forall (fun c => (- 2 ^ 63 <= MiniSQLite.pk c <= 2 ^ 63 - 1)%Z) cols ->
  loadColumns names (imap (fun i => MiniSQLite.table_info_row (k + i)) cols) acc
  = Ok (append acc (map describe cols)).
Proof.
  intros Hk Hpk. revert k acc Hk.
  induction Hpk as [|c cols Hc _ IH]; intros k acc Hk; [reflexivity|].
  cbn [imap loadColumns length] in *. rewrite Nat.add_0_r.
  rewrite scanColumnInfo_row by (try exact Hc; lia). cbn [try map].
  rewrite <- (append_append acc (describe c) (map describe cols)).
  etrans; [|apply (IH (S k)); lia].
  f_equal. apply imap_ext. intros i x _. cbn. f_equal. lia.
Qed.

Lemma loadTable_of_table (database : MiniSQLite.Database) (o : MiniSQLite.Object) :
  loadable database o ->
  loadTable (MiniSQLite.open database) ["name"] [sql.VString (MiniSQLite.oname o)]
  = Ok {| TableInfo.Name := MiniSQLite.oname o;
          TableInfo.Columns := append None (map describe (MiniSQLite.columns o)) |}.
Proof.
  intros (Hn & Hf & Hpk & Hlen). unfold loadTable.
  cbn [sql.ScanString sql.scanError sql.assignString sql.asString try].
  apply is_name_word in Hn. unfold is_word in Hn. apply andb_true_iff in Hn as [_ Hn].
  rewrite (open_pragmaQuery _ _ Hn), Hf.
  cbn [try columnNames MiniSQLite.answer sql.Columns sql.Next].
  rewrite (loadColumns_rows _ _ 0 None) by (try exact Hpk; cbn; lia).
  reflexivity.
Qed.

Lemma NewAPIServer_catalog (database : MiniSQLite.Database) :
  Forall (loadable database) (user_tables database) ->
  NewAPIServer (MiniSQLite.open database)
  = Ok {| db := MiniSQLite.open database; tables := catalog_of database |}.
Proof.
  intros H. unfold NewAPIServer, loadTableInfo. cbn [db tables].
  rewrite open_masterQuery.
  cbn [columnNames MiniSQLite.answer sql.Columns sql.Next].
  fold (user_tables database).
  rewrite (loadTables_ok _ _ _
             (map (fun o =>
                     {| TableInfo.Name := MiniSQLite.oname o;
                        TableInfo.Columns :=
                          append None (map describe (MiniSQLite.columns o)) |})
                (user_tables database))); [reflexivity|].
  induction H as [|o os Ho _ IH]; cbn [map]; constructor; [|exact IH].
  now apply loadTable_of_table.
Qed.



(** X9. On a database without user tables the server starts with the nil
    slice as its tables, and [GET /] replies with [tables] written as JSON
    [null] next to [endpoints] written as an empty array. *)
Theorem empty_catalog_is_null (database : MiniSQLite.Database) (c : gin.Context) :
  user_tables database = [] ->
  exists s,
    NewAPIServer (MiniSQLite.open database) = Ok s
    /\ tables s = None
    /\ (run (handleAPIInfo s c)).1 = Reply StatusOK (InfoBody None (Some []))
    /\ jsonBody (InfoBody None (Some [])) !! "tables" = Some JNull
    /\ jsonBody (InfoBody None (Some [])) !! "endpoints" = Some JArray.
Proof.
  intros H. eexists. split.
  - apply NewAPIServer_catalog. rewrite H. constructor.
  - unfold catalog_of. rewrite H. repeat split.
Qed.

Lemma empty_catalog_is_null_witness :
  exists s,
    NewAPIServer
      (MiniSQLite.open
         [ {| MiniSQLite.otype := "table"; MiniSQLite.oname := "sqlite_sequence";
              MiniSQLite.columns := []; MiniSQLite.rows := [] |} ]) = Ok s
    /\ tables s = None
    /\ (run (handleAPIInfo s (gin.request [] ""))).1
       = Reply StatusOK (InfoBody None (Some []))
    /\ jsonBody (InfoBody None (Some [])) !! "tables" = Some JNull
    /\ jsonBody (InfoBody None (Some [])) !! "endpoints" = Some JArray.
Proof.
  apply (empty_catalog_is_null _ (gin.request [] "")). reflexivity.
Defined.

(** X10. The endpoints [GET /] lists are the routes [setupRoutes]
    registers after the info route, one for one and in the same order,
    each written as [GET ] followed by the path pattern. *)
Theorem endpoints_are_the_registered_routes (s : APIServer) (c : gin.Context) :
  hd_error (setupRoutes s) = Some ("/", RouteInfo)
  /\ (run (handleAPIInfo s c)).1
     = Reply StatusOK
         (InfoBody (tables s)
            (Some (map (fun route => "GET " +:+ route.1) (tl (setupRoutes s))))).
Proof.
  split; [reflexivity|]. unfold handleAPIInfo. rewrite endpoints_loop.
  cbn [run JSON fst app setupRoutes tl]. do 3 f_equal.
  induction (elems (tables s)) as [|t ts IH]; [reflexivity|].
  cbn [flat_map app map fst]. rewrite IH. reflexivity.
Qed.

(** ** Records and statements *)

Lemma decodeRow_loop_dom (cvs : list (string * sql.Value)) (row : Record_) :
  dom (fold_left (fun row cv => <[cv.1 := decodeValue cv.2]> row) cvs row)
  = dom row ∪ list_to_set cvs.*1.
Proof.
  revert row. induction cvs as [|[col v] cvs IH]; intros row; cbn [fold_left].
  - cbn [fmap list_fmap list_to_set]. now rewrite union_empty_r_L.
  - rewrite IH, dom_insert_L. cbn [fmap list_fmap fst list_to_set].
    rewrite (comm_L (∪) {[col]} (dom row)). symmetry. apply (assoc_L (∪)).
Qed.

Lemma decodeRow_dom (columns : list string) (values : list sql.Value) :
  length values = length columns ->
  dom (decodeRow columns values) = list_to_set columns.
Proof.
  intros H. unfold decodeRow. rewrite decodeRow_loop_dom, dom_empty_L.
  rewrite fst_zip by lia. now rewrite union_empty_l_L.
Qed.

(** X11. The records of a page all have the same keys, the column names
    of the answer to the list statement; the record of a lookup has the
    column names of the answer to the lookup statement. *)
Theorem records_have_the_columns_as_keys (s : APIServer) (tableName : string)
    (c : gin.Context) :
  (forall status total off lim data,
     (run (handleTableQuery s tableName c)).1
     = Reply status (PageBody total off lim data) ->
     exists query args rows columns,
       In (query, args) (run (handleTableQuery s tableName c)).2
       /\ db s query args = Ok rows /\ sql.Columns rows = Ok columns
       /\ forall r, r ∈ elems data -> dom r = list_to_set columns)
  /\ (forall status result,
        (run (handleRecordQuery s tableName c)).1 = Reply status (RecordBody result) ->
        exists rows columns,
          db s (recordQuery tableName) [gin.ParamID c] = Ok rows
          /\ sql.Columns rows = Ok columns
          /\ dom result = list_to_set columns).
Proof.
  split.
  - intros status total off lim data H.
    destruct (table_page_inv _ _ _ _ _ _ _ _ H)
      as (w & p & rows & columns & Hc & Hf & Hq & Hcols & Hs & _).
    exists (listQuery tableName w (gin.Query c "order") (limit c) (offset c)),
      p, rows, columns.
    rewrite (table_after_filters _ _ _ _ _ _ Hc Hf). cbv zeta. cbn [snd].
    split; [right; now left|]. split; [exact Hq|]. split; [exact Hcols|].
    destruct (scanRows_decodes _ _ _ _ Hs) as (Hd & Hlen & _).
    cbn [elems default app] in Hd. intros r Hr. rewrite Hd in Hr.
    apply list_elem_of_fmap in Hr as (values & -> & Hin).
    rewrite Forall_forall in Hlen. apply decodeRow_dom, Hlen. exact Hin.
  - intros status result H. rewrite record_run in H. cbn [fst] in H.
    destruct (db s _ _) as [rows|e] eqn:Hq; [|discriminate H].
    destruct (sql.Columns rows) as [columns|e] eqn:Hcols; [|discriminate H].
    destruct (sql.Next rows) as [|r next]; [discriminate H|].
    unfold sql.ScanAny in H.
    destruct (Nat.eqb_spec (length columns) (length r)) as [Hlen|]; [|discriminate H].
    injection H as <- <-. unfold sql.assignAny. rewrite map_id.
    exists rows, columns. split; [reflexivity|]. split; [exact Hcols|].
    now apply decodeRow_dom.
Qed.

Lemma records_have_the_columns_as_keys_witness :
  exists rows columns,
    db usersServer (recordQuery "users") [gin.ParamID (gin.request [] "2")] = Ok rows
    /\ sql.Columns rows = Ok columns
    /\ dom Bo = list_to_set columns.
Proof.
  apply (proj2 (records_have_the_columns_as_keys usersServer "users"
                  (gin.request [] "2")) 200%Z Bo).
  vm_compute. reflexivity.
Defined.

Lemma recordQuery_words (tableName : string) :
  is_word tableName = true ->
  MiniSQLite.words (recordQuery tableName)
  = ["SELECT"; "*"; "FROM"; tableName; "WHERE"; "id"; "="; "?"].
Proof.
  intros Ht.
  rewrite <- (words_spaced "SELECT" ["*"; "FROM"; tableName; "WHERE"; "id"; "="; "?"]);
    [reflexivity|reflexivity|].
  repeat constructor. exact Ht.
Qed.

(** X12. The handlers send no statement for the info route, exactly one
    for a lookup, and for a list request the count followed by at most one
    list statement. Every text starts with [SELECT]; and when the table
    name, the filter keys and the order value are plain names, each text is
    one [SELECT] statement and nothing more: read word by word to its end
    it is the selection by [id], the count of the table, or the selection
    with one equality condition per filter key. *)
Theorem handlers_send_single_selects (s : APIServer) (tableName : string)
    (c : gin.Context) :
  (run (handleAPIInfo s c)).2 = []
  /\ (run (handleRecordQuery s tableName c)).2
     = [(recordQuery tableName, [gin.ParamID c])]
  /\ (exists rest,
        (run (handleTableQuery s tableName c)).2 = (countQuery tableName, []) :: rest
        /\ (rest = []
            \/ exists params,
                 rest = [(listQuery tableName (map condition (filter_keys c))
                            (gin.Query c "order") (limit c) (offset c), params)]))
  /\ Forall (fun call => String.prefix "SELECT " call.1 = true)
       ((run (handleRecordQuery s tableName c)).2
        ++ (run (handleTableQuery s tableName c)).2)
  /\ (is_name tableName = true ->
      named_request c = true ->
      MiniSQLite.parse (MiniSQLite.words (recordQuery tableName))
      = Some (MiniSQLite.Select tableName ["id"] None None)
      /\ MiniSQLite.parse (MiniSQLite.words (countQuery tableName))
         = Some (MiniSQLite.Count tableName)
      /\ MiniSQLite.parse
           (MiniSQLite.words
              (listQuery tableName (map condition (filter_keys c))
                 (gin.Query c "order") (limit c) (offset c)))
         = Some (MiniSQLite.Select tableName (filter_keys c)
                   (if (gin.Query c "order" =? "")%string then None
                    else Some (gin.Query c "order", false))
                   (Some (limit c, offset c)))).
Proof.
  assert (Hlog : exists rest,
            (run (handleTableQuery s tableName c)).2 = (countQuery tableName, []) :: rest
            /\ (rest = []
                \/ exists params,
                     rest = [(listQuery tableName (map condition (filter_keys c))
                                (gin.Query c "order") (limit c) (offset c), params)])).
  { destruct (sql.QueryRowScanInt (db s) (countQuery tableName)) as [total|e] eqn:Hc.
    - destruct (filters (gin.RangeQuery c) [] []) as [[w p]|] eqn:Hf.
      + rewrite (table_after_filters _ _ _ _ _ _ Hc Hf). cbv zeta. cbn [snd].
        eexists. split; [reflexivity|]. right. exists p.
        apply filters_Some in Hf. cbn [app] in Hf. now subst w.
      + destruct (table_filters_panic _ _ _ _ Hc Hf) as [msg ->]. cbn [snd].
        eexists. split; [reflexivity|]. now left.
    - rewrite (table_count_fails _ _ _ _ Hc). cbn [snd].
      eexists. split; [reflexivity|]. now left. }
  split; [reflexivity|]. split; [now rewrite record_run|]. split; [exact Hlog|].
  split.
  - rewrite record_run. cbn [snd]. destruct Hlog as (rest & -> & Hrest).
    constructor; [reflexivity|]. constructor; [reflexivity|].
    destruct Hrest as [->|[params ->]]; [constructor|].
    constructor; [|constructor]. cbn [fst]. now rewrite listQuery_text.
  - intros Ht%is_name_word Hn. destruct (named_request_words _ Hn) as [Hk Hw].
    split; [|split].
    + now rewrite (recordQuery_words _ Ht).
    + now rewrite (countQuery_words _ Ht).
    + now rewrite (listQuery_words _ _ _ _ _ Ht Hk Hw), parse_listQuery.
Qed.

Lemma handlers_send_single_selects_witness :
  MiniSQLite.parse
    (MiniSQLite.words "SELECT * FROM users WHERE age = ? ORDER BY name LIMIT 5 OFFSET 0")
  = Some (MiniSQLite.Select "users" ["age"] (Some ("name", false)) (Some (5, 0)%Z)).
Proof.
  destruct (handlers_send_single_selects usersServer "users"
              (gin.request [("age", "41"); ("order", "name"); ("limit", "5")] ""))
    as (_ & _ & _ & _ & H).
  destruct H as (_ & _ & H); [vm_compute; reflexivity|vm_compute; reflexivity|].
  vm_compute in H |- *. exact H.
Defined.

(** ** Configuring the connection *)

Lemma execPragmas_ok exec todo done :
  Forall (fun pragma => exec pragma = None) todo ->
  execPragmas exec todo done = (None, done ++ todo).
Proof.
  intros H. revert done. induction H as [|pragma todo Hp _ IH]; intros done;
    cbn [execPragmas].
  - now rewrite app_nil_r.
  - rewrite Hp, IH. now rewrite <- app_assoc.
Qed.

Lemma execPragmas_fail exec ok pragma rest e done :
  Forall (fun pragma => exec pragma = None) ok ->
  exec pragma = Some e ->
  execPragmas exec (ok ++ pragma :: rest) done
  = (Some ("failed to execute " +:+ quoted pragma +:+ ": " +:+ e),
     done ++ ok ++ [pragma]).
Proof.
  intros H He. revert done. induction H as [|p ok Hp _ IH]; intros done;
    cbn [app execPragmas].
  - now rewrite He.
  - rewrite Hp, IH. now rewrite <- app_assoc.
Qed.

(** X13. [configureDatabase] executes the seven pragmas in order and stops
    at the first one that fails: the statements after it are not executed
    and the error names the failing statement. When none fails, all seven
    were executed. *)
Theorem configureDatabase_stops_at_the_first_failure (exec : string -> option error) :
  (Forall (fun pragma => exec pragma = None) pragmas ->
   configureDatabase exec = (None, pragmas))
  /\ (forall ok pragma rest e,
        pragmas = ok ++ pragma :: rest ->
        Forall (fun pragma => exec pragma = None) ok ->
        exec pragma = Some e ->
        configureDatabase exec
        = (Some ("failed to execute " +:+ quoted pragma +:+ ": " +:+ e),
           ok ++ [pragma])).
Proof.
  unfold configureDatabase. split.
  - intros H. now rewrite (execPragmas_ok _ _ _ H).
  - intros ok pragma rest e -> Hok He. now rewrite (execPragmas_fail _ _ _ _ _ _ Hok He).
Qed.

Lemma configureDatabase_stops_at_the_first_failure_witness :
  configureDatabase
    (fun pragma => if (pragma =? "PRAGMA journal_mode = OFF")%string
                   then Some "database is locked" else None)
  = (Some ("failed to execute " +:+ quoted "PRAGMA journal_mode = OFF"
           +:+ ": database is locked"),
     ["PRAGMA cache_size = -2097152"; "PRAGMA page_size = 32768";
      "PRAGMA journal_mode = OFF"]).
Proof.
  apply (proj2 (configureDatabase_stops_at_the_first_failure _)
           ["PRAGMA cache_size = -2097152"; "PRAGMA page_size = 32768"]
           "PRAGMA journal_mode = OFF"
           ["PRAGMA synchronous = OFF"; "PRAGMA temp_store = MEMORY";
            "PRAGMA mmap_size = 137438953472"; "PRAGMA query_only = 1"]
           "database is locked").
  - reflexivity.
  - repeat constructor.
  - reflexivity.
Defined.

(** X14. [NewAPIServer] loads the catalog only on a connection that
    answered [Ping] and accepted every pragma, the last of which is
    [PRAGMA query_only = 1]: when [Ping] or a pragma fails there is no
    server, whatever the database would answer to queries, and after a
    failed [Ping] no pragma is executed. *)
Theorem startup_configures_before_loading (conn : Conn) :
  (forall e,
     Ping conn = Some e ->
     Startup.NewAPIServer (Ok conn) = (Err ("database ping failed: " +:+ e), []))
  /\ (forall ok pragma rest e,
        Ping conn = None ->
        pragmas = ok ++ pragma :: rest ->
        Forall (fun pragma => Exec conn pragma = None) ok ->
        Exec conn pragma = Some e ->
        Startup.NewAPIServer (Ok conn)
        = (Err ("failed to execute " +:+ quoted pragma +:+ ": " +:+ e), ok ++ [pragma]))
  /\ (forall s executed,
        Startup.NewAPIServer (Ok conn) = (Ok s, executed) ->
        Ping conn = None
        /\ executed = pragmas
        /\ last executed = Some "PRAGMA query_only = 1"
        /\ Forall (fun pragma => Exec conn pragma = None) pragmas
        /\ NewAPIServer (QueryDB conn) = Ok s).
Proof.
  split; [|split].
  - intros e H. unfold Startup.NewAPIServer. now rewrite H.
  - intros ok pragma rest e Hp Hsplit Hok He. unfold Startup.NewAPIServer.
    rewrite Hp. unfold configureDatabase. rewrite Hsplit.
    now rewrite (execPragmas_fail _ _ _ _ _ _ Hok He).
  - intros s executed H. unfold Startup.NewAPIServer in H.
    destruct (Ping conn) as [e|]; [discriminate H|].
    assert (Hall : Forall (fun pragma => Exec conn pragma = None) pragmas
                   \/ exists ok pragma rest e,
                        pragmas = ok ++ pragma :: rest
                        /\ Forall (fun pragma => Exec conn pragma = None) ok
                        /\ Exec conn pragma = Some e).
    { generalize pragmas. intros l. induction l as [|p l IH]; [left; constructor|].
      destruct (Exec conn p) as [e|] eqn:Hp.
      - right. exists [], p, l, e. repeat split; [constructor|exact Hp].
      - destruct IH as [IH|(ok & q & rest & e & -> & Hok & Hq)].
        + left. now constructor.
        + right. exists (p :: ok), q, rest, e. repeat split; [now constructor|exact Hq]. }
    destruct Hall as [Hall|(ok & pragma & rest & e & Hsplit & Hok & He)].
    + unfold configureDatabase in H. rewrite (execPragmas_ok _ _ _ Hall) in H.
      cbn [app] in H. injection H as H <-. now repeat split.
    + unfold configureDatabase in H. rewrite Hsplit in H.
      rewrite (execPragmas_fail _ _ _ _ _ _ Hok He) in H. discriminate H.
Qed.

Lemma startup_configures_before_loading_witness :
  Startup.NewAPIServer
    (Ok {| Ping := Some "unable to open database file";
           Exec := fun _ => None;
           QueryDB := MiniSQLite.open MiniSQLite.users |})
  = (Err "database ping failed: unable to open database file", []).
Proof.
  apply (proj1 (startup_configures_before_loading _)). reflexivity.
Defined.

(** ** Authentication and configuration *)

Lemma eqb_empty (s : string) : (s =? "")%string = true <-> s = "".
Proof. apply String.eqb_eq. Qed.

(** X15. With a user name or a password configured, [authMiddleware] lets
    a request through exactly when it carries both configured values;
    every other request is answered 401 with a [WWW-Authenticate] header
    and reaches no handler, so no statement is sent to the database. With
    nothing configured every request goes through. *)
Theorem only_the_configured_credentials_pass (config : Config)
    (basicAuth : option (string * string)) (next : Handler Outcome) :
  (Username config = "" /\ Password config = ""
   \/ basicAuth = Some (Username config, Password config) ->
   authMiddleware config basicAuth next = {| Header := []; Result := run next |})
  /\ (~ (Username config = "" /\ Password config = "") ->
      basicAuth <> Some (Username config, Password config) ->
      authMiddleware config basicAuth next
      = {| Header := [("WWW-Authenticate", "Basic realm=Authorization Required")];
           Result := (Reply 401 (ErrorBody "Unauthorized"), []) |}).
Proof.
  unfold authMiddleware. split.
  - intros [[Hu Hp]| ->].
    + rewrite Hu, Hp. reflexivity.
    + rewrite !String.eqb_refl. cbn [negb orb].
      now destruct ((Username config =? "")%string && (Password config =? "")%string).
  - intros Hcfg Hreq.
    destruct ((Username config =? "")%string && (Password config =? "")%string) eqn:E.
    + apply andb_true_iff in E as [Hu%eqb_empty Hp%eqb_empty]. now destruct Hcfg.
    + destruct basicAuth as [[username password]|]; [|reflexivity].
      destruct (username =? Username config)%string eqn:Eu;
        destruct (password =? Password config)%string eqn:Ep; cbn [negb orb];
        try reflexivity.
      apply String.eqb_eq in Eu, Ep. subst. now destruct Hreq.
Qed.

Lemma only_the_configured_credentials_pass_witness :
  authMiddleware
    {| DBPath := "app.db"; Port := 8080; Host := "0.0.0.0"; Mode := "release";
       Username := ""; Password := "s3cret" |}
    (Some ("admin", "s3cret"))
    (handleTableQuery usersServer "users" (gin.request [] ""))
  = {| Header := [("WWW-Authenticate", "Basic realm=Authorization Required")];
       Result := (Reply 401 (ErrorBody "Unauthorized"), []) |}.
Proof.
  apply only_the_configured_credentials_pass.
  - intros [_ H]. discriminate H.
  - intros H. discriminate H.
Defined.

(** X16. [parseConfig] succeeds exactly when the database path is not empty
    and [os.Stat] does not report the file as missing (any other [Stat]
    error is let through). The configuration it returns keeps the flags,
    except that a non-empty [SQLITE_REST_USERNAME] or
    [SQLITE_REST_PASSWORD] replaces the flag's value; an empty variable
    leaves it. *)
Theorem environment_credentials_override_flags (flags : Config)
    (getenv : string -> string) (stat : string -> StatResult) :
  let choose env flag := if (env =? "")%string then flag else env in
  let config :=
    {| DBPath := DBPath flags; Port := Port flags; Host := Host flags;
       Mode := Mode flags;
       Username := choose (getenv "SQLITE_REST_USERNAME") (Username flags);
       Password := choose (getenv "SQLITE_REST_PASSWORD") (Password flags) |} in
  (DBPath flags = "" ->
   parseConfig flags getenv stat = Err "database path is required")
  /\ (DBPath flags <> "" -> stat (DBPath flags) = StatNotExist ->
      parseConfig flags getenv stat
      = Err ("database file does not exist: " +:+ DBPath flags))
  /\ (DBPath flags <> "" -> stat (DBPath flags) <> StatNotExist ->
      parseConfig flags getenv stat = Ok config).
Proof.
  intros choose config.
  assert (Hcfg : forall (k : Config -> result Config),
            k (if negb (getenv "SQLITE_REST_PASSWORD" =? "")%string
               then {| DBPath := DBPath flags; Port := Port flags; Host := Host flags;
                       Mode := Mode flags;
                       Username := choose (getenv "SQLITE_REST_USERNAME") (Username flags);
                       Password := getenv "SQLITE_REST_PASSWORD" |}
               else {| DBPath := DBPath flags; Port := Port flags; Host := Host flags;
                       Mode := Mode flags;
                       Username := choose (getenv "SQLITE_REST_USERNAME") (Username flags);
                       Password := Password flags |})
            = k config).
  { intros k. subst config choose. cbv beta.
    now destruct (getenv "SQLITE_REST_PASSWORD" =? "")%string. }
  assert (Hparse : parseConfig flags getenv stat
                   = match validateConfig stat config with
                     | Some err => Err err
                     | None => Ok config
                     end).
  { unfold parseConfig. cbv zeta.
    rewrite <- (Hcfg (fun config => match validateConfig stat config with
                                    | Some err => Err err
                                    | None => Ok config
                                    end)).
    subst choose. cbv beta.
    destruct (getenv "SQLITE_REST_USERNAME" =? "")%string; cbn [negb];
      destruct flags; reflexivity. }
  rewrite Hparse. unfold validateConfig. change (DBPath config) with (DBPath flags).
  split; [|split].
  - intros ->. reflexivity.
  - intros Hne%String.eqb_neq ->. now rewrite Hne.
  - intros Hne%String.eqb_neq Hst. rewrite Hne.
    destruct (stat (DBPath flags)); [reflexivity|now destruct Hst|reflexivity].
Qed.

Lemma environment_credentials_override_flags_witness :
  parseConfig
    {| DBPath := "app.db"; Port := 8080; Host := "0.0.0.0"; Mode := "release";
       Username := "admin"; Password := "flag" |}
    (fun name => if (name =? "SQLITE_REST_PASSWORD")%string then "s3cret" else "")
    (fun _ => StatOther "permission denied")
  = Ok {| DBPath := "app.db"; Port := 8080; Host := "0.0.0.0"; Mode := "release";
          Username := "admin"; Password := "s3cret" |}.
Proof.
  apply (proj2 (proj2 (environment_credentials_override_flags
                         {| DBPath := "app.db"; Port := 8080; Host := "0.0.0.0";
                            Mode := "release"; Username := "admin";
                            Password := "flag" |}
                         (fun name => if (name =? "SQLITE_REST_PASSWORD")%string
                                      then "s3cret" else "")
                         (fun _ => StatOther "permission denied")))).
  - intros H. discriminate H.
  - intros H. discriminate H.
Defined.

(** X17. [logStartup] always writes its fourteen lines, a setting that
    cannot be read back being logged with an empty value, and its
    [Auth Enabled] line agrees with [authMiddleware]: it says [false]
    exactly when the middleware lets every request through. *)
Theorem startup_log_agrees_with_the_middleware (config : Config) (conn : sql.DB) :
  length (logStartup config conn) = 14%nat
  /\ (nth_error (logStartup config conn) 4 = Some "Auth Enabled: false"
      <-> forall basicAuth next,
            authMiddleware config basicAuth next
            = {| Header := []; Result := run next |})
  /\ (nth_error (logStartup config conn) 4 = Some "Auth Enabled: true"
      <-> forall next,
            authMiddleware config None next
            = {| Header := [("WWW-Authenticate", "Basic realm=Authorization Required")];
                 Result := (Reply 401 (ErrorBody "Unauthorized"), []) |})
  /\ (forall pragma e,
        In pragma loggedPragmas ->
        conn ("PRAGMA " +:+ pragma) [] = Err e ->
        In ("  " +:+ pragma +:+ " = ") (logStartup config conn)).
Proof.
  split; [reflexivity|].
  assert (Hline : nth_error (logStartup config conn) 4
                  = Some ("Auth Enabled: "
                          +:+ (if (Username config =? "")%string
                                  && (Password config =? "")%string
                               then "false" else "true"))).
  { unfold logStartup. cbn [nth_error app].
    now destruct (Username config =? "")%string, (Password config =? "")%string. }
  rewrite Hline. unfold authMiddleware.
  destruct ((Username config =? "")%string && (Password config =? "")%string).
  - split; [|split].
    + split; [reflexivity|]. intros _. reflexivity.
    + split; [intros H; discriminate H|]. intros H.
      specialize (H (ret (Reply 200 (ErrorBody "")))). discriminate H.
    + intros pragma e Hin He. unfold logStartup. apply in_or_app. right.
      apply in_map_iff. exists pragma. split; [|exact Hin].
      unfold QueryRowScanString. now rewrite He.
  - split; [|split].
    + split; [intros H; discriminate H|]. intros H.
      specialize (H None (ret (Reply 200 (ErrorBody "")))). discriminate H.
    + split; [|reflexivity]. intros _ next. reflexivity.
    + intros pragma e Hin He. unfold logStartup. apply in_or_app. right.
      apply in_map_iff. exists pragma. split; [|exact Hin].
      unfold QueryRowScanString. now rewrite He.
Qed.

Lemma startup_log_agrees_with_the_middleware_witness :
  In "  cache_shared = "
     (logStartup
        {| DBPath := "app.db"; Port := 8080; Host := "0.0.0.0"; Mode := "release";
           Username := ""; Password := "" |}
        (fun query params =>
           if (query =? "PRAGMA cache_shared")%string
           then Err "unknown pragma"
           else MiniSQLite.open MiniSQLite.users query params)).
Proof.
  apply (proj2 (proj2 (proj2 (startup_log_agrees_with_the_middleware _ _)))
           "cache_shared" "unknown pragma").
  - cbn. tauto.
  - reflexivity.
Defined.
